(** * Bulk import/export API: the import pipeline, its validator and scheduler

    A shallow embedding of the Go sources of the bulk import/export service
    (internal/validation, internal/service, internal/repository, internal/api,
    internal/config) together with the properties the specification states
    about them and further properties read off the code.

    Conventions.
    - A Go [string] is a Rocq [string] (a sequence of bytes); a Go [int] is a
      [Z] (no import file comes near 2^63 records, so no wrap-around is
      written out for the counters).
    - A Go [map[string]bool] or [map[string]int] is a [gmap]; reading a
      missing key gives the zero value, as in Go.
    - Functions of the Go standard library and of third-party packages
      (strings, regexp, time, google/uuid, encoding/csv, encoding/json,
      lib/pq) are not part of the repository. The pure ones are modelled in
      [GoLib]; the readers and the database driver appear through the values
      they hand to the repository code. *)

From Stdlib Require Import ZArith String Ascii List Bool Lia Sorted Permutation.
From stdpp Require Import base gmap strings list pretty.
Import ListNotations.
Local Open Scope string_scope.
Local Open Scope list_scope.
Local Open Scope Z_scope.

(* ===================================================================== *)
(** ** Go library functions used by the repository *)
(* ===================================================================== *)

Module GoLib.

(** The bytes of a string, as numbers. *)
Definition code (c : ascii) : N := N_of_ascii c.

Fixpoint bytes (s : string) : list N :=
  match s with
  | EmptyString => []
  | String c s' => code c :: bytes s'
  end.

Fixpoint unbytes (l : list N) : string :=
  match l with
  | [] => EmptyString
  | b :: l' => String (ascii_of_N b) (unbytes l')
  end.

Definition between (lo hi b : N) : bool := (N.leb lo b && N.leb b hi)%bool.

Definition isDigit (b : N) : bool := between 48 57 b.
Definition isLower (b : N) : bool := between 97 122 b.
Definition isUpper (b : N) : bool := between 65 90 b.
Definition isLetter (b : N) : bool := (isLower b || isUpper b)%bool.
Definition isHex (b : N) : bool :=
  (isDigit b || between 97 102 b || between 65 70 b)%bool.

(** [len(s)] *)
Definition len (s : string) : Z := Z.of_nat (String.length s).

(** [strings.ToLower]: the upper case letters A to Z become lower case.
    This is Go's result on ASCII text; on text with bytes outside ASCII Go
    maps the runes by the Unicode tables, where the model keeps the bytes. *)
Definition lowerByte (b : N) : N := if isUpper b then (b + 32)%N else b.

Definition strings_ToLower (s : string) : string := unbytes (map lowerByte (bytes s)).

(** [strings.HasPrefix(s, prefix)] *)
Fixpoint strings_HasPrefix (s prefix : string) {struct prefix} : bool :=
  match prefix, s with
  | EmptyString, _ => true
  | String p prefix', String c s' => (Ascii.eqb p c && strings_HasPrefix s' prefix')%bool
  | String _ _, EmptyString => false
  end.

(** White space as [unicode.IsSpace] defines it, read off the UTF-8 bytes:
    the six ASCII blanks, U+0085, U+00A0, U+1680, U+2000..U+200A, U+2028,
    U+2029, U+202F, U+205F and U+3000. *)
Definition isSpace1 (a : N) : bool :=
  (between 9 13 a || N.eqb a 32)%bool.

Definition isSpace2 (a b : N) : bool :=
  (N.eqb a 194 && (N.eqb b 133 || N.eqb b 160))%bool.

Definition isSpace3 (a b c : N) : bool :=
  ((N.eqb a 225 && N.eqb b 154 && N.eqb c 128)
   || (N.eqb a 226 && N.eqb b 128
       && (between 128 138 c || N.eqb c 168 || N.eqb c 169 || N.eqb c 175))
   || (N.eqb a 226 && N.eqb b 129 && N.eqb c 159)
   || (N.eqb a 227 && N.eqb b 128 && N.eqb c 128))%bool.

(** Drop the leading white space of a byte sequence. *)
Fixpoint trimLeft (l : list N) : list N :=
  match l with
  | [] => []
  | a :: l1 =>
      if isSpace1 a then trimLeft l1
      else match l1 with
           | [] => l
           | b :: l2 =>
               if isSpace2 a b then trimLeft l2
               else match l2 with
                    | [] => l
                    | c :: l3 => if isSpace3 a b c then trimLeft l3 else l
                    end
           end
  end.

(** The same from the end: the sequence is given reversed, so a rune's bytes
    come last byte first. *)
Fixpoint trimLeftRev (l : list N) : list N :=
  match l with
  | [] => []
  | a :: l1 =>
      if isSpace1 a then trimLeftRev l1
      else match l1 with
           | [] => l
           | b :: l2 =>
               if isSpace2 b a then trimLeftRev l2
               else match l2 with
                    | [] => l
                    | c :: l3 => if isSpace3 c b a then trimLeftRev l3 else l
                    end
           end
  end.

(** [strings.TrimSpace] *)
Definition strings_TrimSpace (s : string) : string :=
  unbytes (rev (trimLeftRev (rev (trimLeft (bytes s))))).

(** [len(strings.Fields(s))]: the number of maximal runs of bytes that are
    not white space. [inWord] tells whether the previous byte was part of a
    field. *)
Fixpoint countFields (inWord : bool) (l : list N) : Z :=
  match l with
  | [] => 0
  | a :: l1 =>
      if isSpace1 a then countFields false l1
      else match l1 with
           | b :: l2 =>
               if isSpace2 a b then countFields false l2
               else match l2 with
                    | c :: l3 =>
                        if isSpace3 a b c then countFields false l3
                        else (if inWord then 0 else 1) + countFields true l1
                    | [] => (if inWord then 0 else 1) + countFields true l1
                    end
           | [] => (if inWord then 0 else 1)
           end
  end.

Definition strings_Fields_len (s : string) : Z := countFields false (bytes s).

(** [strconv.Itoa] / the [%d] verb. *)
Definition itoa (n : Z) : string := pretty n.

(** *** Regular expressions (package regexp)

    The two patterns of the validator are anchored at both ends and use
    classes of ASCII bytes only, so a match is a match of the whole byte
    sequence. The matcher works by derivatives. *)
Inductive regex : Type :=
| RNone : regex
| REps : regex
| RClass : (N -> bool) -> regex
| RCat : regex -> regex -> regex
| RAlt : regex -> regex -> regex
| RStar : regex -> regex.

Definition RPlus (r : regex) : regex := RCat r (RStar r).
Definition RChar (c : N) : regex := RClass (N.eqb c).

Fixpoint nullable (r : regex) : bool :=
  match r with
  | RNone => false
  | REps => true
  | RClass _ => false
  | RCat r1 r2 => (nullable r1 && nullable r2)%bool
  | RAlt r1 r2 => (nullable r1 || nullable r2)%bool
  | RStar _ => true
  end.

Definition mkCat (r1 r2 : regex) : regex :=
  match r1, r2 with
  | RNone, _ => RNone
  | _, RNone => RNone
  | REps, _ => r2
  | _, _ => RCat r1 r2
  end.

Definition mkAlt (r1 r2 : regex) : regex :=
  match r1, r2 with
  | RNone, _ => r2
  | _, RNone => r1
  | _, _ => RAlt r1 r2
  end.

Fixpoint deriv (b : N) (r : regex) : regex :=
  match r with
  | RNone => RNone
  | REps => RNone
  | RClass f => if f b then REps else RNone
  | RCat r1 r2 =>
      if nullable r1
      then mkAlt (mkCat (deriv b r1) r2) (deriv b r2)
      else mkCat (deriv b r1) r2
  | RAlt r1 r2 => mkAlt (deriv b r1) (deriv b r2)
  | RStar r1 => mkCat (deriv b r1) (RStar r1)
  end.

Fixpoint matchBytes (r : regex) (l : list N) : bool :=
  match l with
  | [] => nullable r
  | b :: l' => matchBytes (deriv b r) l'
  end.

(** [re.MatchString(s)] for a pattern written [^...$]. *)
Definition MatchString (r : regex) (s : string) : bool := matchBytes r (bytes s).

(** *** google/uuid: [uuid.Parse] succeeds *)

(** The canonical form at the head of [l]: hexadecimal digits with a hyphen
    at offsets 8, 13, 18 and 23; what follows offset 35 is not looked at. *)
Definition hexAt (l : list N) (i : nat) : bool :=
  match nth_error l i with
  | Some b => isHex b
  | None => false
  end.

Definition dashAt (l : list N) (i : nat) : bool :=
  match nth_error l i with
  | Some b => N.eqb b 45
  | None => false
  end.

Definition canonicalUUID (l : list N) : bool :=
  (dashAt l 8 && dashAt l 13 && dashAt l 18 && dashAt l 23
   && forallb (hexAt l)
        [0; 1; 2; 3; 4; 5; 6; 7; 9; 10; 11; 12; 14; 15; 16; 17; 19; 20; 21; 22;
         24; 25; 26; 27; 28; 29; 30; 31; 32; 33; 34; 35]%nat)%bool.

(** [uuid.Parse(s)] returns no error: by length, the canonical 36 byte form,
    the same after [urn:uuid:] (any letter case), the same after one more
    leading byte (the braced form), or 32 hexadecimal digits. *)
Definition uuid_Parse_ok (s : string) : bool :=
  let l := bytes s in
  match length l with
  | 36%nat => canonicalUUID l
  | 45%nat =>
      (String.eqb (strings_ToLower (unbytes (firstn 9 l))) "urn:uuid:"
       && canonicalUUID (skipn 9 l))%bool
  | 38%nat => canonicalUUID (skipn 1 l)
  | 32%nat => forallb isHex l
  | _ => false
  end.

(** *** package time: [time.Parse(time.RFC3339, s)] succeeds *)

Definition digitVal (b : N) : Z := Z.of_N b - 48.

(** Two digits at the head of the input: their value and the rest. *)
Definition num2 (l : list N) : option (Z * list N) :=
  match l with
  | a :: b :: rest =>
      if (isDigit a && isDigit b)%bool
      then Some (10 * digitVal a + digitVal b, rest)
      else None
  | _ => None
  end.

(** One or two digits (the hour of the layout is read this way). *)
Definition num12 (l : list N) : option (Z * list N) :=
  match l with
  | a :: rest =>
      if isDigit a then
        match rest with
        | b :: rest' =>
            if isDigit b then Some (10 * digitVal a + digitVal b, rest')
            else Some (digitVal a, rest)
        | [] => Some (digitVal a, rest)
        end
      else None
  | [] => None
  end.

Definition num4 (l : list N) : option (Z * list N) :=
  match num2 l with
  | Some (hi, rest) =>
      match num2 rest with
      | Some (lo, rest') => Some (100 * hi + lo, rest')
      | None => None
      end
  | None => None
  end.

Definition expect (c : N) (l : list N) : option (list N) :=
  match l with
  | b :: rest => if N.eqb b c then Some rest else None
  | [] => None
  end.

Definition isLeap (y : Z) : bool :=
  ((y mod 4 =? 0) && (negb (y mod 100 =? 0) || (y mod 400 =? 0)))%bool.

Definition daysIn (m y : Z) : Z :=
  if m =? 2 then (if isLeap y then 29 else 28)
  else if (m =? 4) || (m =? 6) || (m =? 9) || (m =? 11) then 30
  else 31.

Fixpoint dropDigits (l : list N) : list N :=
  match l with
  | b :: rest => if isDigit b then dropDigits rest else l
  | [] => []
  end.

(** Fractional seconds are accepted after the seconds although the layout
    has none: a period or comma followed by at least one digit. *)
Definition dropFraction (l : list N) : list N :=
  match l with
  | p :: d :: rest =>
      if ((N.eqb p 46 || N.eqb p 44) && isDigit d)%bool then dropDigits rest else l
  | _ => l
  end.

(** The zone: [Z], or a sign, two digits, a colon and two digits. *)
Definition zoneOk (l : list N) : bool :=
  match l with
  | [z] => N.eqb z 90
  | [sg; h1; h2; c; m1; m2] =>
      ((N.eqb sg 43 || N.eqb sg 45) && N.eqb c 58
       && match num2 [h1; h2], num2 [m1; m2] with
          | Some (hh, _), Some (mm, _) => (hh <=? 24) && (mm <=? 60)
          | _, _ => false
          end)%bool
  | _ => false
  end.

Definition time_Parse_RFC3339_ok (s : string) : bool :=
  match num4 (bytes s) with
  | Some (year, l1) =>
  match expect 45 l1 with Some l2 =>
  match num2 l2 with Some (month, l3) =>
  match expect 45 l3 with Some l4 =>
  match num2 l4 with Some (day, l5) =>
  match expect 84 l5 with Some l6 =>
  match num12 l6 with Some (hour, l7) =>
  match expect 58 l7 with Some l8 =>
  match num2 l8 with Some (minute, l9) =>
  match expect 58 l9 with Some l10 =>
  match num2 l10 with Some (sec, l11) =>
    ((1 <=? month) && (month <=? 12) && (1 <=? day) && (day <=? daysIn month year)
     && (hour <? 24) && (minute <? 60) && (sec <? 60)
     && zoneOk (dropFraction l11))%bool
  | None => false end
  | None => false end
  | None => false end
  | None => false end
  | None => false end
  | None => false end
  | None => false end
  | None => false end
  | None => false end
  | None => false end
  | None => false
  end.

End GoLib.

(* ===================================================================== *)
(** ** internal/models *)
(* ===================================================================== *)

Module models.

(** [time.Time]: an instant is kept as the RFC 3339 text it was parsed from;
    the zero time is the empty text. *)
Definition Time : Type := string.

Definition ValidRoles : gmap string bool :=
  list_to_map [("admin", true); ("editor", true); ("viewer", true)].

Definition ValidStatuses : gmap string bool :=
  list_to_map [("draft", true); ("published", true)].

Definition MaxCommentWords : Z := 500.

Record User : Type := mkUser {
  User_ID : string;
  User_Email : string;
  User_Name : string;
  User_Role : string;
  User_Active : bool;
  User_CreatedAt : Time
}.

Record UserCSV : Type := mkUserCSV {
  UserCSV_ID : string;
  UserCSV_Email : string;
  UserCSV_Name : string;
  UserCSV_Role : string;
  UserCSV_Active : string;
  UserCSV_CreatedAt : string;
  UserCSV_UpdatedAt : string
}.

Record Article : Type := mkArticle {
  Article_ID : string;
  Article_Slug : string;
  Article_Title : string;
  Article_Body : string;
  Article_AuthorID : string;
  Article_Tags : list string;
  Article_Status : string;
  Article_PublishedAt : option Time
}.

Record ArticleNDJSON : Type := mkArticleNDJSON {
  ArticleNDJSON_ID : string;
  ArticleNDJSON_Slug : string;
  ArticleNDJSON_Title : string;
  ArticleNDJSON_Body : string;
  ArticleNDJSON_AuthorID : string;
  ArticleNDJSON_Tags : list string;
  ArticleNDJSON_Status : string;
  ArticleNDJSON_PublishedAt : string
}.

Record Comment : Type := mkComment {
  Comment_ID : string;
  Comment_ArticleID : string;
  Comment_UserID : string;
  Comment_Body : string;
  Comment_CreatedAt : Time
}.

Record CommentNDJSON : Type := mkCommentNDJSON {
  CommentNDJSON_ID : string;
  CommentNDJSON_ArticleID : string;
  CommentNDJSON_UserID : string;
  CommentNDJSON_Body : string;
  CommentNDJSON_CreatedAt : string
}.

Inductive JobStatus : Type :=
| JobStatusPending
| JobStatusProcessing
| JobStatusCompleted
| JobStatusFailed
| JobStatusCancelled.

Inductive JobType : Type :=
| JobTypeImport
| JobTypeExport.

(** The job row. The wall-clock fields (created_at, started_at,
    completed_at, duration_ms), the floating point rows_per_sec and the
    export-side download_url and error_report_path are left out: no counter
    depends on them. *)
Record Job : Type := mkJob {
  Job_ID : string;
  Job_Type : JobType;
  Job_Resource : string;
  Job_Status : JobStatus;
  Job_IdempotencyKey : string;
  Job_TotalRecords : Z;
  Job_ProcessedCount : Z;
  Job_SuccessfulCount : Z;
  Job_FailedCount : Z;
  Job_FilePath : string
}.

(** [Value interface{}]: nil, or the offending text. *)
Record ValidationError : Type := mkValidationError {
  Line : Z;
  Field : string;
  Message : string;
  Value : option string
}.

Record ImportRequest : Type := mkImportRequest {
  ImportRequest_Resource : string;
  ImportRequest_IdempotencyKey : string
}.

End models.

(* ===================================================================== *)
(** ** internal/validation/validator.go *)
(* ===================================================================== *)

Module validation.
Import GoLib models.

(** [^[a-zA-Z0-9._%+-]+@[a-zA-Z0-9.-]+\.[a-zA-Z]{2,}$] *)
Definition emailLocal (b : N) : bool :=
  (isLetter b || isDigit b || N.eqb b 46 || N.eqb b 95 || N.eqb b 37
   || N.eqb b 43 || N.eqb b 45)%bool.

Definition emailDomain (b : N) : bool :=
  (isLetter b || isDigit b || N.eqb b 46 || N.eqb b 45)%bool.

Definition emailRegex : regex :=
  RCat (RPlus (RClass emailLocal))
    (RCat (RChar 64)
       (RCat (RPlus (RClass emailDomain))
          (RCat (RChar 46)
             (RCat (RClass isLetter) (RCat (RClass isLetter) (RStar (RClass isLetter))))))).

(** [^[a-z0-9]+(?:-[a-z0-9]+)*$] *)
Definition slugChar (b : N) : bool := (isLower b || isDigit b)%bool.

Definition slugRegex : regex :=
  RCat (RPlus (RClass slugChar)) (RStar (RCat (RChar 45) (RPlus (RClass slugChar)))).

(** The validator's own error: no line number yet. *)
Record ValidationError : Type := mkError {
  Field : string;
  Message : string;
  Value : option string
}.

Record Validator : Type := mkValidator {
  userEmailCache : gmap string bool;
  articleSlugCache : gmap string bool;
  userIDCache : gmap string bool;
  articleIDCache : gmap string bool
}.

(** Reading a [map[string]bool]: a missing key reads as false. *)
Definition has (m : gmap string bool) (k : string) : bool := default false (m !! k).

(** [len(m)] *)
Definition mapLen (m : gmap string bool) : Z := Z.of_nat (size m).

Definition NewValidator : Validator :=
  {| userEmailCache := ∅; articleSlugCache := ∅; userIDCache := ∅; articleIDCache := ∅ |}.

Definition addAll (ids : list string) (m : gmap string bool) : gmap string bool :=
  fold_left (fun acc id => <[id := true]> acc) ids m.

Definition SetUserIDCache (v : Validator) (ids : list string) : Validator :=
  {| userEmailCache := userEmailCache v;
     articleSlugCache := articleSlugCache v;
     userIDCache := addAll ids (userIDCache v);
     articleIDCache := articleIDCache v |}.

Definition SetArticleIDCache (v : Validator) (ids : list string) : Validator :=
  {| userEmailCache := userEmailCache v;
     articleSlugCache := articleSlugCache v;
     userIDCache := userIDCache v;
     articleIDCache := addAll ids (articleIDCache v) |}.

Definition AddUserEmail (v : Validator) (email : string) : Validator :=
  {| userEmailCache := <[strings_ToLower email := true]> (userEmailCache v);
     articleSlugCache := articleSlugCache v;
     userIDCache := userIDCache v;
     articleIDCache := articleIDCache v |}.

Definition AddArticleSlug (v : Validator) (slug : string) : Validator :=
  {| userEmailCache := userEmailCache v;
     articleSlugCache := <[slug := true]> (articleSlugCache v);
     userIDCache := userIDCache v;
     articleIDCache := articleIDCache v |}.

Definition AddUserID (v : Validator) (id : string) : Validator :=
  {| userEmailCache := userEmailCache v;
     articleSlugCache := articleSlugCache v;
     userIDCache := <[id := true]> (userIDCache v);
     articleIDCache := articleIDCache v |}.

Definition AddArticleID (v : Validator) (id : string) : Validator :=
  {| userEmailCache := userEmailCache v;
     articleSlugCache := articleSlugCache v;
     userIDCache := userIDCache v;
     articleIDCache := <[id := true]> (articleIDCache v) |}.

Definition isValidUUID (s : string) : bool := uuid_Parse_ok s.

Definition isEmpty (s : string) : bool := String.eqb s "".

Definition required (field : string) : ValidationError :=
  mkError field (field +:+ " is required") None.

Definition invalid (field message value : string) : ValidationError :=
  mkError field message (Some value).

(** Each block below is one [if / else if] chain of the source; the blocks
    append to [errors] in the order they are written. *)
Definition ValidateUser (v : Validator) (user : UserCSV) (lineNum : Z) : list ValidationError :=
  (if isEmpty (UserCSV_ID user) then [required "id"]
   else if negb (isValidUUID (UserCSV_ID user))
        then [invalid "id" "invalid UUID format" (UserCSV_ID user)]
        else [])
  ++ (if isEmpty (UserCSV_Email user) then [required "email"]
      else if negb (MatchString emailRegex (UserCSV_Email user))
           then [invalid "email" "invalid email format" (UserCSV_Email user)]
           else if has (userEmailCache v) (strings_ToLower (UserCSV_Email user))
                then [invalid "email" "duplicate email" (UserCSV_Email user)]
                else [])
  ++ (if isEmpty (UserCSV_Name user) then [required "name"] else [])
  ++ (if isEmpty (UserCSV_Role user) then [required "role"]
      else if negb (has ValidRoles (UserCSV_Role user))
           then [invalid "role" "invalid role, must be one of: admin, editor, viewer"
                   (UserCSV_Role user)]
           else [])
  ++ (if negb (isEmpty (UserCSV_Active user))
         && negb (String.eqb (UserCSV_Active user) "true")
         && negb (String.eqb (UserCSV_Active user) "false")
      then [invalid "active" "active must be 'true' or 'false'" (UserCSV_Active user)]
      else [])
  ++ (if isEmpty (UserCSV_CreatedAt user) then [required "created_at"]
      else if negb (time_Parse_RFC3339_ok (UserCSV_CreatedAt user))
           then [invalid "created_at" "invalid ISO 8601 date format" (UserCSV_CreatedAt user)]
           else []).

Definition ValidateArticle (v : Validator) (article : ArticleNDJSON) (lineNum : Z)
  : list ValidationError :=
  (if isEmpty (ArticleNDJSON_ID article) then [required "id"]
   else if negb (isValidUUID (ArticleNDJSON_ID article))
        then [invalid "id" "invalid UUID format" (ArticleNDJSON_ID article)]
        else [])
  ++ (if isEmpty (ArticleNDJSON_Slug article) then [required "slug"]
      else if negb (MatchString slugRegex (ArticleNDJSON_Slug article))
           then [invalid "slug" "slug must be kebab-case (lowercase letters, numbers, hyphens)"
                   (ArticleNDJSON_Slug article)]
           else if has (articleSlugCache v) (ArticleNDJSON_Slug article)
                then [invalid "slug" "duplicate slug" (ArticleNDJSON_Slug article)]
                else [])
  ++ (if isEmpty (ArticleNDJSON_Title article) then [required "title"] else [])
  ++ (if isEmpty (ArticleNDJSON_Body article) then [required "body"] else [])
  ++ (if isEmpty (ArticleNDJSON_AuthorID article) then [required "author_id"]
      else if negb (isValidUUID (ArticleNDJSON_AuthorID article))
           then [invalid "author_id" "invalid UUID format" (ArticleNDJSON_AuthorID article)]
           else if (0 <? mapLen (userIDCache v))
                   && negb (has (userIDCache v) (ArticleNDJSON_AuthorID article))
                then [invalid "author_id" "referenced user does not exist"
                        (ArticleNDJSON_AuthorID article)]
                else [])
  ++ (if negb (isEmpty (ArticleNDJSON_Status article))
         && negb (has ValidStatuses (ArticleNDJSON_Status article))
      then [invalid "status" "invalid status, must be one of: draft, published"
              (ArticleNDJSON_Status article)]
      else [])
  ++ (if String.eqb (ArticleNDJSON_Status article) "draft"
         && negb (isEmpty (ArticleNDJSON_PublishedAt article))
      then [mkError "published_at" "draft articles must not have published_at" None]
      else [])
  ++ (if negb (isEmpty (ArticleNDJSON_PublishedAt article))
      then (if negb (time_Parse_RFC3339_ok (ArticleNDJSON_PublishedAt article))
            then [invalid "published_at" "invalid ISO 8601 date format"
                    (ArticleNDJSON_PublishedAt article)]
            else [])
      else []).

Definition ValidateComment (v : Validator) (comment : CommentNDJSON) (lineNum : Z)
  : list ValidationError :=
  (if isEmpty (CommentNDJSON_ID comment) then [required "id"]
   else if negb (isValidUUID (CommentNDJSON_ID comment))
           && negb (strings_HasPrefix (CommentNDJSON_ID comment) "cm_")
        then [invalid "id" "invalid ID format" (CommentNDJSON_ID comment)]
        else [])
  ++ (if isEmpty (CommentNDJSON_ArticleID comment) then [required "article_id"]
      else if negb (isValidUUID (CommentNDJSON_ArticleID comment))
           then [invalid "article_id" "invalid UUID format" (CommentNDJSON_ArticleID comment)]
           else if (0 <? mapLen (articleIDCache v))
                   && negb (has (articleIDCache v) (CommentNDJSON_ArticleID comment))
                then [invalid "article_id" "referenced article does not exist"
                        (CommentNDJSON_ArticleID comment)]
                else [])
  ++ (if isEmpty (CommentNDJSON_UserID comment) then [required "user_id"]
      else if negb (isValidUUID (CommentNDJSON_UserID comment))
           then [invalid "user_id" "invalid UUID format" (CommentNDJSON_UserID comment)]
           else if (0 <? mapLen (userIDCache v))
                   && negb (has (userIDCache v) (CommentNDJSON_UserID comment))
                then [invalid "user_id" "referenced user does not exist"
                        (CommentNDJSON_UserID comment)]
                else [])
  ++ (if isEmpty (CommentNDJSON_Body comment) then [required "body"]
      else let wordCount := strings_Fields_len (CommentNDJSON_Body comment) in
           if MaxCommentWords <? wordCount
           then [mkError "body"
                   ("body exceeds maximum of " +:+ itoa MaxCommentWords
                    +:+ " words (has " +:+ itoa wordCount +:+ ")") None]
           else [])
  ++ (if isEmpty (CommentNDJSON_CreatedAt comment) then [required "created_at"]
      else if negb (time_Parse_RFC3339_ok (CommentNDJSON_CreatedAt comment))
           then [invalid "created_at" "invalid ISO 8601 date format"
                   (CommentNDJSON_CreatedAt comment)]
           else []).

(** The errors of a result that are on a given field. *)
Definition onField (field : string) (errors : list ValidationError) : list ValidationError :=
  filter (fun e => Field e = field) errors.

End validation.

(* ===================================================================== *)
(** ** internal/repository: the COPY based batch insert *)
(* ===================================================================== *)

Module repository.
Import GoLib models.

(** A Go [error]: nil, or an error with its text. *)
Definition error : Type := option string.

(** What the database driver answers during one [BatchInsert]: whether
    [BeginTx] and [PrepareContext] fail, whether the [ExecContext] that
    hands over row [i] of the batch fails, whether the final [ExecContext]
    (the end of the COPY) fails, and whether [Commit] fails. *)
Record CopySession : Type := mkCopySession {
  beginErr : error;
  prepareErr : error;
  rowErr : nat -> bool;
  flushErr : error;
  commitErr : error
}.

(** The [for _, row := range batch] loop: a row whose exec fails is skipped
    ([continue]); the others reach the COPY buffer and are counted. The
    result is the buffered rows and [inserted]. *)
Fixpoint copyRows {R : Type} (rowErr : nat -> bool) (i : nat) (batch : list R) : list R * Z :=
  match batch with
  | [] => ([], 0)
  | row :: rest =>
      let '(buffered, inserted) := copyRows rowErr (S i) rest in
      if rowErr i then (buffered, inserted)
      else (row :: buffered, inserted + 1)
  end.

(** [BatchInsert]: the three repositories share this body (the article one
    also renders the tags as JSON text, which the count does not depend on).
    The table is what is committed; every error return leaves through the
    deferred [tx.Rollback()], which drops the buffered rows. *)
Definition BatchInsert {R : Type} (db : CopySession) (table : list R) (batch : list R)
  : list R * (Z * error) :=
  if Z.of_nat (length batch) =? 0 then (table, (0, None))
  else match beginErr db with
       | Some e => (table, (0, Some e))
       | None =>
       match prepareErr db with
       | Some e => (table, (0, Some e))
       | None =>
           let '(buffered, inserted) := copyRows (rowErr db) 0 batch in
           match flushErr db with
           | Some e => (table, (0, Some e))
           | None =>
           match commitErr db with
           | Some e => (table, (0, Some e))
           | None => ((table ++ buffered)%list, (inserted, None))
           end
           end
       end
       end.

Definition userRepo_BatchInsert := @BatchInsert User.
Definition articleRepo_BatchInsert := @BatchInsert Article.
Definition commentRepo_BatchInsert := @BatchInsert Comment.

(** A driver on which every call succeeds, and one on which only the exec
    of row [k] fails. *)
Definition healthy : CopySession :=
  {| beginErr := None; prepareErr := None; rowErr := fun _ => false;
     flushErr := None; commitErr := None |}.

Definition rowFails (k : nat) : CopySession :=
  {| beginErr := None; prepareErr := None; rowErr := Nat.eqb k;
     flushErr := None; commitErr := None |}.

(** *** job_repo.go: the jobs table

    The table is the list of its rows in insertion order. The schema makes
    [id] the primary key and [idempotency_key] UNIQUE; [nullString] stores
    an empty key as NULL, which no UNIQUE check and no [WHERE
    idempotency_key = $1] ever matches. *)
Definition keyMatches (key : string) (j : Job) : bool :=
  (negb (String.eqb (Job_IdempotencyKey j) "") && String.eqb (Job_IdempotencyKey j) key)%bool.

Definition idMatches (id : string) (j : Job) : bool := String.eqb (Job_ID j) id.

(** [Create]: [execErr] is the error of [ExecContext] when the INSERT
    fails for another reason than the two constraints (a lost connection,
    a context that is done, a value that a column does not take); otherwise
    it fails when the row would break one of the two constraints. *)
Definition jobRepo_Create (execErr : error) (table : list Job) (job : Job)
  : list Job * error :=
  match execErr with
  | Some e => (table, Some e)
  | None =>
      if existsb (idMatches (Job_ID job)) table
      then (table, Some "duplicate key value violates unique constraint jobs_pkey")
      else if existsb (keyMatches (Job_IdempotencyKey job)) table
           then (table,
                 Some "duplicate key value violates unique constraint jobs_idempotency_key_key")
           else ((table ++ [job])%list, None)
  end.

(** [GetByIdempotencyKey]: [queryErr] is the error of the query when it
    does not answer, returned as [nil, err]; a query that answers gives
    the first row with that key, or [nil, nil] when there is none
    ([sql.ErrNoRows]). *)
Definition jobRepo_GetByIdempotencyKey (queryErr : error) (table : list Job) (key : string)
  : option Job * error :=
  match queryErr with
  | Some e => (None, Some e)
  | None => (List.find (keyMatches key) table, None)
  end.

Definition setStatus (s : JobStatus) (j : Job) : Job :=
  {| Job_ID := Job_ID j; Job_Type := Job_Type j; Job_Resource := Job_Resource j;
     Job_Status := s; Job_IdempotencyKey := Job_IdempotencyKey j;
     Job_TotalRecords := Job_TotalRecords j; Job_ProcessedCount := Job_ProcessedCount j;
     Job_SuccessfulCount := Job_SuccessfulCount j; Job_FailedCount := Job_FailedCount j;
     Job_FilePath := Job_FilePath j |}.

Definition isPending (s : JobStatus) : bool :=
  match s with JobStatusPending => true | _ => false end.

(** [MarkJobAsProcessing]: one UPDATE ... WHERE id = $2 AND status =
    'pending'; the answer is whether a row was affected. *)
Definition claimRow (jobID : string) (j : Job) : Job :=
  if (idMatches jobID j && isPending (Job_Status j))%bool
  then setStatus JobStatusProcessing j else j.

Definition jobRepo_MarkJobAsProcessing (table : list Job) (jobID : string) : list Job * bool :=
  (map (claimRow jobID) table,
   existsb (fun j => (idMatches jobID j && isPending (Job_Status j))%bool) table).

(* --------------------------------------------------------------------- *)
(** ** The jobs table and the error store (internal/repository/job_repo.go) *)
(* --------------------------------------------------------------------- *)

(** [Update]: UPDATE jobs SET status, the four counters (and the metrics and
    timestamps left out here) WHERE id = $12. The id, type, resource,
    idempotency key and file path of the row are not written. *)
Definition updateRow (job : Job) (row : Job) : Job :=
  if idMatches (Job_ID job) row
  then {| Job_ID := Job_ID row; Job_Type := Job_Type row; Job_Resource := Job_Resource row;
          Job_Status := Job_Status job; Job_IdempotencyKey := Job_IdempotencyKey row;
          Job_TotalRecords := Job_TotalRecords job;
          Job_ProcessedCount := Job_ProcessedCount job;
          Job_SuccessfulCount := Job_SuccessfulCount job;
          Job_FailedCount := Job_FailedCount job;
          Job_FilePath := Job_FilePath row |}
  else row.

(** [execErr] is what [ExecContext] answers: an error (a lost connection, a
    context that is done) leaves the table as it is. *)
Definition jobRepo_Update (execErr : error) (table : list Job) (job : Job)
  : list Job * error :=
  match execErr with
  | Some e => (table, Some e)
  | None => (map (updateRow job) table, None)
  end.

(** [GetPendingJobs]: SELECT id, type, resource, file_path, created_at ...
    WHERE status = 'pending'. Only these columns are scanned, so the other
    fields of the structs handed out are zero; the status is set to pending
    by the loop. [queryErr] is what [QueryContext] answers. *)
Definition pendingView (row : Job) : Job :=
  {| Job_ID := Job_ID row; Job_Type := Job_Type row; Job_Resource := Job_Resource row;
     Job_Status := JobStatusPending; Job_IdempotencyKey := "";
     Job_TotalRecords := 0; Job_ProcessedCount := 0; Job_SuccessfulCount := 0;
     Job_FailedCount := 0; Job_FilePath := Job_FilePath row |}.

Definition jobRepo_GetPendingJobs (queryErr : error) (table : list Job) : list Job * error :=
  match queryErr with
  | Some e => ([], Some e)
  | None => (map pendingView (List.filter (fun j => isPending (Job_Status j)) table), None)
  end.

(** *** job_errors *)

(** A row of [job_errors]; [value] is a nullable column. *)
Record ErrorRow : Type := mkErrorRow {
  job_id : string;
  line_number : Z;
  field : string;
  message : string;
  value : option string
}.

(** The type switch on [e.Value]: the text of a string, the empty text for
    nil (and for anything that is not a string). *)
Definition valueStr (v : option string) : string :=
  match v with
  | Some s => s
  | None => ""
  end.

Definition errorRow (jobID : string) (e : models.ValidationError) : ErrorRow :=
  {| job_id := jobID; line_number := Line e; field := Field e; message := Message e;
     value := Some (valueStr (Value e)) |}.

(** [AddErrors]: nothing for an empty slice; otherwise one COPY in one
    transaction. The result of the exec of a row is not looked at: a row
    whose exec fails is missing from the buffer and nothing else happens.
    Every error return leaves through the deferred rollback. *)
Definition jobRepo_AddErrors (db : CopySession) (table : list ErrorRow) (jobID : string)
  (errors : list models.ValidationError) : list ErrorRow * error :=
  if Z.of_nat (length errors) =? 0 then (table, None)
  else match beginErr db with
       | Some e => (table, Some e)
       | None =>
       match prepareErr db with
       | Some e => (table, Some e)
       | None =>
           let buffered := fst (copyRows (rowErr db) 0 (map (errorRow jobID) errors)) in
           match flushErr db with
           | Some e => (table, Some e)
           | None =>
           match commitErr db with
           | Some e => (table, Some e)
           | None => ((table ++ buffered)%list, None)
           end
           end
       end
       end.

(** [AddErrors] on the errors themselves: those of the slice whose rows
    the call leaves in the table. None when the transaction does not
    commit; otherwise those whose exec did not fail. *)
Definition keptBy (db : CopySession) (errors : list models.ValidationError)
  : list models.ValidationError :=
  if Z.of_nat (length errors) =? 0 then []
  else match beginErr db, prepareErr db, flushErr db, commitErr db with
       | None, None, None, None => fst (copyRows (rowErr db) 0 errors)
       | _, _, _, _ => []
       end.

(** ORDER BY line_number: an insertion sort on the line number, which keeps
    the rows of one line in the order in which they reach it. That order is
    the database's choice; [jobRepo_GetErrors] takes it as [arrival]. *)
Fixpoint insertByLine (r : ErrorRow) (sorted : list ErrorRow) : list ErrorRow :=
  match sorted with
  | [] => [r]
  | x :: rest =>
      if line_number r <=? line_number x then r :: sorted
      else x :: insertByLine r rest
  end.

Definition orderByLine (rows : list ErrorRow) : list ErrorRow :=
  fold_right insertByLine [] rows.

(** The scan of a row: [e.Value] is set only for a value that is not
    NULL. *)
Definition scanError (r : ErrorRow) : models.ValidationError :=
  {| Line := line_number r; Field := field r; Message := message r; Value := value r |}.

(** [GetErrors]: the rows of the job in line order, at most [limit] of them
    when [limit > 0]. [queryErr] is what [QueryContext] answers, and
    [arrival] the order in which the rows of the job reach the sort during
    this query (some arrangement of them): the query fixes the order of two
    rows only when their line numbers differ. [rowsErr] is what
    [rows.Err()] reports after the loop: None when [rows.Next()] delivered
    the rows to the end, or the number of rows delivered before the
    iteration broke, and its error; the errors scanned so far are returned
    with it. (The columns are NOT NULL but for [value], which is scanned
    into a [sql.NullString]: the [Scan] of a row does not fail.) *)
Definition jobRepo_GetErrors (queryErr : error) (arrival : list ErrorRow -> list ErrorRow)
  (rowsErr : option (nat * string)) (table : list ErrorRow) (jobID : string) (limit : Z)
  : list models.ValidationError * error :=
  match queryErr with
  | Some e => ([], Some e)
  | None =>
      let rows :=
        orderByLine (arrival (List.filter (fun r => String.eqb (job_id r) jobID) table)) in
      let selected := if 0 <? limit then firstn (Z.to_nat limit) rows else rows in
      match rowsErr with
      | None => (map scanError selected, None)
      | Some (delivered, e) => (map scanError (firstn delivered selected), Some e)
      end
  end.


End repository.

(* ===================================================================== *)
(** ** Configuration (internal/config) *)
(* ===================================================================== *)

Module config.
Import GoLib repository.

(** [time.Duration]: nanoseconds. *)
Definition Duration : Type := Z.
Definition Second : Duration := 1000000000.
Definition Minute : Duration := 60 * Second.

Record ServerConfig : Type := mkServerConfig {
  Server_Port : string;
  ReadTimeout : Duration;
  WriteTimeout : Duration;
  ShutdownTimeout : Duration
}.

Record DatabaseConfig : Type := mkDatabaseConfig {
  Host : string;
  Port : string;
  User : string;
  Password : string;
  Name : string;
  SSLMode : string;
  MaxOpenConns : Z;
  MaxIdleConns : Z;
  MaxLifetime : Duration
}.

Record ImportConfig : Type := mkImportConfig {
  BatchSize : Z;
  MaxUploadSize : Z;
  UploadDir : string
}.

Record LogConfig : Type := mkLogConfig {
  Level : string;
  Format : string
}.

Record Config : Type := mkConfig {
  Server : ServerConfig;
  Database : DatabaseConfig;
  Import : ImportConfig;
  Log : LogConfig
}.

(** The environment: [os.Getenv], which gives the empty string for a
    variable that is not set. *)
Definition Env : Type := string -> string.

(** [strconv.Atoi] and [strconv.ParseInt(s, 10, 64)] on a 64-bit platform:
    an optional sign, then at least one decimal digit and nothing else; a
    value outside the range of int64 is an error. *)
Fixpoint digitsValue (acc : Z) (l : list N) : option Z :=
  match l with
  | [] => Some acc
  | b :: rest => if isDigit b then digitsValue (10 * acc + digitVal b) rest else None
  end.

Definition strconv_Atoi (s : string) : option Z :=
  let l := bytes s in
  let '(negative, digits) :=
    match l with
    | b :: rest => if N.eqb b 45 then (true, rest)
                   else if N.eqb b 43 then (false, rest) else (false, l)
    | [] => (false, l)
    end in
  match digits with
  | [] => None
  | _ :: _ =>
      match digitsValue 0 digits with
      | Some n =>
          let v := if negative then - n else n in
          if (- 2 ^ 63 <=? v) && (v <=? 2 ^ 63 - 1) then Some v else None
      | None => None
      end
  end.

Definition getEnv (env : Env) (key defaultValue : string) : string :=
  if negb (String.eqb (env key) "") then env key else defaultValue.

Definition getIntEnv (env : Env) (key : string) (defaultValue : Z) : Z :=
  if negb (String.eqb (env key) "")
  then match strconv_Atoi (env key) with
       | Some intVal => intVal
       | None => defaultValue
       end
  else defaultValue.

Definition getInt64Env (env : Env) (key : string) (defaultValue : Z) : Z :=
  if negb (String.eqb (env key) "")
  then match strconv_Atoi (env key) with
       | Some intVal => intVal
       | None => defaultValue
       end
  else defaultValue.

Section Durations.
(** [time.ParseDuration]: the duration, or None for an error. *)
Variable time_ParseDuration : string -> option Duration.

Definition getDurationEnv (env : Env) (key : string) (defaultValue : Duration) : Duration :=
  if negb (String.eqb (env key) "")
  then match time_ParseDuration (env key) with
       | Some duration => duration
       | None => defaultValue
       end
  else defaultValue.

(** [Validate] *)
Definition Validate (c : Config) : error :=
  if String.eqb (Host (Database c)) "" then Some "DB_HOST is required"
  else if String.eqb (Name (Database c)) "" then Some "DB_NAME is required"
  else None.

(** [Load] *)
Definition Load (env : Env) : option Config * error :=
  let cfg :=
    {| Server :=
         {| Server_Port := getEnv env "PORT" "8080";
            ReadTimeout := getDurationEnv env "SERVER_READ_TIMEOUT" (30 * Second);
            WriteTimeout := getDurationEnv env "SERVER_WRITE_TIMEOUT" (300 * Second);
            ShutdownTimeout := getDurationEnv env "SERVER_SHUTDOWN_TIMEOUT" (30 * Second) |};
       Database :=
         {| Host := getEnv env "DB_HOST" "localhost";
            Port := getEnv env "DB_PORT" "5432";
            User := getEnv env "DB_USER" "postgres";
            Password := getEnv env "DB_PASSWORD" "postgres";
            Name := getEnv env "DB_NAME" "bulk_import_export";
            SSLMode := getEnv env "DB_SSLMODE" "disable";
            MaxOpenConns := getIntEnv env "DB_MAX_OPEN_CONNS" 25;
            MaxIdleConns := getIntEnv env "DB_MAX_IDLE_CONNS" 5;
            MaxLifetime := getDurationEnv env "DB_MAX_LIFETIME" (5 * Minute) |};
       Import :=
         {| BatchSize := getIntEnv env "IMPORT_BATCH_SIZE" 1000;
            MaxUploadSize := getInt64Env env "MAX_UPLOAD_SIZE" (500 * 1024 * 1024);
            UploadDir := getEnv env "UPLOAD_DIR" "./data/uploads" |};
       Log :=
         {| Level := getEnv env "LOG_LEVEL" "info";
            Format := getEnv env "LOG_FORMAT" "json" |} |} in
  match Validate cfg with
  | Some err => (None, Some err)
  | None => (Some cfg, None)
  end.

End Durations.

(** [GetDSN] *)
Definition GetDSN (c : DatabaseConfig) : string :=
  "host=" +:+ Host c +:+ " port=" +:+ Port c +:+ " user=" +:+ User c
  +:+ " password=" +:+ Password c +:+ " dbname=" +:+ Name c +:+ " sslmode=" +:+ SSLMode c.

End config.

(* ===================================================================== *)
(** ** internal/service/import_service.go *)
(* ===================================================================== *)

Module service.
Import GoLib models validation repository.

Definition errorFlushThreshold : Z := 1000.

(** [len] of a slice. *)
Definition slen {A : Type} (l : list A) : Z := Z.of_nat (length l).

(** [s[i]] on a slice: outside [0, len) the Go runtime panics with an index
    out of range, which is [None] here. *)
Definition index {A : Type} (s : list A) (i : Z) : option A :=
  if (i <? 0) || (slen s <=? i) then None else s !! Z.to_nat i.

(** The header loop of [processUsersCSV]:
    [for i, h := range header { headerMap[ToLower(TrimSpace(h))] = i }]. *)
Definition headerStep (acc : Z * gmap string Z) (h : string) : Z * gmap string Z :=
  (fst acc + 1, <[strings_ToLower (strings_TrimSpace h) := fst acc]> (snd acc)).

Definition buildHeaderMap (header : list string) : gmap string Z :=
  snd (fold_left headerStep header (0, ∅)).

(** [getField]. The result is [None] exactly when [record[idx]] would
    panic. *)
Definition getField (record : list string) (headerMap : gmap string Z) (field : string)
  : option string :=
  match headerMap !! field with
  | Some idx =>
      if idx <? slen record
      then option_map strings_TrimSpace (index record idx)
      else Some ""
  | None => Some ""
  end.

(** The struct literal that fills [models.UserCSV] from a row; a panic in
    any of the seven lookups is a panic of the whole. *)
Definition parseUserRow (record : list string) (headerMap : gmap string Z) : option UserCSV :=
  match getField record headerMap "id", getField record headerMap "email",
        getField record headerMap "name", getField record headerMap "role",
        getField record headerMap "active", getField record headerMap "created_at",
        getField record headerMap "updated_at" with
  | Some id, Some email, Some name, Some role, Some active, Some createdAt, Some updatedAt =>
      Some (mkUserCSV id email name role active createdAt updatedAt)
  | _, _, _, _, _, _, _ => None
  end.

(** [time.Parse(time.RFC3339, s)] with the error dropped: the zero time
    when the text does not parse. *)
Definition parseTime (s : string) : Time :=
  if time_Parse_RFC3339_ok s then s else "".

Definition convertCSVToUser (csv : UserCSV) : User :=
  {| User_ID := UserCSV_ID csv;
     User_Email := UserCSV_Email csv;
     User_Name := UserCSV_Name csv;
     User_Role := UserCSV_Role csv;
     User_Active := String.eqb (UserCSV_Active csv) "true";
     User_CreatedAt := parseTime (UserCSV_CreatedAt csv) |}.

Definition convertNDJSONToArticle (ndjson : ArticleNDJSON) : Article :=
  {| Article_ID := ArticleNDJSON_ID ndjson;
     Article_Slug := ArticleNDJSON_Slug ndjson;
     Article_Title := ArticleNDJSON_Title ndjson;
     Article_Body := ArticleNDJSON_Body ndjson;
     Article_AuthorID := ArticleNDJSON_AuthorID ndjson;
     Article_Tags := ArticleNDJSON_Tags ndjson;
     Article_Status :=
       if String.eqb (ArticleNDJSON_Status ndjson) "" then "draft"
       else ArticleNDJSON_Status ndjson;
     Article_PublishedAt :=
       if String.eqb (ArticleNDJSON_PublishedAt ndjson) "" then None
       else Some (parseTime (ArticleNDJSON_PublishedAt ndjson)) |}.

Definition convertNDJSONToComment (ndjson : CommentNDJSON) : Comment :=
  {| Comment_ID := CommentNDJSON_ID ndjson;
     Comment_ArticleID := CommentNDJSON_ArticleID ndjson;
     Comment_UserID := CommentNDJSON_UserID ndjson;
     Comment_Body := CommentNDJSON_Body ndjson;
     Comment_CreatedAt := parseTime (CommentNDJSON_CreatedAt ndjson) |}.

(** *** The counters of a job *)

Definition setCounters (total processed successful failed : Z) (j : Job) : Job :=
  {| Job_ID := Job_ID j; Job_Type := Job_Type j; Job_Resource := Job_Resource j;
     Job_Status := Job_Status j; Job_IdempotencyKey := Job_IdempotencyKey j;
     Job_TotalRecords := total; Job_ProcessedCount := processed;
     Job_SuccessfulCount := successful; Job_FailedCount := failed;
     Job_FilePath := Job_FilePath j |}.

(** [job.TotalRecords++] *)
Definition incTotal (j : Job) : Job :=
  setCounters (Job_TotalRecords j + 1) (Job_ProcessedCount j)
    (Job_SuccessfulCount j) (Job_FailedCount j) j.

(** [job.FailedCount++; job.ProcessedCount++] *)
Definition countRejected (j : Job) : Job :=
  setCounters (Job_TotalRecords j) (Job_ProcessedCount j + 1)
    (Job_SuccessfulCount j) (Job_FailedCount j + 1) j.

(** The accounting after a [BatchInsert] of [n] records that returned
    [(inserted, err)]. *)
Definition countBatch (n : Z) (res : Z * error) (j : Job) : Job :=
  match snd res with
  | Some _ =>
      setCounters (Job_TotalRecords j) (Job_ProcessedCount j + n)
        (Job_SuccessfulCount j) (Job_FailedCount j + n) j
  | None =>
      setCounters (Job_TotalRecords j) (Job_ProcessedCount j + n)
        (Job_SuccessfulCount j + fst res) (Job_FailedCount j) j
  end.

(** *** The state of one pipeline run

    The local variables of a [process...] function, the job it mutates, the
    rows of [job_errors] written so far for this job, and the number of
    [BatchInsert] calls made. [rejected] is a history variable, absent from
    the source: the lines whose record was counted as failed before it
    reached a batch, latest first. [errorDriver n] is how the database
    driver behaves during the n-th [AddErrors] of the run, and [flushes] is
    the number of [AddErrors] calls made: a call appends to [job_errors]
    the errors that reach the table ([keptBy]), which may be none of
    them. *)
Record Run (Rec : Type) : Type := mkRun {
  job : Job;
  validator : Validator;
  batch : list Rec;
  validationErrors : list models.ValidationError;
  lineNum : Z;
  job_errors : list models.ValidationError;
  inserts : nat;
  rejected : list Z;
  errorDriver : nat -> CopySession;
  flushes : nat
}.
Arguments mkRun {Rec}.
Arguments job {Rec}.
Arguments validator {Rec}.
Arguments batch {Rec}.
Arguments validationErrors {Rec}.
Arguments lineNum {Rec}.
Arguments job_errors {Rec}.
Arguments inserts {Rec}.
Arguments rejected {Rec}.
Arguments errorDriver {Rec}.
Arguments flushes {Rec}.

(** How a read loop ends: the input is exhausted, or the function returned
    from inside the loop. *)
Inductive LoopExit : Type :=
| Drained
| Returned (err : error).

(** One line of an NDJSON file: its text, and what [json.Unmarshal] makes of
    it (the error text, or the decoded struct). *)
Record ScanLine (Raw : Type) : Type := mkScanLine {
  text : string;
  unmarshal : string + Raw
}.
Arguments mkScanLine {Raw}.
Arguments text {Raw}.
Arguments unmarshal {Raw}.

(** A staged NDJSON file as [bufio.Scanner] delivers it: the lines, then the
    error [scanner.Err()] reports once [Scan] has returned false. *)
Record NDJSONFile (Raw : Type) : Type := mkNDJSONFile {
  ndLines : list (ScanLine Raw);
  scannerErr : error
}.
Arguments mkNDJSONFile {Raw}.
Arguments ndLines {Raw}.
Arguments scannerErr {Raw}.

(** A staged CSV file as [csv.Reader] delivers it: the result of the first
    [Read] (None for an error, end of file included) and of each later one
    (a record, or None for a parse error; the end of the list is io.EOF). *)
Record CSVFile : Type := mkCSVFile {
  csvHeader : option (list string);
  csvRows : list (option (list string))
}.



Definition ctxCanceled : error := Some "context canceled".

Section Pipeline.

Context {Raw Rec : Type}.
(** The validator entry point, the cache updates after an accepted record,
    and the conversion to the storage shape. *)
Variable validate : Validator -> Raw -> Z -> list validation.ValidationError.
Variable remember : Validator -> Raw -> Validator.
Variable convert : Raw -> Rec.
(** [ctx.Done()] is readable when the checkpoint at this line is reached. *)
Variable ctxDone : Z -> bool.
(** The answer of the repository to the n-th [BatchInsert] of the run. *)
Variable batchInsert : nat -> list Rec -> Z * error.
Variable batchSize : Z.

Definition withLine (line : Z) (e : validation.ValidationError) : models.ValidationError :=
  {| models.Line := line; models.Field := validation.Field e;
     models.Message := validation.Message e; models.Value := validation.Value e |}.

(** [flushValidationErrors]: nothing for an empty slice; otherwise
    [AddErrors], whose error is only logged, and the slice is cut back to
    length 0 whether or not the call stored it. *)
Definition flushValidationErrors (st : Run Rec) : Run Rec :=
  if slen (validationErrors st) =? 0 then st
  else {| job := job st; validator := validator st; batch := batch st;
          validationErrors := [];
          lineNum := lineNum st;
          job_errors :=
            job_errors st ++ keptBy (errorDriver st (flushes st)) (validationErrors st);
          inserts := inserts st; rejected := rejected st;
          errorDriver := errorDriver st; flushes := S (flushes st) |}.

(** [if len(validationErrors) >= errorFlushThreshold { flush }] *)
Definition flushIfFull (st : Run Rec) : Run Rec :=
  if errorFlushThreshold <=? slen (validationErrors st)
  then flushValidationErrors st else st.

(** The record did not validate (or did not decode): count it, buffer its
    errors under the current line, flush when the buffer is full. *)
Definition reject (errors : list validation.ValidationError) (st : Run Rec) : Run Rec :=
  flushIfFull
    {| job := countRejected (job st); validator := validator st; batch := batch st;
       validationErrors := validationErrors st ++ map (withLine (lineNum st)) errors;
       lineNum := lineNum st; job_errors := job_errors st; inserts := inserts st;
       rejected := lineNum st :: rejected st;
       errorDriver := errorDriver st; flushes := flushes st |}.

(** [BatchInsert] of the current batch and the accounting that follows. *)
Definition insertBatch (st : Run Rec) : Run Rec :=
  {| job := countBatch (slen (batch st)) (batchInsert (inserts st) (batch st)) (job st);
     validator := validator st; batch := batch st;
     validationErrors := validationErrors st; lineNum := lineNum st;
     job_errors := job_errors st; inserts := S (inserts st); rejected := rejected st;
     errorDriver := errorDriver st; flushes := flushes st |}.

(** [batch = batch[:0]] *)
Definition clearBatch (st : Run Rec) : Run Rec :=
  {| job := job st; validator := validator st; batch := [];
     validationErrors := validationErrors st; lineNum := lineNum st;
     job_errors := job_errors st; inserts := inserts st; rejected := rejected st;
     errorDriver := errorDriver st; flushes := flushes st |}.

(** The record validated: convert, append to the batch, update the caches,
    insert when the batch has reached [batchSize]. *)
Definition accept (raw : Raw) (st : Run Rec) : Run Rec :=
  let st1 :=
    {| job := job st; validator := remember (validator st) raw;
       batch := batch st ++ [convert raw];
       validationErrors := validationErrors st; lineNum := lineNum st;
       job_errors := job_errors st; inserts := inserts st; rejected := rejected st;
       errorDriver := errorDriver st; flushes := flushes st |} in
  if batchSize <=? slen (batch st1) then clearBatch (insertBatch st1) else st1.

(** From [errors := validator.Validate...(record, lineNum)] to the end of
    the loop body. *)
Definition processRecord (raw : Raw) (st : Run Rec) : Run Rec :=
  let errors := validate (validator st) raw (lineNum st) in
  if 0 <? slen errors then reject errors st else accept raw st.

(** [lineNum++] and [job.TotalRecords++] *)
Definition nextLine (st : Run Rec) : Run Rec :=
  {| job := job st; validator := validator st; batch := batch st;
     validationErrors := validationErrors st; lineNum := lineNum st + 1;
     job_errors := job_errors st; inserts := inserts st; rejected := rejected st;
     errorDriver := errorDriver st; flushes := flushes st |}.

Definition countRecord (st : Run Rec) : Run Rec :=
  {| job := incTotal (job st); validator := validator st; batch := batch st;
     validationErrors := validationErrors st; lineNum := lineNum st;
     job_errors := job_errors st; inserts := inserts st; rejected := rejected st;
     errorDriver := errorDriver st; flushes := flushes st |}.

(** [if lineNum%10000 == 0 { select { case <-ctx.Done(): return ctx.Err() ... } }] *)
Definition atCancelledCheckpoint (st : Run Rec) : bool :=
  (lineNum st mod 10000 =? 0) && ctxDone (lineNum st).

(** After the loop: the remaining batch, then the buffered errors; the
    result of this last [AddErrors] is not looked at. *)
Definition finish (st : Run Rec) : Run Rec :=
  let st1 := if 0 <? slen (batch st) then insertBatch st else st in
  if 0 <? slen (validationErrors st1)
  then {| job := job st1; validator := validator st1; batch := batch st1;
          validationErrors := validationErrors st1; lineNum := lineNum st1;
          job_errors :=
            job_errors st1 ++ keptBy (errorDriver st1 (flushes st1)) (validationErrors st1);
          inserts := inserts st1; rejected := rejected st1;
          errorDriver := errorDriver st1; flushes := S (flushes st1) |}
  else st1.

(** The [for scanner.Scan()] loop of the two NDJSON pipelines. *)
Fixpoint scanLoop (lines : list (ScanLine Raw)) (st : Run Rec) : LoopExit * Run Rec :=
  match lines with
  | [] => (Drained, st)
  | ln :: rest =>
      let st1 := nextLine st in
      if String.eqb (strings_TrimSpace (text ln)) "" then scanLoop rest st1
      else
        let st2 := countRecord st1 in
        if atCancelledCheckpoint st2 then (Returned ctxCanceled, st2)
        else match unmarshal ln with
             | inl detail =>
                 scanLoop rest
                   (reject [mkError "json" ("invalid JSON: " +:+ detail) None] st2)
             | inr raw => scanLoop rest (processRecord raw st2)
             end
  end.

(** An NDJSON pipeline from the first [Scan] to its return. *)
Definition runNDJSON (file : NDJSONFile Raw) (st : Run Rec) : error * Run Rec :=
  match scanLoop (ndLines file) st with
  | (Returned err, st') => (err, st')
  | (Drained, st') => (scannerErr file, finish st')
  end.

End Pipeline.

(** The first state of a run: [lineNum] starts at 1 for CSV (the header) and
    at 0 for NDJSON. *)
Definition start {Rec : Type} (j : Job) (v : Validator) (line : Z)
  (stored : list models.ValidationError) (driver : nat -> CopySession) : Run Rec :=
  {| job := j; validator := v; batch := []; validationErrors := [];
     lineNum := line; job_errors := stored; inserts := 0; rejected := [];
     errorDriver := driver; flushes := 0 |}.

Definition rememberUser (v : Validator) (u : UserCSV) : Validator :=
  AddUserID (AddUserEmail v (UserCSV_Email u)) (UserCSV_ID u).

Definition rememberArticle (v : Validator) (a : ArticleNDJSON) : Validator :=
  AddArticleID (AddArticleSlug v (ArticleNDJSON_Slug a)) (ArticleNDJSON_ID a).

Definition rememberComment (v : Validator) (c : CommentNDJSON) : Validator := v.

(** The [for] loop of [processUsersCSV]. A row the reader reports an error
    for is skipped before [lineNum] moves. A panic while the row is read
    (see [getField]) ends the run with that panic. *)
Fixpoint readLoop (ctxDone : Z -> bool) (batchInsert : nat -> list User -> Z * error)
  (batchSize : Z) (headerMap : gmap string Z) (rows : list (option (list string)))
  (st : Run User) : LoopExit * Run User :=
  match rows with
  | [] => (Drained, st)
  | None :: rest => readLoop ctxDone batchInsert batchSize headerMap rest st
  | Some record :: rest =>
      let st1 := countRecord (nextLine st) in
      if atCancelledCheckpoint ctxDone st1 then (Returned ctxCanceled, st1)
      else match parseUserRow record headerMap with
           | None => (Returned (Some "panic: index out of range"), st1)
           | Some userCSV =>
               readLoop ctxDone batchInsert batchSize headerMap rest
                 (processRecord ValidateUser rememberUser convertCSVToUser
                    batchInsert batchSize userCSV st1)
           end
  end.

(** [processUsersCSV]. [file] is None when [os.Open] fails; [stored] is
    what the error store holds for the job when the run begins, and
    [driver] how the database driver behaves during each [AddErrors]. *)
Definition processUsersCSV (ctxDone : Z -> bool) (batchInsert : nat -> list User -> Z * error)
  (batchSize : Z) (file : option CSVFile) (j : Job) (stored : list models.ValidationError)
  (driver : nat -> CopySession) : error * Run User :=
  match file with
  | None => (Some "open: no such file or directory", start j NewValidator 1 stored driver)
  | Some f =>
      match csvHeader f with
      | None => (Some "EOF", start j NewValidator 1 stored driver)
      | Some header =>
          match readLoop ctxDone batchInsert batchSize (buildHeaderMap header) (csvRows f)
                  (start j NewValidator 1 stored driver) with
          | (Returned err, st) => (err, st)
          | (Drained, st) => (None, finish batchInsert st)
          end
      end
  end.

(** [if len(userIDs) < 100000 { validator.SetUserIDCache(userIDs) }] and the
    same for the article IDs. *)
Definition preloadUserIDs (v : Validator) (userIDs : list string) : Validator :=
  if slen userIDs <? 100000 then SetUserIDCache v userIDs else v.

Definition preloadArticleIDs (v : Validator) (articleIDs : list string) : Validator :=
  if slen articleIDs <? 100000 then SetArticleIDCache v articleIDs else v.

(** [processArticlesNDJSON]. [userIDs] is what [repos.User.GetAllIDs]
    returned (nil when it failed: the error is dropped). *)
Definition processArticlesNDJSON (ctxDone : Z -> bool)
  (batchInsert : nat -> list Article -> Z * error) (batchSize : Z)
  (userIDs : list string) (file : option (NDJSONFile ArticleNDJSON)) (j : Job)
  (stored : list models.ValidationError) (driver : nat -> CopySession) : error * Run Article :=
  match file with
  | None => (Some "open: no such file or directory", start j NewValidator 0 stored driver)
  | Some f =>
      runNDJSON ValidateArticle rememberArticle convertNDJSONToArticle ctxDone
        batchInsert batchSize f
        (start j (preloadUserIDs NewValidator userIDs) 0 stored driver)
  end.

(** [processCommentsNDJSON] *)
Definition processCommentsNDJSON (ctxDone : Z -> bool)
  (batchInsert : nat -> list Comment -> Z * error) (batchSize : Z)
  (userIDs articleIDs : list string) (file : option (NDJSONFile CommentNDJSON)) (j : Job)
  (stored : list models.ValidationError) (driver : nat -> CopySession) : error * Run Comment :=
  match file with
  | None => (Some "open: no such file or directory", start j NewValidator 0 stored driver)
  | Some f =>
      runNDJSON ValidateComment rememberComment convertNDJSONToComment ctxDone
        batchInsert batchSize f
        (start j (preloadArticleIDs (preloadUserIDs NewValidator userIDs) articleIDs) 0
           stored driver)
  end.

(** What [ProcessImport] works with: the cancellation signal, the batch
    size of the configuration, the three repositories, the driver behind
    each [AddErrors] of the job repository, and the staged file as each
    reader would deliver it. *)
Record World : Type := mkWorld {
  ctxDone : Z -> bool;
  cfgBatchSize : Z;
  User_BatchInsert : nat -> list User -> Z * error;
  Article_BatchInsert : nat -> list Article -> Z * error;
  Comment_BatchInsert : nat -> list Comment -> Z * error;
  User_GetAllIDs : list string;
  Article_GetAllIDs : list string;
  Job_AddErrors : nat -> CopySession;
  fileCSV : option CSVFile;
  fileArticles : option (NDJSONFile ArticleNDJSON);
  fileComments : option (NDJSONFile CommentNDJSON)
}.

(** The result of [ProcessImport]: the error it returns, the job row as last
    written by [repos.Job.Update], and the rows of [job_errors]. *)
Record Outcome : Type := mkOutcome {
  returned : error;
  finalJob : Job;
  storedErrors : list models.ValidationError
}.

Definition conclude {Rec : Type} (res : error * Run Rec) : Outcome :=
  {| returned := fst res;
     finalJob :=
       setStatus (match fst res with
                  | Some _ => JobStatusFailed
                  | None => JobStatusCompleted
                  end) (job (snd res));
     storedErrors := job_errors (snd res) |}.

(** [ProcessImport]: mark the job as processing, run the pipeline of its
    resource, then set the final status from the returned error. *)
Definition ProcessImport (w : World) (j : Job) (stored : list models.ValidationError) : Outcome :=
  let j1 := setStatus JobStatusProcessing j in
  if String.eqb (Job_Resource j) "users"
  then conclude (processUsersCSV (ctxDone w) (User_BatchInsert w) (cfgBatchSize w)
                   (fileCSV w) j1 stored (Job_AddErrors w))
  else if String.eqb (Job_Resource j) "articles"
  then conclude (processArticlesNDJSON (ctxDone w) (Article_BatchInsert w) (cfgBatchSize w)
                   (User_GetAllIDs w) (fileArticles w) j1 stored (Job_AddErrors w))
  else if String.eqb (Job_Resource j) "comments"
  then conclude (processCommentsNDJSON (ctxDone w) (Comment_BatchInsert w) (cfgBatchSize w)
                   (User_GetAllIDs w) (Article_GetAllIDs w) (fileComments w) j1 stored
                   (Job_AddErrors w))
  else conclude (Some ("unknown resource type: " +:+ Job_Resource j),
                 @start User j1 NewValidator 0 stored (Job_AddErrors w)).

(** A job is in a terminal state. *)
Definition terminal (j : Job) : bool :=
  match Job_Status j with
  | JobStatusCompleted | JobStatusFailed => true
  | _ => false
  end.

(** The repository seen by the pipeline when every call reaches the real
    [BatchInsert] with the driver behaving as [db n] during call [n]. *)
Definition viaDriver {R : Type} (db : nat -> CopySession) (n : nat) (batch : list R) : Z * error :=
  snd (BatchInsert (db n) [] batch).

(** [CreateImportJob]: a new pending job; [id] is the fresh
    [uuid.New().String()]. *)
Definition CreateImportJob (execErr : error) (table : list Job) (id : string)
  (req : ImportRequest) (filePath : string) : list Job * (option Job * error) :=
  let j := {| Job_ID := id; Job_Type := JobTypeImport;
              Job_Resource := ImportRequest_Resource req;
              Job_Status := JobStatusPending;
              Job_IdempotencyKey := ImportRequest_IdempotencyKey req;
              Job_TotalRecords := 0; Job_ProcessedCount := 0;
              Job_SuccessfulCount := 0; Job_FailedCount := 0;
              Job_FilePath := filePath |} in
  match jobRepo_Create execErr table j with
  | (table', Some e) => (table', (None, Some e))
  | (table', None) => (table', (Some j, None))
  end.

(** [GetJobByIdempotencyKey] of the job service: the repository call. *)
Definition GetJobByIdempotencyKey (queryErr : error) (table : list Job) (key : string)
  : option Job * error :=
  jobRepo_GetByIdempotencyKey queryErr table key.

End service.

(* ===================================================================== *)
(** ** internal/service/export_service.go *)
(* ===================================================================== *)

Module export.
Import GoLib models repository.

(** A row as [StreamAll] hands it to the callback, with what
    [json.Marshal] makes of it: the encoded object, or an error text. *)
Record Row : Type := mkRow {
  user : User;
  marshalled : string + string
}.

Definition newline : string := String (ascii_of_N 10) EmptyString.

(** [streamUsersNDJSON]: the callback writes the object and a newline and
    counts the row; an encoding error ends the stream with that error. The
    result is the body written, [count], and the error returned. (The
    periodic [Flush] moves no byte of the body.) *)
Fixpoint streamRows (rows : list Row) (body : string) (count : Z) : string * Z * error :=
  match rows with
  | [] => (body, count, None)
  | r :: rest =>
      match marshalled r with
      | inr e => (body, count, Some e)
      | inl data => streamRows rest (body +:+ data +:+ newline) (count + 1)
      end
  end.

Definition streamUsersNDJSON (rows : list Row) : string * Z * error := streamRows rows "" 0.

(** The file name the response announces in [Content-Disposition]. *)
Definition ndjsonFilename : string := "users.ndjson".

End export.

(* ===================================================================== *)
(** ** The export service (internal/service/export_service.go) *)
(* ===================================================================== *)

Module export_service.
Import GoLib models repository export.

(** A stored row as [StreamAll] scans it: the record, its [updated_at]
    column (the structs of this development keep none), and what
    [json.Marshal] makes of the struct. *)
Record Exported (A : Type) : Type := mkExported {
  record : A;
  updatedAt : Time;
  encoded : string + string
}.
Arguments mkExported {A}.
Arguments record {A}.
Arguments updatedAt {A}.
Arguments encoded {A}.

(** What the query behind [StreamAll] delivers: the rows scanned before it
    failed or ended, and the error [StreamAll] returns when no callback
    failed (from [QueryContext], [Scan] or [rows.Err()]). *)
Record Cursor (A : Type) : Type := mkCursor {
  delivered : list (Exported A);
  cursorErr : error
}.
Arguments mkCursor {A}.
Arguments delivered {A}.
Arguments cursorErr {A}.

(** [StreamAll]: the callback runs on each row in turn and its first error
    ends the stream. [S] is what the closure of the callback writes to. *)
Fixpoint streamAll {A S : Type} (rows : list (Exported A)) (finalErr : error)
  (callback : Exported A -> S -> S * error) (s : S) : S * error :=
  match rows with
  | [] => (s, finalErr)
  | r :: rest =>
      match callback r s with
      | (s', Some e) => (s', Some e)
      | (s', None) => streamAll rest finalErr callback s'
      end
  end.

Definition StreamAll {A S : Type} (cur : Cursor A)
  (callback : Exported A -> S -> S * error) (s : S) : S * error :=
  streamAll (delivered cur) (cursorErr cur) callback s.

(** What a stream wrote: the two headers and the body, as text or, for CSV,
    as the records handed to [csv.Writer]. The results of [w.Write] are not
    looked at by the NDJSON and JSON streams, so the body is what they hand
    to the response, whether or not it reaches the client. *)
Inductive Body : Type :=
| Text (s : string)
| Records (rows : list (list string)).

Record Output : Type := mkOutput {
  contentType : string;
  disposition : string;
  body : Body
}.

(** The callback of the NDJSON streams, on the body written and [count]. *)
Definition ndjsonCallback {A : Type} (r : Exported A) (s : string * Z) : (string * Z) * error :=
  match encoded r with
  | inr e => (s, Some e)
  | inl data => ((fst s +:+ data +:+ newline, snd s + 1), None)
  end.

Definition streamNDJSON {A : Type} (name : string) (cur : Cursor A) : Output * error :=
  let '(s, err) := StreamAll cur ndjsonCallback ("", 0) in
  ({| contentType := "application/x-ndjson";
      disposition := "attachment; filename=" +:+ name +:+ ".ndjson";
      body := Text (fst s) |}, err).

(** The callback of the JSON streams, on the body written and [first]: the
    comma is written and [first] cleared before the row is encoded. *)
Definition jsonCallback {A : Type} (r : Exported A) (s : string * bool) : (string * bool) * error :=
  let written := if snd s then fst s else fst s +:+ "," in
  match encoded r with
  | inr e => ((written, false), Some e)
  | inl data => ((written +:+ data, false), None)
  end.

Definition streamJSON {A : Type} (name : string) (cur : Cursor A) : Output * error :=
  let '(s, err) := StreamAll cur jsonCallback ("[", true) in
  ({| contentType := "application/json";
      disposition := "attachment; filename=" +:+ name +:+ ".json";
      body := Text (fst s +:+ "]") |}, err).

Definition csvColumns : list string :=
  ["id"; "email"; "name"; "role"; "active"; "created_at"; "updated_at"].

(** The record written for a user; [format] is
    [t.Format("2006-01-02T15:04:05Z")]. *)
Definition csvRecord (format : Time -> string) (r : Exported User) : list string :=
  [User_ID (record r); User_Email (record r); User_Name (record r); User_Role (record r);
   (if User_Active (record r) then "true" else "false");
   format (User_CreatedAt (record r)); format (updatedAt r)].

(** The callback of the CSV stream, on the records written. The error of
    [csv.Writer.Write] is that of the response it writes to; [writeErr n]
    is its answer for the record that comes after [n] others, the header
    included. A record whose write fails is not counted as written; the
    answer for the header is not looked at. *)
Definition csvCallback (format : Time -> string) (writeErr : nat -> error)
  (r : Exported User) (s : list (list string)) : list (list string) * error :=
  match writeErr (length s) with
  | Some e => (s, Some e)
  | None => ((s ++ [csvRecord format r])%list, None)
  end.

Definition streamUsersCSV (format : Time -> string) (writeErr : nat -> error)
  (cur : Cursor User) : Output * error :=
  let '(s, err) := StreamAll cur (csvCallback format writeErr) [csvColumns] in
  ({| contentType := "text/csv"; disposition := "attachment; filename=users.csv";
      body := Records s |}, err).

Definition streamUsersNDJSON := @streamNDJSON User "users".
Definition streamUsersJSON := @streamJSON User "users".
Definition streamArticlesNDJSON := @streamNDJSON Article "articles".
Definition streamArticlesJSON := @streamJSON Article "articles".
Definition streamCommentsNDJSON := @streamNDJSON Comment "comments".
Definition streamCommentsJSON := @streamJSON Comment "comments".

(** Nothing written. *)
Definition untouched : Output := {| contentType := ""; disposition := ""; body := Text "" |}.

Definition StreamUsers (format : Time -> string) (writeErr : nat -> error)
  (cur : Cursor User) (fmt : string) : Output * error :=
  if String.eqb fmt "ndjson" then streamUsersNDJSON cur
  else if String.eqb fmt "json" then streamUsersJSON cur
  else if String.eqb fmt "csv" then streamUsersCSV format writeErr cur
  else (untouched, Some ("unsupported format: " +:+ fmt)).

Definition StreamArticles (cur : Cursor Article) (fmt : string) : Output * error :=
  if String.eqb fmt "ndjson" then streamArticlesNDJSON cur
  else if String.eqb fmt "json" then streamArticlesJSON cur
  else (untouched, Some ("unsupported format: " +:+ fmt)).

Definition StreamComments (cur : Cursor Comment) (fmt : string) : Output * error :=
  if String.eqb fmt "ndjson" then streamCommentsNDJSON cur
  else if String.eqb fmt "json" then streamCommentsJSON cur
  else (untouched, Some ("unsupported format: " +:+ fmt)).

End export_service.

(* ===================================================================== *)
(** ** internal/api: POST /v1/imports *)
(* ===================================================================== *)

Module api.
Import GoLib models repository service.

(** [filepath.Ext]: the suffix that starts at the last dot of the last path
    element, empty when that element has no dot. The scan runs from the end
    of the path: [suffix] holds the bytes already passed. *)
Fixpoint extScan (reversed : list N) (suffix : list N) : list N :=
  match reversed with
  | [] => []
  | b :: rest =>
      if N.eqb b 47 then []
      else if N.eqb b 46 then b :: suffix
      else extScan rest (b :: suffix)
  end.

Definition filepath_Ext (path : string) : string := unbytes (extScan (rev (bytes path)) []).

(** The elements of a path, split at each '/'. *)
Fixpoint pathElements (path : list N) (element : list N) : list (list N) :=
  match path with
  | [] => [rev element]
  | b :: rest =>
      if N.eqb b 47 then rev element :: pathElements rest []
      else pathElements rest (b :: element)
  end.

Definition isDot (element : list N) : bool :=
  match element with
  | [b] => N.eqb b 46
  | _ => false
  end.

Definition isDotDot (element : list N) : bool :=
  match element with
  | [a; b] => (N.eqb a 46 && N.eqb b 46)%bool
  | _ => false
  end.

(** One element in the loop of [filepath.Clean]; [out] holds the elements
    written so far, the last one first. An empty element and "." are
    dropped; ".." removes the element before it, is dropped at the root,
    and is kept at the head of a relative path. *)
Definition cleanStep (rooted : bool) (out : list (list N)) (element : list N)
  : list (list N) :=
  match element with
  | [] => out
  | _ =>
      if isDot element then out
      else if isDotDot element
      then match out with
           | last :: before => if isDotDot last then element :: out else before
           | [] => if rooted then [] else [element]
           end
      else element :: out
  end.

Fixpoint joinElements (elements : list (list N)) : list N :=
  match elements with
  | [] => []
  | element :: rest =>
      match rest with
      | [] => element
      | _ => (element ++ 47%N :: joinElements rest)%list
      end
  end.

(** [filepath.Clean], with '/' as the separator. *)
Definition filepath_Clean (path : string) : string :=
  let rooted := match bytes path with
                | b :: _ => N.eqb b 47
                | [] => false
                end in
  let out := fold_left (cleanStep rooted) (pathElements (bytes path) []) [] in
  match ((if rooted then [47%N] else []) ++ joinElements (rev out))%list with
  | [] => "."
  | cleaned => unbytes cleaned
  end.

(** [filepath.Join] of a directory and a file name: the elements from the
    first that is not empty on are joined with '/', and the result is
    cleaned. *)
Definition filepath_Join (dir name : string) : string :=
  if String.eqb dir ""
  then if String.eqb name "" then "" else filepath_Clean name
  else filepath_Clean (dir +:+ "/" +:+ name).

(** The uploaded part of the multipart form. *)
Record FileHeader : Type := mkFileHeader {
  Filename : string;
  Size : Z;
  content : string
}.

(** The request as the handler reads it: the Idempotency-Key header (empty
    when absent), the resource as form field and as query parameter, the
    uploaded file if there is one, and whether the body binds as JSON. *)
Record Request : Type := mkRequest {
  idempotencyKeyHeader : string;
  postFormResource : string;
  queryResource : string;
  formFile : option FileHeader;
  bindsJSON : bool
}.

Record Config : Type := mkConfig {
  MaxUploadSize : Z;
  UploadDir : string
}.

(** What the host answers during one request: whether [os.MkdirAll],
    [os.Create] and [io.Copy] fail, the two fresh UUIDs (the first eight
    bytes of one name the file, the other is the job id), and what the
    database answers to the lookup of the idempotency key and to the INSERT
    of the job when either does not go through. *)
Record Host : Type := mkHost {
  mkdirFails : bool;
  createFails : bool;
  copyFails : bool;
  fileTag : string;
  newJobID : string;
  lookupErr : error;
  insertErr : error
}.

(** The state the handler works on: the jobs table and the upload
    directory (path and content of each staged file). *)
Record Server : Type := mkServer {
  jobs : list Job;
  uploads : list (string * string)
}.

Inductive Response : Type :=
| Existing (j : Job)
| Failure (code : Z) (message : string)
| Accepted (job_id : string) (status : JobStatus) (resource : string).

Definition isResource (r : string) : bool :=
  (String.eqb r "users" || String.eqb r "articles" || String.eqb r "comments")%bool.

(** The idempotency check at the head of [CreateImport]: a lookup only for
    a non-empty key; an error of the lookup is logged and otherwise ignored,
    so only the job it returns matters, and a lookup that fails returns
    none. *)
Definition existingJobFor (host : Host) (srv : Server) (key : string) : option Job :=
  if String.eqb key "" then None
  else fst (GetJobByIdempotencyKey (lookupErr host) (jobs srv) key).

(** [CreateImport] past the idempotency check: the request is validated,
    the file staged and the job inserted. *)
Definition stageAndCreate (cfg : Config) (host : Host) (req : Request) (srv : Server)
  : Response * Server :=
  let idempotencyKey := idempotencyKeyHeader req in
  let resource :=
    if String.eqb (postFormResource req) "" then queryResource req
    else postFormResource req in
  if String.eqb resource ""
  then (Failure 400 "resource parameter is required (users, articles, comments)", srv)
  else if negb (isResource resource)
  then (Failure 400 "resource must be one of: users, articles, comments", srv)
  else
  match formFile req with
  | None =>
      if bindsJSON req
      then (Failure 501 "file_url not yet implemented, please use file upload", srv)
      else (Failure 400 "file upload or file_url is required", srv)
  | Some header =>
  if MaxUploadSize cfg <? Size header
  then (Failure 400 ("file too large, max size is "
                     +:+ itoa (MaxUploadSize cfg ÷ (1024 * 1024)) +:+ " MB"), srv)
  else
  let ext := strings_ToLower (filepath_Ext (Filename header)) in
  if String.eqb resource "users" && negb (String.eqb ext ".csv")
  then (Failure 400 "users import requires CSV file", srv)
  else if (String.eqb resource "articles" || String.eqb resource "comments")
          && negb (String.eqb ext ".ndjson") && negb (String.eqb ext ".json")
  then (Failure 400 "articles/comments import requires NDJSON file", srv)
  else if mkdirFails host then (Failure 500 "failed to save file", srv)
  else
  let filename := resource +:+ "_" +:+ fileTag host +:+ ext in
  let filePath := filepath_Join (UploadDir cfg) filename in
  if createFails host then (Failure 500 "failed to save file", srv)
  else if copyFails host
  then (Failure 500 "failed to save file",
        {| jobs := jobs srv; uploads := (uploads srv ++ [(filePath, "")])%list |})
  else
  let staged := (uploads srv ++ [(filePath, content header)])%list in
  let req' := {| ImportRequest_Resource := resource;
                 ImportRequest_IdempotencyKey := idempotencyKey |} in
  match CreateImportJob (insertErr host) (jobs srv) (newJobID host) req' filePath with
  | (table, (Some job, _)) =>
      (Accepted (Job_ID job) (Job_Status job) (Job_Resource job),
       {| jobs := table; uploads := staged |})
  | (table, (None, _)) =>
      (Failure 500 "failed to create import job", {| jobs := table; uploads := staged |})
  end
  end.

(** [CreateImport] *)
Definition CreateImport (cfg : Config) (host : Host) (req : Request) (srv : Server)
  : Response * Server :=
  match existingJobFor host srv (idempotencyKeyHeader req) with
  | Some existingJob => (Existing existingJob, srv)
  | None => stageAndCreate cfg host req srv
  end.

(** The store before anything was imported. *)
Definition fresh : Server := {| jobs := []; uploads := [] |}.

(** Submitting the NDJSON export of the users as a users import, under the
    name the export gave it. *)
Definition reimportExport (cfg : Config) (host : Host) (key : string)
  (rows : list export.Row) (srv : Server) : Response * Server :=
  let '(body, _, _) := export.streamUsersNDJSON rows in
  CreateImport cfg host
    {| idempotencyKeyHeader := key; postFormResource := "users"; queryResource := "";
       formFile := Some {| Filename := export.ndjsonFilename; Size := len body;
                           content := body |};
       bindsJSON := false |} srv.

(** The request of a client that sends [key] in the Idempotency-Key header. *)
Definition withKey (key : string) (req : Request) : Request :=
  {| idempotencyKeyHeader := key; postFormResource := postFormResource req;
     queryResource := queryResource req; formFile := formFile req;
     bindsJSON := bindsJSON req |}.

(** Two submissions with the same key, one after the other: the answer and
    the state after the first, and after the second. *)
Definition first (cfg : Config) (h1 : Host) (key : string) (q1 : Request) (srv : Server)
  : Response * Server :=
  CreateImport cfg h1 (withKey key q1) srv.


(** The round trip of the export law: the exported count, and the job the
    import of the exported file ends with once [ProcessImport] has run on
    it (None when the import request creates no job). *)
Definition roundTrip (cfg : Config) (host : Host) (w : World) (rows : list export.Row)
  : Z * option Job :=
  (snd (fst (export.streamUsersNDJSON rows)),
   match reimportExport cfg host "" rows fresh with
   | (Accepted id _ _, srv) =>
       option_map (fun j => finalJob (ProcessImport w j []))
         (List.find (idMatches id) (jobs srv))
   | _ => None
   end).

(* --------------------------------------------------------------------- *)
(** ** The export handlers (StreamExport, CreateExport) *)
(* --------------------------------------------------------------------- *)

Import export export_service.

(** The three tables as the export reads them. *)
Record Store : Type := mkStore {
  users : Cursor User;
  articles : Cursor Article;
  comments : Cursor Comment
}.

Inductive ExportResponse : Type :=
| Refused (code : Z) (message : string)
| Streamed (out : Output) (err : error)
| Advised (message resource format stream_url : string).

(** [StreamExport]: GET /v1/exports?resource=...&format=... *)
Definition StreamExport (format : Time -> string) (writeErr : nat -> error) (store : Store)
  (resource fmt : string) : ExportResponse :=
  if String.eqb resource ""
  then Refused 400 "resource parameter is required (users, articles, comments)"
  else if negb (isResource resource)
  then Refused 400 "resource must be one of: users, articles, comments"
  else
  let fmt := if String.eqb fmt "" then "ndjson" else fmt in
  if negb (String.eqb fmt "ndjson") && negb (String.eqb fmt "json") && negb (String.eqb fmt "csv")
  then Refused 400 "format must be one of: ndjson, json, csv"
  else if String.eqb fmt "csv" && negb (String.eqb resource "users")
  then Refused 400 "CSV format only supported for users export"
  else if String.eqb resource "users"
  then let '(out, err) := StreamUsers format writeErr (users store) fmt in Streamed out err
  else if String.eqb resource "articles"
  then let '(out, err) := StreamArticles (articles store) fmt in Streamed out err
  else if String.eqb resource "comments"
  then let '(out, err) := StreamComments (comments store) fmt in Streamed out err
  else Streamed untouched None.



End api.

(* ===================================================================== *)
(** ** internal/service/job_service.go: the scheduler *)
(* ===================================================================== *)

Module job_service.
Import GoLib models repository service.

(** [newJobService]: the capacity of the semaphore channel, from
    [runtime.NumCPU()]. *)
Definition maxWorkers (numCPU : Z) : Z :=
  let maxWorkers := numCPU * 4 in
  let maxWorkers := if maxWorkers <? 4 then 4 else maxWorkers in
  if 32 <? maxWorkers then 32 else maxWorkers.

(** Who runs a [MarkJobAsProcessing]: the polling loop of this service, or
    some other client of the same jobs table. *)
Inductive Claimant : Type :=
| ThisService
| Other (n : nat).

(** The statuses a pipeline writes with [repos.Job.Update]: processing when
    it starts, completed or failed when it ends (failed also from the panic
    recovery of the worker). *)
Inductive Written : Type :=
| WProcessing
| WCompleted
| WFailed.

Definition statusOf (w : Written) : JobStatus :=
  match w with
  | WProcessing => JobStatusProcessing
  | WCompleted => JobStatusCompleted
  | WFailed => JobStatusFailed
  end.

(** [jobRepo.Update], as far as the status goes. *)
Definition updateStatus (jobID : string) (w : Written) (table : list Job) : list Job :=
  map (fun j => if idMatches jobID j then setStatus (statusOf w) j else j) table.

(** The scheduler and the table it polls. [sem] is the number of tokens in
    the channel [s.sem], [held] the number of tokens sent by a loop
    iteration that has not yet released it or started its worker,
    [workers] the jobs of the worker goroutines that have not returned,
    [others] the jobs claimed by other clients, and [observed] the answer of
    every [MarkJobAsProcessing] whose UPDATE ran, latest first. *)
Record Sched : Type := mkSched {
  table : list Job;
  capacity : Z;
  sem : Z;
  held : Z;
  workers : list string;
  others : list (nat * string);
  observed : list (Claimant * string * bool)
}.

(** The atomic steps of the system. *)
Inductive Event : Type :=
| Acquire
| Claim (jobID : string)
| ClaimError (jobID : string)
| WorkerUpdate (jobID : string) (w : Written)
| WorkerExit (jobID : string)
| OtherClaim (who : nat) (jobID : string)
| OtherUpdate (who : nat) (jobID : string) (w : Written).

Fixpoint removeOne (jobID : string) (l : list string) : list string :=
  match l with
  | [] => []
  | x :: rest => if String.eqb x jobID then rest else x :: removeOne jobID rest
  end.

Definition inList (jobID : string) (l : list string) : bool := existsb (String.eqb jobID) l.

Definition ownedBy (who : nat) (jobID : string) (l : list (nat * string)) : bool :=
  existsb (fun p => (Nat.eqb (fst p) who && String.eqb (snd p) jobID)%bool) l.

(** One step; None when the step cannot be taken in this state.
    - [Acquire]: the send on [s.sem] goes through only while the channel is
      not full.
    - [Claim]: the loop, holding a token, calls [MarkJobAsProcessing]; when
      marked it starts the worker (which keeps the token until its deferred
      receive), otherwise it receives from [s.sem] and moves on.
    - [ClaimError]: the call returns an error instead (the UPDATE did not
      run); the loop receives from [s.sem] and moves on.
    - [WorkerUpdate], [WorkerExit]: a running worker writes a status, or
      returns and releases its token.
    - [OtherClaim], [OtherUpdate]: the same statements run by another
      client of the table. *)
Definition step (s : Sched) (ev : Event) : option Sched :=
  match ev with
  | Acquire =>
      if sem s <? capacity s
      then Some {| table := table s; capacity := capacity s; sem := sem s + 1;
                   held := held s + 1; workers := workers s; others := others s;
                   observed := observed s |}
      else None
  | Claim jobID =>
      if 0 <? held s then
        let '(table', marked) := jobRepo_MarkJobAsProcessing (table s) jobID in
        if marked
        then Some {| table := table'; capacity := capacity s; sem := sem s;
                     held := held s - 1; workers := jobID :: workers s;
                     others := others s;
                     observed := (ThisService, jobID, true) :: observed s |}
        else Some {| table := table'; capacity := capacity s; sem := sem s - 1;
                     held := held s - 1; workers := workers s; others := others s;
                     observed := (ThisService, jobID, false) :: observed s |}
      else None
  | ClaimError jobID =>
      if 0 <? held s
      then Some {| table := table s; capacity := capacity s; sem := sem s - 1;
                   held := held s - 1; workers := workers s; others := others s;
                   observed := observed s |}
      else None
  | WorkerUpdate jobID w =>
      if inList jobID (workers s)
      then Some {| table := updateStatus jobID w (table s); capacity := capacity s;
                   sem := sem s; held := held s; workers := workers s;
                   others := others s; observed := observed s |}
      else None
  | WorkerExit jobID =>
      if inList jobID (workers s)
      then Some {| table := table s; capacity := capacity s; sem := sem s - 1;
                   held := held s; workers := removeOne jobID (workers s);
                   others := others s; observed := observed s |}
      else None
  | OtherClaim who jobID =>
      let '(table', marked) := jobRepo_MarkJobAsProcessing (table s) jobID in
      Some {| table := table'; capacity := capacity s; sem := sem s; held := held s;
              workers := workers s;
              others := if marked then (who, jobID) :: others s else others s;
              observed := (Other who, jobID, marked) :: observed s |}
  | OtherUpdate who jobID w =>
      if ownedBy who jobID (others s)
      then Some {| table := updateStatus jobID w (table s); capacity := capacity s;
                   sem := sem s; held := held s; workers := workers s;
                   others := others s; observed := observed s |}
      else None
  end.

Fixpoint run (s : Sched) (evs : list Event) : option Sched :=
  match evs with
  | [] => Some s
  | ev :: rest =>
      match step s ev with
      | Some s' => run s' rest
      | None => None
      end
  end.

(** The service right after [newJobService], over a given jobs table. *)
Definition boot (numCPU : Z) (jobsTable : list Job) : Sched :=
  {| table := jobsTable; capacity := maxWorkers numCPU; sem := 0; held := 0;
     workers := []; others := []; observed := [] |}.

(** The answers about one job, and those that were true. *)
Definition about (jobID : string) (o : Claimant * string * bool) : bool :=
  String.eqb (snd (fst o)) jobID.

Definition won (jobID : string) (o : Claimant * string * bool) : bool :=
  (about jobID o && snd o)%bool.

Definition attempts (jobID : string) (s : Sched) : Z :=
  slen (List.filter (about jobID) (observed s)).

Definition successes (jobID : string) (s : Sched) : Z :=
  slen (List.filter (won jobID) (observed s)).

Definition pendingIn (jobsTable : list Job) (jobID : string) : bool :=
  existsb (fun j => (idMatches jobID j && isPending (Job_Status j))%bool) jobsTable.

(** [who] is processing [jobID]. *)
Definition processing (s : Sched) (who : Claimant) (jobID : string) : bool :=
  match who with
  | ThisService => inList jobID (workers s)
  | Other n => ownedBy n jobID (others s)
  end.

Definition sameClaimant (a b : Claimant) : bool :=
  match a, b with
  | ThisService, ThisService => true
  | Other n, Other m => Nat.eqb n m
  | _, _ => false
  end.

Definition wonBy (who : Claimant) (jobID : string) (s : Sched) : bool :=
  existsb (fun o => (sameClaimant (fst (fst o)) who && won jobID o)%bool) (observed s).

(* --------------------------------------------------------------------- *)
(** ** Running a claimed job (processJob) and the statements on the jobs table *)
(* --------------------------------------------------------------------- *)

(** The two [repos.Job.Update] calls of [ProcessImport] on the jobs table:
    the job as it is marked processing, and the job as the pipeline left
    it. [startErr] and [finalErr] are what the database answers to them;
    [ProcessImport] looks at neither answer. *)
Definition ProcessImport_updates (startErr finalErr : error) (process : Job -> Outcome)
  (job : Job) (table : list Job) : list Job :=
  let table1 := fst (jobRepo_Update startErr table (setStatus JobStatusProcessing job)) in
  fst (jobRepo_Update finalErr table1 (finalJob (process job))).

(** [processJob]: nothing when the context of the service is done; an
    import job goes to the import service when one is set; an export job is
    only logged. *)
Definition processJob (ctxDone : bool) (importService : option (Job -> Outcome))
  (startErr finalErr : error) (job : Job) (table : list Job) : list Job :=
  if ctxDone then table
  else match Job_Type job with
       | JobTypeImport =>
           match importService with
           | Some process => ProcessImport_updates startErr finalErr process job table
           | None => table
           end
       | JobTypeExport => table
       end.

(** One iteration of the loop of [processPendingJobs] together with the
    worker it starts, run to its end: the claim, then [processJob] when the
    claim succeeded. [claimErr] is the error of [MarkJobAsProcessing], on
    which the job is passed over. *)
Definition claimAndProcess (claimErr : error) (ctxDone : bool)
  (importService : option (Job -> Outcome)) (startErr finalErr : error)
  (job : Job) (table : list Job) : list Job :=
  match claimErr with
  | Some _ => table
  | None =>
      let '(table', marked) := jobRepo_MarkJobAsProcessing table (Job_ID job) in
      if marked then processJob ctxDone importService startErr finalErr job table'
      else table'
  end.

(** A statement that changes rows of the jobs table in place, with the
    answer of the database to it. *)
Inductive Statement : Type :=
| SUpdate (execErr : error) (job : Job)
| SMarkJobAsProcessing (jobID : string).

Definition execute (table : list Job) (s : Statement) : list Job :=
  match s with
  | SUpdate execErr job => fst (jobRepo_Update execErr table job)
  | SMarkJobAsProcessing jobID => fst (jobRepo_MarkJobAsProcessing table jobID)
  end.


End job_service.

(* ===================================================================== *)
(** ** Concrete inputs used by the examples below *)
(* ===================================================================== *)

Module samples.
Import GoLib models validation repository service.

Definition uuidA : string := "11111111-1111-1111-1111-111111111111".
Definition uuidB : string := "22222222-2222-2222-2222-222222222222".
Definition instant : string := "2024-01-01T00:00:00Z".

(** A draft article whose published_at is present and is not a date. *)
Definition draftArticle : ArticleNDJSON :=
  mkArticleNDJSON uuidA "a-b" "Title" "Body" uuidB [] "draft" "tomorrow".

(** A draft article whose published_at is a well-formed instant. *)
Definition datedDraft : ArticleNDJSON :=
  mkArticleNDJSON uuidA "a-b" "Title" "Body" uuidB [] "draft" instant.

(** A comment whose id is the bare prefix. *)
Definition bareComment : CommentNDJSON :=
  mkCommentNDJSON "cm_" uuidA uuidB "hello world" instant.

Definition usersHeader : list string :=
  ["id"; "email"; "name"; "role"; "active"; "created_at"].

Definition aliceRow : list string :=
  [uuidA; "a@x.io"; "A"; "admin"; "true"; instant].

Definition bobRow : list string :=
  [uuidB; "b@x.io"; "B"; "editor"; "true"; instant].

(** A row of six empty cells. *)
Definition emptyRow : list string := [""; ""; ""; ""; ""; ""].

Definition alice : User := mkUser uuidA "a@x.io" "A" "admin" true instant.
Definition bob : User := mkUser uuidB "b@x.io" "B" "editor" true instant.

Definition usersJob : Job :=
  mkJob "job-1" JobTypeImport "users" JobStatusPending "" 0 0 0 0 "data/uploads/users_1.csv".

(** A repository whose [BatchInsert] always inserts the whole batch. *)
Definition insertsAll {R : Type} (n : nat) (batch : list R) : Z * error :=
  (slen batch, None).

Definition neverDone (line : Z) : bool := false.
Definition alwaysDone (line : Z) : bool := true.

(** One valid user row; the driver fails the exec of that row and nothing
    else. *)
Definition oneRowSkipped : World :=
  {| ctxDone := neverDone; cfgBatchSize := 1000;
     User_BatchInsert := viaDriver (fun _ => rowFails 0);
     Article_BatchInsert := insertsAll; Comment_BatchInsert := insertsAll;
     User_GetAllIDs := []; Article_GetAllIDs := []; Job_AddErrors := fun _ => healthy;
     fileCSV := Some (mkCSVFile (Some usersHeader) [Some aliceRow]);
     fileArticles := None; fileComments := None |}.

(** A header and 9999 rows of empty cells (lines 2 to 10000), with the
    context cancelled by the time line 10000 is reached. *)
Definition cancelledAtCheckpoint : World :=
  {| ctxDone := alwaysDone; cfgBatchSize := 1000;
     User_BatchInsert := insertsAll;
     Article_BatchInsert := insertsAll; Comment_BatchInsert := insertsAll;
     User_GetAllIDs := []; Article_GetAllIDs := []; Job_AddErrors := fun _ => healthy;
     fileCSV := Some (mkCSVFile (Some usersHeader)
                        (repeat (Some emptyRow) (Z.to_nat 9999)));
     fileArticles := None; fileComments := None |}.

(** Distinct well-formed ids: a decimal counter of twelve digits (kept
    lowest digit first) fills the last group. *)
Fixpoint increment (digits : list N) : list N :=
  match digits with
  | [] => []
  | d :: rest => if N.eqb d 57 then 48%N :: increment rest else (d + 1)%N :: rest
  end.

Definition idOfCounter (digits : list N) : string :=
  "00000000-0000-0000-0000-" +:+ unbytes (rev digits).

Fixpoint idsFrom (digits : list N) (n : nat) : list string :=
  match n with
  | O => []
  | S n' => idOfCounter digits :: idsFrom (increment digits) n'
  end.

Definition manyIDs : list string := idsFrom (repeat 48%N 12) (Z.to_nat 100000).

(** An article that refers to a user outside [manyIDs]. *)
Definition orphanArticle : ArticleNDJSON :=
  mkArticleNDJSON uuidA "a-b" "Title" "Body" uuidB [] "published" instant.

(** One pending job, claimed by this service and by another client. *)
Definition raceTable : list Job := [usersJob].

Definition raceEvents : list job_service.Event :=
  [job_service.Acquire;
   job_service.Claim "job-1";
   job_service.OtherClaim 7 "job-1";
   job_service.WorkerUpdate "job-1" job_service.WProcessing;
   job_service.WorkerUpdate "job-1" job_service.WCompleted;
   job_service.WorkerExit "job-1"].

(** The two-user file of the specification: the second row repeats the
    email of the first. *)
Definition duplicateEmail : World :=
  {| ctxDone := neverDone; cfgBatchSize := 1000;
     User_BatchInsert := insertsAll;
     Article_BatchInsert := insertsAll; Comment_BatchInsert := insertsAll;
     User_GetAllIDs := []; Article_GetAllIDs := []; Job_AddErrors := fun _ => healthy;
     fileCSV := Some (mkCSVFile (Some usersHeader)
                        [Some aliceRow;
                         Some [uuidB; "a@x.io"; "B"; "editor"; "true"; instant]]);
     fileArticles := None; fileComments := None |}.

(** Three lines of articles: a valid object, a line that is not JSON, and a
    draft that carries a published_at. (The text of a line matters only
    for the blank test; the decoded value is what the pipeline works on.) *)
Definition threeArticles : NDJSONFile ArticleNDJSON :=
  {| ndLines :=
       [mkScanLine "{...}"
          (inr (mkArticleNDJSON uuidA "first-post" "Title" "Body" uuidB [] "published" instant));
        mkScanLine "{broken" (inl "invalid character 'b' looking for beginning of object key string");
        mkScanLine "{...}"
          (inr (mkArticleNDJSON uuidB "second-post" "Title" "Body" uuidB [] "draft" instant))];
     scannerErr := None |}.

Definition articlesJob : Job :=
  mkJob "job-2" JobTypeImport "articles" JobStatusPending "" 0 0 0 0
    "data/uploads/articles_1.ndjson".

Definition articlesWorld : World :=
  {| ctxDone := neverDone; cfgBatchSize := 1000;
     User_BatchInsert := insertsAll;
     Article_BatchInsert := insertsAll; Comment_BatchInsert := insertsAll;
     User_GetAllIDs := []; Article_GetAllIDs := []; Job_AddErrors := fun _ => healthy;
     fileCSV := None; fileArticles := Some threeArticles; fileComments := None |}.

(** One valid user, on a repository whose [BatchInsert] returns an error. *)
Definition insertFails : World :=
  {| ctxDone := neverDone; cfgBatchSize := 1000;
     User_BatchInsert := fun _ _ => (0, Some "context deadline exceeded");
     Article_BatchInsert := insertsAll; Comment_BatchInsert := insertsAll;
     User_GetAllIDs := []; Article_GetAllIDs := []; Job_AddErrors := fun _ => healthy;
     fileCSV := Some (mkCSVFile (Some usersHeader) [Some aliceRow]);
     fileArticles := None; fileComments := None |}.

Definition quote : string := String (ascii_of_N 34) EmptyString.

(** The export row of [alice] with its JSON encoding. *)
Definition aliceExported : export.Row :=
  export.mkRow alice
    (inl ("{" +:+ quote +:+ "id" +:+ quote +:+ ":" +:+ quote +:+ uuidA +:+ quote +:+ ","
          +:+ quote +:+ "email" +:+ quote +:+ ":" +:+ quote +:+ "a@x.io" +:+ quote +:+ ","
          +:+ quote +:+ "name" +:+ quote +:+ ":" +:+ quote +:+ "A" +:+ quote +:+ ","
          +:+ quote +:+ "role" +:+ quote +:+ ":" +:+ quote +:+ "admin" +:+ quote +:+ ","
          +:+ quote +:+ "active" +:+ quote +:+ ":true,"
          +:+ quote +:+ "created_at" +:+ quote +:+ ":" +:+ quote +:+ instant +:+ quote +:+ ","
          +:+ quote +:+ "updated_at" +:+ quote +:+ ":" +:+ quote +:+ instant +:+ quote +:+ "}")).

Definition apiConfig : api.Config :=
  {| api.MaxUploadSize := 500 * 1024 * 1024; api.UploadDir := "./data/uploads" |}.


Definition calmHost (tag id : string) : api.Host :=
  {| api.mkdirFails := false; api.createFails := false; api.copyFails := false;
     api.fileTag := tag; api.newJobID := id;
     api.lookupErr := None; api.insertErr := None |}.

(** The staged file of a job as the CSV reader sees NDJSON text: the first
    [Read] fails on the quote inside an unquoted field. *)
Definition ndjsonAsCSV : World :=
  {| ctxDone := neverDone; cfgBatchSize := 1000;
     User_BatchInsert := insertsAll;
     Article_BatchInsert := insertsAll; Comment_BatchInsert := insertsAll;
     User_GetAllIDs := []; Article_GetAllIDs := []; Job_AddErrors := fun _ => healthy;
     fileCSV := Some (mkCSVFile None []);
     fileArticles := None; fileComments := None |}.

Definition csvUpload (name body : string) : api.Request :=
  {| api.idempotencyKeyHeader := ""; api.postFormResource := "users";
     api.queryResource := "";
     api.formFile := Some {| api.Filename := name; api.Size := len body;
                             api.content := body |};
     api.bindsJSON := false |}.

(* --------------------------------------------------------------------- *)
(** ** Further sample inputs *)
(* --------------------------------------------------------------------- *)

(** An article with no status and a publication date. *)
Definition undeclaredDraft : models.ArticleNDJSON :=
  models.mkArticleNDJSON uuidA "a-b" "Title" "Body" uuidB [] "" instant.

(** A repository that answers like [insertsAll], except on an empty batch. *)
Definition insertsAllButEmpty {R : Type} (n : nat) (batch : list R) : Z * error :=
  if slen batch =? 0 then (7, None) else (slen batch, None).

(** Articles with a blank line between a valid object and a line that is
    not JSON. *)
Definition spacedArticles : NDJSONFile ArticleNDJSON :=
  {| ndLines :=
       [mkScanLine "{...}"
          (inr (mkArticleNDJSON uuidA "first-post" "Title" "Body" uuidB [] "published" instant));
        mkScanLine "  " (inl "unexpected end of JSON input");
        mkScanLine "{broken" (inl "invalid character 'b' looking for beginning of object key string")];
     scannerErr := None |}.

Definition spacedWorld : World :=
  {| ctxDone := neverDone; cfgBatchSize := 1000;
     User_BatchInsert := insertsAll;
     Article_BatchInsert := insertsAll; Comment_BatchInsert := insertsAll;
     User_GetAllIDs := []; Article_GetAllIDs := []; Job_AddErrors := fun _ => healthy;
     fileCSV := None; fileArticles := Some spacedArticles; fileComments := None |}.

(** Two user records whose emails differ in letter case only. *)
Definition aliceCSV : UserCSV := mkUserCSV uuidA "Alice@x.io" "A" "admin" "true" instant "".
Definition aliceAgain : UserCSV := mkUserCSV uuidB "alice@X.IO" "B" "editor" "" instant "".

(** Two errors of a job, the later line first; the second has no value. *)
Definition twoErrors : list models.ValidationError :=
  [mkValidationError 3 "email" "duplicate email" (Some "a@x.io");
   mkValidationError 2 "id" "id is required" None].

(** A pending job created with an idempotency key, and the statements that
    claim it and write its result. *)
Definition keyedJob : Job :=
  mkJob "job-1" JobTypeImport "users" JobStatusPending "retry-1" 0 0 0 0
    "data/uploads/users_1.csv".

Definition keyedServer : api.Server := {| api.jobs := [keyedJob]; api.uploads := [] |}.

Definition processed : list job_service.Statement :=
  [job_service.SMarkJobAsProcessing "job-1";
   job_service.SUpdate None (mkJob "job-1" JobTypeImport "users" JobStatusCompleted "" 2 2 1 1 "")].

(** [alice] as the export scans and encodes her, and a row that does not
    encode. *)
Definition exportedAlice : export_service.Exported User :=
  export_service.mkExported alice instant (export.marshalled aliceExported).

Definition unencodable : export_service.Exported User :=
  export_service.mkExported bob instant (inr "json: error calling MarshalJSON for type time.Time").

Definition oneUserStore : api.Store :=
  {| api.users := export_service.mkCursor [exportedAlice] None;
     api.articles := export_service.mkCursor [] None;
     api.comments := export_service.mkCursor [] None |}.


End samples.

(* ===================================================================== *)
(** ** Notions used in the statements *)
(* ===================================================================== *)

(** Every index of a header map is a position of the header row. *)
Definition indicesBelow (n : Z) (m : gmap string Z) : Prop :=
  ∀ k i, m !! k = Some i → 0 ≤ i < n.

(** A repository keeps the contract of the specification when a
    [BatchInsert] that returns no error returns the length of the batch. *)
Definition allOrNothing {R : Type} (batchInsert : nat -> list R -> Z * repository.error) : Prop :=
  ∀ n batch, snd (batchInsert n batch) = None → fst (batchInsert n batch) = service.slen batch.

(** The counters of a job balance. *)
Definition balanced (j : models.Job) : Prop :=
  models.Job_ProcessedCount j = models.Job_SuccessfulCount j + models.Job_FailedCount j.

(** Some stored error carries line [n]. *)
Definition storedAt (n : Z) (errors : list models.ValidationError) : bool :=
  existsb (fun e => models.Line e =? n) errors.

(** A driver during whose session [AddErrors] stores every error it is
    given: the transaction commits and no exec of a row fails. *)
Definition storesAll (db : repository.CopySession) : Prop :=
  repository.beginErr db = None ∧ repository.prepareErr db = None
  ∧ repository.flushErr db = None ∧ repository.commitErr db = None
  ∧ ∀ i, repository.rowErr db i = false.

(** Every [AddErrors] of the run stores what it is given. *)
Definition reliable {Rec : Type} (st : service.Run Rec) : Prop :=
  ∀ n, storesAll (service.errorDriver st n).

(** On a reliable error store, every line rejected so far has an error in
    the table or in the buffer. *)
Definition covered {Rec : Type} (st : service.Run Rec) : Prop :=
  reliable st
  ∧ ∀ n, In n (service.rejected st) →
         ∃ e, In e (service.job_errors st ++ service.validationErrors st)
              ∧ models.Line e = n.

(** Every line rejected during the run has an error in the table. *)
Definition persisted {Rec : Type} (st : service.Run Rec) : Prop :=
  ∀ n, In n (service.rejected st) → storedAt n (service.job_errors st) = true.

(** The tokens of the semaphore are accounted for: each is held by a
    running worker or by a loop iteration between its send and its claim,
    and the channel is never over its capacity. *)
Definition tokensOK (s : job_service.Sched) : Prop :=
  job_service.sem s = service.slen (job_service.workers s) + job_service.held s
  ∧ 0 ≤ job_service.held s
  ∧ job_service.sem s ≤ job_service.capacity s.

(** The claims observed so far, against the table the system started
    from: a job was won at most once, a job that was won is no longer
    pending, a job that was pending at the start is still pending as long as
    nobody tried to claim it and was won once somebody did, and whoever
    processes a job has won it. *)
Definition claimsOK (table0 : list models.Job) (s : job_service.Sched) : Prop :=
  (∀ id, job_service.successes id s ≤ 1
         ∧ (0 < job_service.successes id s →
            job_service.pendingIn (job_service.table s) id = false)
         ∧ (job_service.pendingIn table0 id = true →
            (job_service.attempts id s = 0
             ∧ job_service.pendingIn (job_service.table s) id = true)
            ∨ job_service.successes id s = 1))
  ∧ (∀ who id, job_service.processing s who id = true →
               job_service.wonBy who id s = true).

(** The part of [claimsOK] that speaks of the table and the answers
    alone. *)
Definition claimsCore (table0 tbl : list models.Job)
  (obs : list (job_service.Claimant * string * bool)) : Prop :=
  ∀ id, service.slen (List.filter (job_service.won id) obs) ≤ 1
        ∧ (0 < service.slen (List.filter (job_service.won id) obs) →
           job_service.pendingIn tbl id = false)
        ∧ (job_service.pendingIn table0 id = true →
           (service.slen (List.filter (job_service.about id) obs) = 0
            ∧ job_service.pendingIn tbl id = true)
           ∨ service.slen (List.filter (job_service.won id) obs) = 1).

(** The UNIQUE constraint on [idempotency_key]: no two rows carry the same
    non-empty key. *)
Definition uniqueKeys (tbl : list models.Job) : Prop :=
  NoDup (List.filter (fun k => negb (String.eqb k ""))
           (map models.Job_IdempotencyKey tbl)).

(** The rows of a batch whose exec did not fail, in batch order; [i] is the
    position of the first row of [batch] in the whole batch. *)
Definition survivorsFrom {R : Type} (rowErr : nat -> bool) (i : nat) (batch : list R) : list R :=
  omap (fun p : nat * R => if rowErr (fst p) then None else Some (snd p))
    (zip (seq i (length batch)) batch).

Definition survivors {R : Type} (rowErr : nat -> bool) (batch : list R) : list R :=
  survivorsFrom rowErr 0 batch.

(** The records read so far are processed or wait in the batch. *)
Definition accounted {Rec : Type} (st : service.Run Rec) : Prop :=
  models.Job_TotalRecords (service.job st)
  = models.Job_ProcessedCount (service.job st) + service.slen (service.batch st).

(** The CSV file without the rows its reader failed on. *)
Definition readableRows (f : service.CSVFile) : service.CSVFile :=
  {| service.csvHeader := service.csvHeader f;
     service.csvRows := List.filter (fun r => match r with Some _ => true | None => false end)
                          (service.csvRows f) |}.

(** The errors written or buffered so far are in line order, on lines after
    [lo] and up to the current one. *)
Definition linesInOrder {Rec : Type} (lo : Z) (st : service.Run Rec) : Prop :=
  StronglySorted Z.le (map models.Line (service.job_errors st ++ service.validationErrors st))
  ∧ Forall (fun e => lo < models.Line e ≤ service.lineNum st)
      (service.job_errors st ++ service.validationErrors st)
  ∧ lo ≤ service.lineNum st.

(** Two repositories answer alike on every batch of 1 to max(1, batchSize)
    records. *)
Definition sameAnswers {R : Type} (batchSize : Z)
  (f g : nat -> list R -> Z * repository.error) : Prop :=
  ∀ n batch, 1 ≤ service.slen batch ≤ Z.max 1 batchSize → f n batch = g n batch.

(** The same world with other repositories behind [BatchInsert]. *)
Definition withInserts (w : service.World)
  (fu : nat -> list models.User -> Z * repository.error)
  (fa : nat -> list models.Article -> Z * repository.error)
  (fc : nat -> list models.Comment -> Z * repository.error) : service.World :=
  {| service.ctxDone := service.ctxDone w; service.cfgBatchSize := service.cfgBatchSize w;
     service.User_BatchInsert := fu; service.Article_BatchInsert := fa;
     service.Comment_BatchInsert := fc;
     service.User_GetAllIDs := service.User_GetAllIDs w;
     service.Article_GetAllIDs := service.Article_GetAllIDs w;
     service.Job_AddErrors := service.Job_AddErrors w;
     service.fileCSV := service.fileCSV w; service.fileArticles := service.fileArticles w;
     service.fileComments := service.fileComments w |}.

(** The same world with another batch size. *)
Definition withBatchSize (w : service.World) (n : Z) : service.World :=
  {| service.ctxDone := service.ctxDone w; service.cfgBatchSize := n;
     service.User_BatchInsert := service.User_BatchInsert w;
     service.Article_BatchInsert := service.Article_BatchInsert w;
     service.Comment_BatchInsert := service.Comment_BatchInsert w;
     service.User_GetAllIDs := service.User_GetAllIDs w;
     service.Article_GetAllIDs := service.Article_GetAllIDs w;
     service.Job_AddErrors := service.Job_AddErrors w;
     service.fileCSV := service.fileCSV w; service.fileArticles := service.fileArticles w;
     service.fileComments := service.fileComments w |}.

(** Fewer records than max(1, batchSize) wait in the batch. *)
Definition batchBelow {Rec : Type} (batchSize : Z) (st : service.Run Rec) : Prop :=
  service.slen (service.batch st) < Z.max 1 batchSize.

(** Fewer errors than the flush threshold wait in the buffer. *)
Definition bufferBelow {Rec : Type} (st : service.Run Rec) : Prop :=
  service.slen (service.validationErrors st) < service.errorFlushThreshold.

(** An NDJSON file without its blank lines. *)
Definition withoutBlankLines {Raw : Type} (f : service.NDJSONFile Raw) : service.NDJSONFile Raw :=
  {| service.ndLines :=
       List.filter (fun ln => negb (String.eqb (GoLib.strings_TrimSpace (service.text ln)) ""))
         (service.ndLines f);
     service.scannerErr := service.scannerErr f |}.

(** An error without its line number. *)
Definition unnumbered (e : models.ValidationError) : string * string * option string :=
  (models.Field e, models.Message e, models.Value e).

(** Two states of a run that differ at most in line numbers. *)
Definition sameButLines {Rec : Type} (a b : service.Run Rec) : Prop :=
  service.job a = service.job b
  ∧ service.validator a = service.validator b
  ∧ service.batch a = service.batch b
  ∧ service.inserts a = service.inserts b
  ∧ map unnumbered (service.validationErrors a) = map unnumbered (service.validationErrors b)
  ∧ map unnumbered (service.job_errors a) = map unnumbered (service.job_errors b)
  ∧ service.errorDriver a = service.errorDriver b
  ∧ service.flushes a = service.flushes b.

(** The same world with the blank lines of its NDJSON files removed. *)
Definition withoutBlanks (w : service.World) : service.World :=
  {| service.ctxDone := service.ctxDone w; service.cfgBatchSize := service.cfgBatchSize w;
     service.User_BatchInsert := service.User_BatchInsert w;
     service.Article_BatchInsert := service.Article_BatchInsert w;
     service.Comment_BatchInsert := service.Comment_BatchInsert w;
     service.User_GetAllIDs := service.User_GetAllIDs w;
     service.Article_GetAllIDs := service.Article_GetAllIDs w;
     service.Job_AddErrors := service.Job_AddErrors w;
     service.fileCSV := service.fileCSV w;
     service.fileArticles := option_map withoutBlankLines (service.fileArticles w);
     service.fileComments := option_map withoutBlankLines (service.fileComments w) |}.

(** The name a header cell is known by: trimmed and in lower case. *)
Definition columnName (h : string) : string := GoLib.strings_ToLower (GoLib.strings_TrimSpace h).

(** The position of the last cell of [header] named [name], counting the
    first cell as [i]. *)
Fixpoint lastColumnFrom (i : Z) (name : string) (header : list string) : option Z :=
  match header with
  | [] => None
  | h :: rest =>
      match lastColumnFrom (i + 1) name rest with
      | Some k => Some k
      | None => if String.eqb (columnName h) name then Some i else None
      end
  end.

Definition lastColumn (name : string) (header : list string) : option Z :=
  lastColumnFrom 0 name header.

(** Every class of a pattern accepts only bytes that satisfy [P]. *)
Fixpoint classesWithin (P : N -> bool) (r : GoLib.regex) : Prop :=
  match r with
  | GoLib.RNone | GoLib.REps => True
  | GoLib.RClass f => ∀ b, f b = true → P b = true
  | GoLib.RCat r1 r2 | GoLib.RAlt r1 r2 => classesWithin P r1 ∧ classesWithin P r2
  | GoLib.RStar r1 => classesWithin P r1
  end.

(** The bytes of a kebab-case slug. *)
Definition slugByte (b : N) : bool := (GoLib.isLower b || GoLib.isDigit b || N.eqb b 45)%bool.

(** An error that reports a missing referenced row. *)
Definition referenceError (message : string) : Prop :=
  message = "referenced user does not exist" ∨ message = "referenced article does not exist".

(** The validator satisfies [C], and no missing reference has been reported
    so far. *)
Definition noReferenceReported {Rec : Type} (C : validation.Validator -> Prop)
  (st : service.Run Rec) : Prop :=
  C (service.validator st)
  ∧ Forall (fun e => ¬ referenceError (models.Message e))
      (service.job_errors st ++ service.validationErrors st).

(** An error of the validator that reports no missing reference. *)
Definition notReference (e : validation.ValidationError) : Prop :=
  ¬ referenceError (validation.Message e).

(** The ids enumerated for a cache leave it empty: there are none, or too
    many to load. *)
Definition leavesCacheEmpty (ids : list string) : Prop :=
  ids = [] ∨ 100000 ≤ service.slen ids.

(** An error as [GetErrors] gives it back once [AddErrors] has stored it:
    a nil value has become the empty text. *)
Definition readBack (e : models.ValidationError) : models.ValidationError :=
  {| models.Line := models.Line e; models.Field := models.Field e;
     models.Message := models.Message e;
     models.Value := Some (repository.valueStr (models.Value e)) |}.

(** The status of the row with a given id. *)
Definition statusIn (table : list models.Job) (id : string) : option models.JobStatus :=
  option_map models.Job_Status (List.find (repository.idMatches id) table).

(** What identifies a job to its client: id, type, resource, idempotency
    key and staged file. *)
Definition identity (j : models.Job)
  : string * models.JobType * string * string * string :=
  (models.Job_ID j, models.Job_Type j, models.Job_Resource j,
   models.Job_IdempotencyKey j, models.Job_FilePath j).

(** The job of a run is the job it started with, counters and status
    apart. *)
Definition sameJob {Rec : Type} (j : models.Job) (st : service.Run Rec) : Prop :=
  identity (service.job st) = identity j.

(** The counters of a job. *)
Definition counters (j : models.Job) : Z * Z * Z * Z :=
  (models.Job_TotalRecords j, models.Job_ProcessedCount j,
   models.Job_SuccessfulCount j, models.Job_FailedCount j).

(** The encodings of the rows that [json.Marshal] accepts. *)
Definition encodings {A : Type} (rows : list (export_service.Exported A)) : list string :=
  omap (fun r => match export_service.encoded r with inl data => Some data | inr _ => None end) rows.

(** Every row encodes. *)
Definition allEncode {A : Type} (rows : list (export_service.Exported A)) : Prop :=
  Forall (fun r => ∃ data, export_service.encoded r = inl data) rows.

(** A pair of resource and format that the streaming export serves. *)
Definition servedExport (resource fmt : string) : Prop :=
  (fmt = "" ∨ fmt = "ndjson" ∨ fmt = "json") ∧ api.isResource resource = true
  ∨ fmt = "csv" ∧ resource = "users".

(** The query answers and every row encodes. *)
Definition sound {A : Type} (cur : export_service.Cursor A) : Prop :=
  export_service.cursorErr cur = None ∧ allEncode (export_service.delivered cur).

(* ===================================================================== *)
(** * Properties *)
(* ===================================================================== *)

Section ValidatorFacts.
Import GoLib models validation.

Lemma onField_app (f : string) (a b : list ValidationError) :
  onField f (a ++ b) = onField f a ++ onField f b.
Proof. unfold onField. apply filter_app. Qed.

Lemma onField_other (f : string) (l : list ValidationError) :
  Forall (fun e => Field e ≠ f) l → onField f l = [].
Proof.
  unfold onField. induction 1 as [|e l He _ IH]; [reflexivity|].
  rewrite filter_cons. destruct (decide (Field e = f)); [contradiction|exact IH].
Qed.

Lemma onField_same (f : string) (e : ValidationError) :
  Field e = f → onField f [e] = [e].
Proof.
  intros He. unfold onField. rewrite filter_cons.
  destruct (decide (Field e = f)); [reflexivity|contradiction].
Qed.

Lemma isEmpty_false (s : string) : s ≠ "" → isEmpty s = false.
Proof. intros Hs. unfold isEmpty. apply String.eqb_neq. exact Hs. Qed.

End ValidatorFacts.

(** A block of a validator whose errors are all on another field
    contributes nothing to the errors on the field looked at. *)
Ltac other_field :=
  apply onField_other;
  repeat match goal with
         | |- context [if ?b then _ else _] => destruct b
         end;
  repeat constructor; simpl; congruence.

(** C7, as the code has it. For a draft article with a non-empty
    published_at, the errors on field published_at start with exactly one
    error carrying the message that drafts must not have published_at; that
    error stands alone when the value parses as RFC 3339, and is followed by
    one invalid-date error on the same field when it does not. *)
Theorem draft_published_at_errors
  (v : validation.Validator) (a : models.ArticleNDJSON) (lineNum : Z) :
  models.ArticleNDJSON_Status a = "draft" →
  models.ArticleNDJSON_PublishedAt a ≠ "" →
  validation.onField "published_at" (validation.ValidateArticle v a lineNum) =
    validation.mkError "published_at" "draft articles must not have published_at" None
    :: (if GoLib.time_Parse_RFC3339_ok (models.ArticleNDJSON_PublishedAt a) then []
        else [validation.invalid "published_at" "invalid ISO 8601 date format"
                (models.ArticleNDJSON_PublishedAt a)]).
Proof.
  intros Hdraft Hpub. unfold validation.ValidateArticle.
  rewrite Hdraft, (isEmpty_false _ Hpub). simpl negb. simpl andb.
  rewrite !onField_app.
  rewrite (onField_same "published_at") by reflexivity.
  repeat match goal with
         | |- context [validation.onField "published_at" ?blk ++ _] =>
             replace (validation.onField "published_at" blk) with (@nil validation.ValidationError)
               by (symmetry; other_field)
         end.
  simpl.
  destruct (GoLib.time_Parse_RFC3339_ok (models.ArticleNDJSON_PublishedAt a)); reflexivity.
Qed.

Lemma draft_published_at_errors_witness :
  validation.onField "published_at"
    (validation.ValidateArticle validation.NewValidator samples.datedDraft 1) =
  [validation.mkError "published_at" "draft articles must not have published_at" None].
Proof.
  exact (draft_published_at_errors validation.NewValidator samples.datedDraft 1
           eq_refl ltac:(discriminate)).
Defined.

(** C7, as stated, fails: a draft whose published_at is the text tomorrow
    gets two errors on field published_at, the second with another
    message. *)
Lemma draft_with_unparseable_published_at :
  validation.onField "published_at"
    (validation.ValidateArticle validation.NewValidator samples.draftArticle 1) =
  [validation.mkError "published_at" "draft articles must not have published_at" None;
   validation.mkError "published_at" "invalid ISO 8601 date format" (Some "tomorrow")].
Proof. vm_compute. reflexivity. Qed.

(** C10. A comment whose id starts with cm_ gets no error on field id,
    whatever follows the prefix (nothing at all included). *)
Theorem cm_prefix_id_accepted
  (v : validation.Validator) (c : models.CommentNDJSON) (lineNum : Z) (suffix : string) :
  models.CommentNDJSON_ID c = "cm_" +:+ suffix →
  validation.onField "id" (validation.ValidateComment v c lineNum) = [].
Proof.
  intros Hid. unfold validation.ValidateComment. rewrite Hid.
  change (validation.isEmpty ("cm_" +:+ suffix)) with false.
  change (GoLib.strings_HasPrefix ("cm_" +:+ suffix) "cm_") with true.
  rewrite andb_false_r.
  rewrite !onField_app.
  repeat match goal with
         | |- context [validation.onField "id" ?blk ++ _] =>
             replace (validation.onField "id" blk) with (@nil validation.ValidationError)
               by (symmetry; first [reflexivity | other_field])
         end.
  simpl. other_field.
Qed.

Lemma cm_prefix_id_accepted_witness :
  validation.onField "id"
    (validation.ValidateComment validation.NewValidator samples.bareComment 1) = [].
Proof.
  exact (cm_prefix_id_accepted validation.NewValidator samples.bareComment 1 "" eq_refl).
Defined.

Section HeaderFacts.
Import GoLib models service.

Lemma headerStep_fold (header : list string) :
  ∀ (i : Z) (m : gmap string Z),
    0 ≤ i → indicesBelow i m →
    indicesBelow (i + slen header) (snd (fold_left headerStep header (i, m))).
Proof.
  induction header as [|h header IH]; intros i m Hi Hm.
  - simpl. unfold slen. simpl. intros k j Hk. specialize (Hm k j Hk). lia.
  - simpl fold_left. unfold headerStep at 2. simpl fst. simpl snd.
    replace (i + slen (h :: header)) with ((i + 1) + slen header)
      by (unfold slen; simpl length; lia).
    apply IH; [lia|].
    intros k j Hk. rewrite lookup_insert in Hk. case_decide.
    + inversion Hk. lia.
    + specialize (Hm k j Hk). lia.
Qed.

Lemma buildHeaderMap_indices (header : list string) :
  indicesBelow (slen header) (buildHeaderMap header).
Proof.
  unfold buildHeaderMap.
  replace (slen header) with (0 + slen header) by lia.
  apply headerStep_fold; [lia|]. intros k i Hk. rewrite lookup_empty in Hk. discriminate.
Qed.

(** [getField] on a map whose indices are not negative: the three cases of
    its result. *)
Lemma getField_cases (record : list string) (headerMap : gmap string Z) (field : string) :
  (∀ k i, headerMap !! k = Some i → 0 ≤ i) →
  match headerMap !! field with
  | Some idx =>
      if idx <? slen record
      then ∃ cell, record !! Z.to_nat idx = Some cell ∧ 0 ≤ idx ∧
                   getField record headerMap field = Some (strings_TrimSpace cell)
      else getField record headerMap field = Some ""
  | None => getField record headerMap field = Some ""
  end.
Proof.
  intros Hnn. unfold getField.
  destruct (headerMap !! field) as [idx|] eqn:Hlk; [|reflexivity].
  specialize (Hnn _ _ Hlk).
  destruct (idx <? slen record) eqn:Hlt; [|reflexivity].
  apply Z.ltb_lt in Hlt. unfold slen in Hlt.
  destruct (lookup_lt_is_Some_2 record (Z.to_nat idx) ltac:(lia)) as [cell Hcell].
  exists cell. split; [exact Hcell|]. split; [exact Hnn|].
  unfold index, slen.
  replace (idx <? 0) with false by (symmetry; apply Z.ltb_ge; lia).
  replace (Z.of_nat (length record) <=? idx) with false by (symmetry; apply Z.leb_gt; lia).
  simpl. rewrite Hcell. reflexivity.
Qed.


End HeaderFacts.

Section SkippedRows.
Import GoLib models validation repository service.

Lemma readLoop_skips_unreadable (ctxDone : Z -> bool) (batchInsert : nat -> list User -> Z * error)
  (batchSize : Z) (headerMap : gmap string Z) (rows : list (option (list string))) :
  ∀ st, readLoop ctxDone batchInsert batchSize headerMap rows st
        = readLoop ctxDone batchInsert batchSize headerMap
            (List.filter (fun r => match r with Some _ => true | None => false end) rows) st.
Proof.
  induction rows as [|[record|] rest IH]; intros st; simpl.
  - reflexivity.
  - destruct (atCancelledCheckpoint ctxDone _); [reflexivity|].
    destruct (parseUserRow record headerMap); [apply IH|reflexivity].
  - apply IH.
Qed.




End SkippedRows.


(** A row shorter than the header: the cells it lacks read as empty, and
    the validator reports them as missing. *)
Example short_row_reads_empty :
  service.parseUserRow [samples.uuidA; "a@x.io"] (service.buildHeaderMap samples.usersHeader)
  = Some (models.mkUserCSV samples.uuidA "a@x.io" "" "" "" "" "").
Proof. vm_compute. reflexivity. Qed.


Section BatchInsertFacts.
Import GoLib models repository service.
Context {R : Type}.

Lemma copyRows_count (f : nat -> bool) (batch : list R) :
  ∀ i, snd (copyRows f i batch) = slen (fst (copyRows f i batch)).
Proof.
  induction batch as [|r batch IH]; intros i; [reflexivity|].
  simpl. specialize (IH (S i)). destruct (copyRows f (S i) batch) as [buffered inserted].
  simpl in IH. destruct (f i); simpl; [exact IH|]. unfold slen in *. simpl length. lia.
Qed.

Lemma copyRows_survivors (f : nat -> bool) (batch : list R) :
  ∀ i, fst (copyRows f i batch) = survivorsFrom f i batch.
Proof.
  unfold survivorsFrom. induction batch as [|r batch IH]; intros i; [reflexivity|].
  simpl. specialize (IH (S i)). destruct (copyRows f (S i) batch) as [buffered inserted].
  simpl in IH. destruct (f i); simpl; rewrite IH; reflexivity.
Qed.

Lemma copyRows_sublist (f : nat -> bool) (batch : list R) :
  ∀ i, sublist (fst (copyRows f i batch)) batch.
Proof.
  induction batch as [|r batch IH]; intros i; [constructor|].
  simpl. specialize (IH (S i)). destruct (copyRows f (S i) batch) as [buffered inserted].
  simpl in IH. destruct (f i); simpl; [apply sublist_cons|apply sublist_skip]; exact IH.
Qed.

Lemma copyRows_all (f : nat -> bool) (batch : list R) :
  ∀ i, (∀ k, (k < length batch)%nat → f (i + k)%nat = false) →
       fst (copyRows f i batch) = batch.
Proof.
  induction batch as [|r batch IH]; intros i Hall; [reflexivity|].
  simpl. pose proof (Hall 0%nat ltac:(simpl; lia)) as H0. rewrite Nat.add_0_r in H0.
  specialize (IH (S i)). destruct (copyRows f (S i) batch) as [buffered inserted].
  rewrite H0. simpl. f_equal. apply IH. intros k Hk.
  replace (S i + k)%nat with (i + S k)%nat by lia. apply Hall. simpl. lia.
Qed.

Lemma copyRows_skips (f : nat -> bool) (batch : list R) :
  ∀ i, (∃ k, (k < length batch)%nat ∧ f (i + k)%nat = true) →
       slen (fst (copyRows f i batch)) < slen batch.
Proof.
  induction batch as [|r batch IH]; intros i (k & Hk & Hf); [simpl in Hk; lia|].
  simpl. pose proof (copyRows_sublist f batch (S i)) as Hsub.
  apply sublist_length in Hsub.
  specialize (IH (S i)). destruct (copyRows f (S i) batch) as [buffered inserted].
  simpl in *. destruct (f i) eqn:Hfi; simpl.
  - unfold slen. simpl length. lia.
  - destruct k as [|k]; [rewrite Nat.add_0_r in Hf; congruence|].
    assert (slen buffered < slen batch) as Hlt.
    { apply IH. exists k. split; [lia|]. replace (S (i + k))%nat with (i + S k)%nat by lia.
      exact Hf. }
    unfold slen in *. simpl length. lia.
Qed.

End BatchInsertFacts.

(** The two ways a [BatchInsert] of a non-empty batch ends. *)
Lemma BatchInsert_cases {R : Type} (db : repository.CopySession) (table batch : list R) :
  batch ≠ [] →
  (snd (snd (repository.BatchInsert db table batch)) ≠ None →
     fst (snd (repository.BatchInsert db table batch)) = 0
     ∧ fst (repository.BatchInsert db table batch) = table)
  ∧ (snd (snd (repository.BatchInsert db table batch)) = None →
     ∃ kept,
       fst (repository.BatchInsert db table batch) = table ++ kept
       ∧ kept = survivors (repository.rowErr db) batch
       ∧ sublist kept batch
       ∧ fst (snd (repository.BatchInsert db table batch)) = service.slen kept
       ∧ ((∀ k, (k < length batch)%nat → repository.rowErr db k = false) →
            kept = batch)
       ∧ ((∃ k, (k < length batch)%nat ∧ repository.rowErr db k = true) →
            service.slen kept < service.slen batch)).
Proof.
  intros Hne. unfold repository.BatchInsert.
  destruct batch as [|r batch]; [congruence|].
  replace (Z.of_nat (length (r :: batch)) =? 0) with false
    by (symmetry; apply Z.eqb_neq; simpl length; lia).
  destruct (repository.beginErr db); [split; [intros _; split; reflexivity|discriminate]|].
  destruct (repository.prepareErr db); [split; [intros _; split; reflexivity|discriminate]|].
  pose proof (copyRows_count (repository.rowErr db) (r :: batch) 0) as Hcount.
  pose proof (copyRows_survivors (repository.rowErr db) (r :: batch) 0) as Hsurv.
  fold (survivors (repository.rowErr db) (r :: batch)) in Hsurv.
  pose proof (copyRows_sublist (repository.rowErr db) (r :: batch) 0) as Hsub.
  pose proof (copyRows_all (repository.rowErr db) (r :: batch) 0) as Hall.
  pose proof (copyRows_skips (repository.rowErr db) (r :: batch) 0) as Hskip.
  destruct (repository.copyRows (repository.rowErr db) 0 (r :: batch)) as [buffered inserted].
  simpl fst in *. simpl snd in *.
  destruct (repository.flushErr db); [split; [intros _; split; reflexivity|discriminate]|].
  destruct (repository.commitErr db); [split; [intros _; split; reflexivity|discriminate]|].
  simpl. split; [congruence|]. intros _. exists buffered.
  repeat split; try assumption; try reflexivity.
Qed.

(** C2, as the code has it. For a non-empty batch, BatchInsert either
    returns an error together with the count 0 and commits nothing, or
    returns no error, commits exactly the rows whose exec did not fail (in
    order) and returns their number. That number is the length of the batch
    when no row exec failed, and is smaller as soon as one did. *)
Theorem BatchInsert_outcome {R : Type} (db : repository.CopySession) (table batch : list R) :
  batch ≠ [] →
  (snd (snd (repository.BatchInsert db table batch)) ≠ None →
     fst (snd (repository.BatchInsert db table batch)) = 0
     ∧ fst (repository.BatchInsert db table batch) = table)
  ∧ (snd (snd (repository.BatchInsert db table batch)) = None →
     ∃ kept,
       fst (repository.BatchInsert db table batch) = table ++ kept
       ∧ kept = survivors (repository.rowErr db) batch
       ∧ sublist kept batch
       ∧ fst (snd (repository.BatchInsert db table batch)) = service.slen kept
       ∧ ((∀ k, (k < length batch)%nat → repository.rowErr db k = false) →
            kept = batch)
       ∧ ((∃ k, (k < length batch)%nat ∧ repository.rowErr db k = true) →
            service.slen kept < service.slen batch)).
Proof. apply BatchInsert_cases. Qed.

Lemma BatchInsert_outcome_witness :
  (snd (snd (repository.userRepo_BatchInsert repository.healthy [] [samples.alice; samples.bob]))
     ≠ None →
     fst (snd (repository.userRepo_BatchInsert repository.healthy [] [samples.alice; samples.bob])) = 0
     ∧ fst (repository.userRepo_BatchInsert repository.healthy [] [samples.alice; samples.bob]) = [])
  ∧ (snd (snd (repository.userRepo_BatchInsert repository.healthy [] [samples.alice; samples.bob]))
     = None →
     ∃ kept,
       fst (repository.userRepo_BatchInsert repository.healthy [] [samples.alice; samples.bob])
       = [] ++ kept
       ∧ kept = survivors (repository.rowErr repository.healthy) [samples.alice; samples.bob]
       ∧ sublist kept [samples.alice; samples.bob]
       ∧ fst (snd (repository.userRepo_BatchInsert repository.healthy []
                     [samples.alice; samples.bob])) = service.slen kept
       ∧ ((∀ k, (k < length [samples.alice; samples.bob])%nat →
                repository.rowErr repository.healthy k = false) →
            kept = [samples.alice; samples.bob])
       ∧ ((∃ k, (k < length [samples.alice; samples.bob])%nat
                ∧ repository.rowErr repository.healthy k = true) →
            service.slen kept < service.slen [samples.alice; samples.bob])).
Proof.
  apply (BatchInsert_outcome repository.healthy [] [samples.alice; samples.bob]).
  discriminate.
Defined.

(** C2, as stated, fails: with a batch of two users of which the exec of
    the first fails, BatchInsert returns no error and the count 1, which is
    not the length of the batch, and commits the second user alone. *)
Lemma BatchInsert_partial_count :
  snd (snd (repository.userRepo_BatchInsert (repository.rowFails 0) []
              [samples.alice; samples.bob])) = None
  ∧ fst (snd (repository.userRepo_BatchInsert (repository.rowFails 0) []
                [samples.alice; samples.bob])) = 1
  ∧ fst (snd (repository.userRepo_BatchInsert (repository.rowFails 0) []
                [samples.alice; samples.bob])) ≠ service.slen [samples.alice; samples.bob]
  ∧ fst (repository.userRepo_BatchInsert (repository.rowFails 0) []
           [samples.alice; samples.bob]) = [samples.bob].
Proof. vm_compute. repeat split; congruence. Qed.

(* --------------------------------------------------------------------- *)
(** ** The import pipeline: counters and stored errors *)
(* --------------------------------------------------------------------- *)

Section PipelineFacts.
Import GoLib models validation repository service.

Context {Raw Rec : Type}.
Variable validate : Validator -> Raw -> Z -> list validation.ValidationError.
Variable remember : Validator -> Raw -> Validator.
Variable convert : Raw -> Rec.
Variable ctxDone : Z -> bool.
Variable batchInsert : nat -> list Rec -> Z * error.
Variable batchSize : Z.

Lemma countRejected_balanced (j : Job) : balanced j → balanced (countRejected j).
Proof. unfold balanced, countRejected. simpl. lia. Qed.

Lemma incTotal_balanced (j : Job) : balanced j → balanced (incTotal j).
Proof. unfold balanced, incTotal. simpl. lia. Qed.

Lemma countBatch_balanced (n : Z) (res : Z * error) (j : Job) :
  (snd res = None → fst res = n) → balanced j → balanced (countBatch n res j).
Proof.
  unfold balanced, countBatch. intros Hres Hj.
  destruct (snd res); simpl; [lia|]. rewrite (Hres eq_refl). lia.
Qed.

Lemma flushIfFull_job (st : Run Rec) : job (flushIfFull st) = job st.
Proof.
  unfold flushIfFull, flushValidationErrors.
  destruct (errorFlushThreshold <=? slen (validationErrors st)); [|reflexivity].
  destruct (slen (validationErrors st) =? 0); reflexivity.
Qed.

Lemma reject_balanced (errors : list validation.ValidationError) (st : Run Rec) :
  balanced (job st) → balanced (job (reject errors st)).
Proof.
  intros H. unfold reject. rewrite flushIfFull_job. simpl.
  apply countRejected_balanced. exact H.
Qed.

Section UnderContract.
Hypothesis contract : allOrNothing batchInsert.

Lemma insertBatch_balanced (st : Run Rec) :
  balanced (job st) → balanced (job (insertBatch batchInsert st)).
Proof.
  intros H. unfold insertBatch. simpl.
  apply countBatch_balanced; [apply contract|exact H].
Qed.

Lemma accept_balanced (raw : Raw) (st : Run Rec) :
  balanced (job st) →
  balanced (job (accept remember convert batchInsert batchSize raw st)).
Proof.
  intros H. unfold accept.
  match goal with |- context [if ?c then _ else _] => destruct c end.
  - unfold clearBatch. simpl. apply countBatch_balanced; [apply contract|exact H].
  - exact H.
Qed.

Lemma processRecord_balanced (raw : Raw) (st : Run Rec) :
  balanced (job st) →
  balanced (job (processRecord validate remember convert batchInsert batchSize raw st)).
Proof.
  intros H. unfold processRecord.
  destruct (0 <? slen (validate (validator st) raw (lineNum st))).
  - apply reject_balanced. exact H.
  - apply accept_balanced. exact H.
Qed.

Lemma finish_balanced (st : Run Rec) :
  balanced (job st) → balanced (job (finish batchInsert st)).
Proof.
  intros H. unfold finish.
  assert (balanced (job (if 0 <? slen (batch st) then insertBatch batchInsert st else st)))
    as H1.
  { destruct (0 <? slen (batch st)); [apply insertBatch_balanced|]; exact H. }
  destruct (0 <? slen (validationErrors
              (if 0 <? slen (batch st) then insertBatch batchInsert st else st)));
    exact H1.
Qed.

Lemma scanLoop_balanced (lines : list (ScanLine Raw)) :
  ∀ st, balanced (job st) →
        balanced (job (snd (scanLoop validate remember convert ctxDone batchInsert
                              batchSize lines st))).
Proof.
  induction lines as [|ln lines IH]; intros st H; [exact H|].
  simpl. destruct (String.eqb (strings_TrimSpace (text ln)) "").
  - apply IH. exact H.
  - destruct (atCancelledCheckpoint ctxDone (countRecord (nextLine st))).
    + simpl. apply incTotal_balanced. exact H.
    + destruct (unmarshal ln) as [detail|raw]; apply IH.
      * apply reject_balanced. simpl. apply incTotal_balanced. exact H.
      * apply processRecord_balanced. simpl. apply incTotal_balanced. exact H.
Qed.

Lemma runNDJSON_balanced (file : NDJSONFile Raw) (st : Run Rec) :
  balanced (job st) →
  balanced (job (snd (runNDJSON validate remember convert ctxDone batchInsert
                        batchSize file st))).
Proof.
  intros H. unfold runNDJSON.
  pose proof (scanLoop_balanced (ndLines file) st H) as Hloop.
  destruct (scanLoop validate remember convert ctxDone batchInsert batchSize
              (ndLines file) st) as [[|err] st']; simpl in *.
  - apply finish_balanced. exact Hloop.
  - exact Hloop.
Qed.

End UnderContract.

(** *** Rejected lines and the table of errors *)

Lemma keptBy_storesAll (db : CopySession) (errors : list models.ValidationError) :
  storesAll db → keptBy db errors = errors.
Proof.
  intros (Hb & Hp & Hf & Hc & Hrows). unfold keptBy. rewrite Hb, Hp, Hf, Hc.
  destruct errors as [|e errors]; [reflexivity|].
  change (Z.of_nat (length (e :: errors)) =? 0) with false. cbv iota.
  pose proof (copyRows_all (rowErr db) (e :: errors) 0) as H.
  rewrite H; [reflexivity|]. intros k _. apply Hrows.
Qed.

Lemma covered_flush (st : Run Rec) : covered st → covered (flushValidationErrors st).
Proof.
  unfold covered, flushValidationErrors. intros [Hrel H].
  destruct (slen (validationErrors st) =? 0); [split; assumption|]. simpl.
  split; [exact Hrel|].
  intros n Hn. rewrite app_nil_r, (keptBy_storesAll _ _ (Hrel _)). apply H. exact Hn.
Qed.

Lemma covered_flushIfFull (st : Run Rec) : covered st → covered (flushIfFull st).
Proof.
  unfold flushIfFull. intros H.
  destruct (errorFlushThreshold <=? slen (validationErrors st)); [|exact H].
  apply covered_flush. exact H.
Qed.

Lemma covered_reject (errors : list validation.ValidationError) (st : Run Rec) :
  errors ≠ [] → covered st → covered (reject errors st).
Proof.
  intros Hne [Hrel H]. unfold reject. apply covered_flushIfFull.
  unfold covered in *. simpl. split; [exact Hrel|]. intros n [Hn|Hn].
  - destruct errors as [|e errors]; [congruence|].
    exists (withLine (lineNum st) e). split; [|simpl; exact Hn].
    apply in_or_app. right. apply in_or_app. right. simpl. left. reflexivity.
  - destruct (H n Hn) as (e & He & Hline). exists e. split; [|exact Hline].
    apply in_app_or in He. apply in_or_app. destruct He as [He|He]; [left; exact He|].
    right. apply in_or_app. left. exact He.
Qed.

Lemma covered_accept (raw : Raw) (st : Run Rec) :
  covered st → covered (accept remember convert batchInsert batchSize raw st).
Proof.
  intros H. unfold accept.
  match goal with |- context [if ?c then _ else _] => destruct c end; exact H.
Qed.

Lemma slen_pos_nonempty {A : Type} (l : list A) : (0 <? slen l) = true → l ≠ [].
Proof. intros H ->. discriminate. Qed.

Lemma covered_processRecord (raw : Raw) (st : Run Rec) :
  covered st →
  covered (processRecord validate remember convert batchInsert batchSize raw st).
Proof.
  intros H. unfold processRecord.
  destruct (0 <? slen (validate (validator st) raw (lineNum st))) eqn:Hlen.
  - apply covered_reject; [apply slen_pos_nonempty; exact Hlen|exact H].
  - apply covered_accept. exact H.
Qed.

Lemma covered_scanLoop (lines : list (ScanLine Raw)) :
  ∀ st, covered st →
        covered (snd (scanLoop validate remember convert ctxDone batchInsert
                        batchSize lines st)).
Proof.
  induction lines as [|ln lines IH]; intros st H; [exact H|].
  simpl. destruct (String.eqb (strings_TrimSpace (text ln)) "").
  - apply IH. exact H.
  - destruct (atCancelledCheckpoint ctxDone (countRecord (nextLine st))).
    + exact H.
    + destruct (unmarshal ln) as [detail|raw]; apply IH.
      * apply covered_reject; [discriminate|exact H].
      * apply covered_processRecord. exact H.
Qed.

Lemma storedAt_In (n : Z) (errors : list models.ValidationError) :
  (∃ e, In e errors ∧ models.Line e = n) → storedAt n errors = true.
Proof.
  intros (e & He & Hline). unfold storedAt. apply existsb_exists.
  exists e. split; [exact He|]. apply Z.eqb_eq. exact Hline.
Qed.

Lemma finish_persists (st : Run Rec) : covered st → persisted (finish batchInsert st).
Proof.
  intros H. unfold finish.
  set (st1 := if 0 <? slen (batch st) then insertBatch batchInsert st else st).
  assert (covered st1) as H1 by (subst st1; destruct (0 <? slen (batch st)); exact H).
  clearbody st1. unfold persisted, covered in *. destruct H1 as [Hrel H1].
  destruct (0 <? slen (validationErrors st1)) eqn:Hve; simpl; intros n Hn.
  - apply storedAt_In. rewrite (keptBy_storesAll _ _ (Hrel _)). apply H1. exact Hn.
  - apply storedAt_In. destruct (H1 n Hn) as (e & He & Hline). exists e.
    split; [|exact Hline].
    destruct (validationErrors st1) as [|x l]; [rewrite app_nil_r in He; exact He|].
    unfold slen in Hve. simpl length in Hve. apply Z.ltb_ge in Hve. lia.
Qed.

(** An NDJSON run that is not cancelled: once the function returns, every
    rejected line has an error in the table. *)
Lemma runNDJSON_persists (file : NDJSONFile Raw) (st : Run Rec) :
  covered st →
  fst (scanLoop validate remember convert ctxDone batchInsert batchSize (ndLines file) st)
  = Drained →
  persisted (snd (runNDJSON validate remember convert ctxDone batchInsert batchSize file st)).
Proof.
  intros H Hexit. unfold runNDJSON.
  pose proof (covered_scanLoop (ndLines file) st H) as Hloop.
  destruct (scanLoop validate remember convert ctxDone batchInsert batchSize
              (ndLines file) st) as [ex st1]. simpl in *. subst ex. simpl.
  apply finish_persists. exact Hloop.
Qed.

End PipelineFacts.

Section UsersPipelineFacts.
Import GoLib models validation repository service.

Variable ctxDone : Z -> bool.
Variable batchInsert : nat -> list User -> Z * error.
Variable batchSize : Z.

Lemma readLoop_balanced (headerMap : gmap string Z) (rows : list (option (list string))) :
  allOrNothing batchInsert →
  ∀ st, balanced (job st) →
        balanced (job (snd (readLoop ctxDone batchInsert batchSize headerMap rows st))).
Proof.
  intros contract. induction rows as [|[record|] rows IH]; intros st H; [exact H| |].
  - simpl. destruct (atCancelledCheckpoint ctxDone (countRecord (nextLine st))).
    + simpl. apply incTotal_balanced. exact H.
    + destruct (parseUserRow record headerMap) as [userCSV|].
      * apply IH. apply processRecord_balanced; [exact contract|].
        simpl. apply incTotal_balanced. exact H.
      * simpl. apply incTotal_balanced. exact H.
  - simpl. apply IH. exact H.
Qed.

Lemma readLoop_covered (headerMap : gmap string Z) (rows : list (option (list string))) :
  ∀ st, covered st →
        covered (snd (readLoop ctxDone batchInsert batchSize headerMap rows st)).
Proof.
  induction rows as [|[record|] rows IH]; intros st H; [exact H| |].
  - simpl. destruct (atCancelledCheckpoint ctxDone (countRecord (nextLine st))).
    + exact H.
    + destruct (parseUserRow record headerMap) as [userCSV|]; [|exact H].
      apply IH. apply covered_processRecord. exact H.
  - simpl. apply IH. exact H.
Qed.

Lemma start_covered {Rec : Type} (j : Job) (v : Validator) (line : Z)
  (driver : nat -> CopySession) :
  (∀ n, storesAll (driver n)) → covered (@start Rec j v line [] driver).
Proof. intros Hrel. split; [exact Hrel|]. intros n Hn. simpl in Hn. contradiction. Qed.

(** [processUsersCSV] keeps the counters balanced under the contract. *)
Lemma processUsersCSV_balanced (file : option CSVFile) (j : Job)
  (stored : list models.ValidationError) (driver : nat -> CopySession) :
  allOrNothing batchInsert → balanced j →
  balanced (job (snd (processUsersCSV ctxDone batchInsert batchSize file j stored driver))).
Proof.
  intros contract H. unfold processUsersCSV.
  destruct file as [f|]; [|exact H].
  destruct (csvHeader f) as [header|]; [|exact H].
  pose proof (readLoop_balanced (buildHeaderMap header) (csvRows f) contract
                (start j NewValidator 1 stored driver) H) as Hloop.
  destruct (readLoop ctxDone batchInsert batchSize (buildHeaderMap header) (csvRows f)
              (start j NewValidator 1 stored driver)) as [[|err] st]; simpl in *.
  - apply finish_balanced; assumption.
  - exact Hloop.
Qed.

(** A return from inside the loop carries an error. *)
Lemma readLoop_returns_error (headerMap : gmap string Z) (rows : list (option (list string))) :
  ∀ st st', readLoop ctxDone batchInsert batchSize headerMap rows st ≠ (Returned None, st').
Proof.
  induction rows as [|[record|] rows IH]; intros st st'; simpl.
  - discriminate.
  - destruct (atCancelledCheckpoint ctxDone (countRecord (nextLine st))); [discriminate|].
    destruct (parseUserRow record headerMap); [apply IH|discriminate].
  - apply IH.
Qed.

(** When [processUsersCSV] returns nil on a reliable error store, every
    rejected line has an error in the table. *)
Lemma processUsersCSV_persists (file : option CSVFile) (j : Job)
  (driver : nat -> CopySession) :
  (∀ n, storesAll (driver n)) →
  fst (processUsersCSV ctxDone batchInsert batchSize file j [] driver) = None →
  persisted (snd (processUsersCSV ctxDone batchInsert batchSize file j [] driver)).
Proof.
  intros Hrel. unfold processUsersCSV.
  destruct file as [f|]; [|discriminate].
  destruct (csvHeader f) as [header|]; [|discriminate].
  pose proof (readLoop_covered (buildHeaderMap header) (csvRows f)
                (start j NewValidator 1 [] driver)
                (start_covered j NewValidator 1 driver Hrel)) as Hloop.
  destruct (readLoop ctxDone batchInsert batchSize (buildHeaderMap header) (csvRows f)
              (start j NewValidator 1 [] driver)) as [[|err] st] eqn:Hrun; simpl in *.
  - intros _. apply finish_persists. exact Hloop.
  - intros ->. exfalso. exact (readLoop_returns_error _ _ _ _ Hrun).
Qed.

End UsersPipelineFacts.

Section ProcessImportFacts.
Import GoLib models validation repository service.

Lemma conclude_terminal {Rec : Type} (res : error * Run Rec) :
  terminal (finalJob (conclude res)) = true.
Proof. unfold conclude, terminal. simpl. destruct (fst res); reflexivity. Qed.

Lemma conclude_balanced {Rec : Type} (res : error * Run Rec) :
  balanced (job (snd res)) → balanced (finalJob (conclude res)).
Proof. unfold conclude, balanced. simpl. tauto. Qed.

(** [ProcessImport] always leaves the job completed or failed. *)
Lemma ProcessImport_terminal (w : World) (j : Job) (stored : list models.ValidationError) :
  terminal (finalJob (ProcessImport w j stored)) = true.
Proof.
  unfold ProcessImport.
  repeat match goal with |- context [if ?c then _ else _] => destruct c end;
    apply conclude_terminal.
Qed.

(** On repositories that keep the contract (no error means the whole batch
    was inserted), the counters of the job balance when [ProcessImport]
    returns: for every file, batch size, validation outcome and
    cancellation point. *)
Lemma ProcessImport_balanced (w : World) (j : Job) (stored : list models.ValidationError) :
  allOrNothing (User_BatchInsert w) →
  allOrNothing (Article_BatchInsert w) →
  allOrNothing (Comment_BatchInsert w) →
  balanced j →
  balanced (finalJob (ProcessImport w j stored)).
Proof.
  intros Hu Ha Hc Hj. unfold ProcessImport.
  assert (balanced (setStatus JobStatusProcessing j)) as Hj1 by exact Hj.
  repeat match goal with |- context [if ?c then _ else _] => destruct c end;
    apply conclude_balanced.
  - apply processUsersCSV_balanced; assumption.
  - unfold processArticlesNDJSON. destruct (fileArticles w); [|exact Hj1].
    apply runNDJSON_balanced; assumption.
  - unfold processCommentsNDJSON. destruct (fileComments w); [|exact Hj1].
    apply runNDJSON_balanced; assumption.
  - exact Hj1.
Qed.

(** The real [BatchInsert] keeps the contract whenever no row exec fails. *)
Lemma viaDriver_allOrNothing {R : Type} (db : nat -> CopySession) :
  (∀ n k, rowErr (db n) k = false) → allOrNothing (@viaDriver R db).
Proof.
  intros Hrows n batch. unfold viaDriver.
  destruct batch as [|r batch]; [reflexivity|].
  destruct (BatchInsert_cases (db n) [] (r :: batch) ltac:(discriminate)) as [_ Hok].
  intros Hnil. destruct (Hok Hnil) as (kept & _ & _ & _ & Hcount & Hall & _).
  rewrite Hcount. rewrite Hall; [reflexivity|]. intros k _. apply Hrows.
Qed.

End ProcessImportFacts.

(** The end-to-end scenarios of the specification, run on the model. *)

(** Two users, the second with the email of the first: total 2, one
    stored, one failed, and one error on line 3. *)
Example scenario_duplicate_email :
  service.ProcessImport samples.duplicateEmail samples.usersJob []
  = {| service.returned := None;
       service.finalJob :=
         models.mkJob "job-1" models.JobTypeImport "users" models.JobStatusCompleted ""
           2 2 1 1 "data/uploads/users_1.csv";
       service.storedErrors :=
         [models.mkValidationError 3 "email" "duplicate email" (Some "a@x.io")] |}.
Proof. vm_compute. reflexivity. Qed.

(** Three article lines, the second malformed, the third a draft with a
    published_at: total 3, one stored, two failed. *)
Example scenario_malformed_line :
  service.returned (service.ProcessImport samples.articlesWorld samples.articlesJob []) = None
  ∧ service.finalJob (service.ProcessImport samples.articlesWorld samples.articlesJob [])
    = models.mkJob "job-2" models.JobTypeImport "articles" models.JobStatusCompleted ""
        3 3 1 2 "data/uploads/articles_1.ndjson"
  ∧ map (fun e => (models.Line e, models.Field e))
      (service.storedErrors
         (service.ProcessImport samples.articlesWorld samples.articlesJob []))
    = [(2, "json"); (3, "published_at")].
Proof. vm_compute. repeat split; reflexivity. Qed.

(** One valid user and a [BatchInsert] that returns an error: the batch is
    counted as failed, the job completes, no validation error is stored. *)
Example scenario_insert_error :
  service.ProcessImport samples.insertFails samples.usersJob []
  = {| service.returned := None;
       service.finalJob :=
         models.mkJob "job-1" models.JobTypeImport "users" models.JobStatusCompleted ""
           1 1 0 1 "data/uploads/users_1.csv";
       service.storedErrors := [] |}.
Proof. vm_compute. reflexivity. Qed.

(** C1 fails on the code at this input. The file holds one valid user; the
    exec of its row fails, the rest of the COPY succeeds, so BatchInsert
    returns no error and the count 0. The job ends completed with
    processed = 1 and successful + failed = 0. *)
Theorem skipped_row_unbalances_counters :
  service.returned (service.ProcessImport samples.oneRowSkipped samples.usersJob []) = None
  ∧ models.Job_Status
      (service.finalJob (service.ProcessImport samples.oneRowSkipped samples.usersJob []))
    = models.JobStatusCompleted
  ∧ models.Job_TotalRecords
      (service.finalJob (service.ProcessImport samples.oneRowSkipped samples.usersJob [])) = 1
  ∧ models.Job_ProcessedCount
      (service.finalJob (service.ProcessImport samples.oneRowSkipped samples.usersJob [])) = 1
  ∧ models.Job_SuccessfulCount
      (service.finalJob (service.ProcessImport samples.oneRowSkipped samples.usersJob [])) = 0
  ∧ models.Job_FailedCount
      (service.finalJob (service.ProcessImport samples.oneRowSkipped samples.usersJob [])) = 0
  ∧ ¬ balanced
        (service.finalJob (service.ProcessImport samples.oneRowSkipped samples.usersJob [])).
Proof.
  vm_compute. repeat split; try reflexivity. discriminate.
Qed.

(** C3 fails on the code at this input. The file holds 9999 rows of empty
    cells and the context is cancelled when line 10000 is reached. The row
    of line 9999 failed validation and was counted as failed, its errors
    were still in the buffer when the function returned from the
    checkpoint, and the table holds no error for that line: it ends with the
    49000 errors of lines 2 to 9801, flushed when the buffer was full. *)
Theorem cancelled_run_drops_buffered_errors :
  service.returned (service.ProcessImport samples.cancelledAtCheckpoint samples.usersJob [])
  = service.ctxCanceled
  ∧ models.Job_Status
      (service.finalJob (service.ProcessImport samples.cancelledAtCheckpoint samples.usersJob []))
    = models.JobStatusFailed
  ∧ models.Job_FailedCount
      (service.finalJob (service.ProcessImport samples.cancelledAtCheckpoint samples.usersJob []))
    = 9998
  ∧ existsb (Z.eqb 9999)
      (service.rejected
         (snd (service.processUsersCSV samples.alwaysDone samples.insertsAll 1000
                 (service.fileCSV samples.cancelledAtCheckpoint) samples.usersJob []
                 (service.Job_AddErrors samples.cancelledAtCheckpoint))))
    = true
  ∧ storedAt 9999
      (service.validationErrors
         (snd (service.processUsersCSV samples.alwaysDone samples.insertsAll 1000
                 (service.fileCSV samples.cancelledAtCheckpoint) samples.usersJob []
                 (service.Job_AddErrors samples.cancelledAtCheckpoint))))
    = true
  ∧ storedAt 9999
      (service.storedErrors
         (service.ProcessImport samples.cancelledAtCheckpoint samples.usersJob []))
    = false
  ∧ storedAt 9801
      (service.storedErrors
         (service.ProcessImport samples.cancelledAtCheckpoint samples.usersJob []))
    = true
  ∧ service.slen
      (service.storedErrors
         (service.ProcessImport samples.cancelledAtCheckpoint samples.usersJob []))
    = 49000.
Proof.
  vm_compute. repeat split; reflexivity.
Qed.

(** The same file with the context never cancelled: every rejected line,
    9999 included, has an error in the table. *)
Example uncancelled_run_keeps_errors :
  service.returned
    (service.ProcessImport
       (service.mkWorld samples.neverDone 1000 samples.insertsAll samples.insertsAll
          samples.insertsAll [] [] (fun _ => repository.healthy)
          (service.fileCSV samples.cancelledAtCheckpoint) None None)
       samples.usersJob []) = None
  ∧ storedAt 9999
      (service.storedErrors
         (service.ProcessImport
            (service.mkWorld samples.neverDone 1000 samples.insertsAll samples.insertsAll
               samples.insertsAll [] [] (fun _ => repository.healthy)
               (service.fileCSV samples.cancelledAtCheckpoint) None None)
            samples.usersJob [])) = true.
Proof.
  vm_compute. split; reflexivity.
Qed.

(* --------------------------------------------------------------------- *)
(** ** The FK caches *)
(* --------------------------------------------------------------------- *)

Section CacheFacts.
Import GoLib models validation service.

Lemma has_addAll (ids : list string) :
  ∀ (m : gmap string bool) (id : string),
    has (addAll ids m) id = true ↔ In id ids ∨ has m id = true.
Proof.
  unfold addAll. induction ids as [|x ids IH]; intros m id; simpl.
  - tauto.
  - rewrite IH. unfold has. rewrite lookup_insert. case_decide; simpl.
    + subst. tauto.
    + split; [intros [H1|H1]; auto|intros [[H1|H1]|H1]; auto; congruence].
Qed.

(** Below 100000 ids the cache holds exactly the enumerated ids. *)
Lemma preloadUserIDs_loaded (userIDs : list string) (id : string) :
  slen userIDs < 100000 →
  (has (userIDCache (preloadUserIDs NewValidator userIDs)) id = true ↔ In id userIDs).
Proof.
  intros Hlen. unfold preloadUserIDs.
  replace (slen userIDs <? 100000) with true by (symmetry; apply Z.ltb_lt; exact Hlen).
  simpl. rewrite has_addAll. unfold has. rewrite lookup_empty. simpl.
  split; [intros [H|H]; [exact H|discriminate]|auto].
Qed.

Lemma preloadArticleIDs_loaded (articleIDs : list string) (id : string) :
  slen articleIDs < 100000 →
  (has (articleIDCache (preloadArticleIDs NewValidator articleIDs)) id = true
   ↔ In id articleIDs).
Proof.
  intros Hlen. unfold preloadArticleIDs.
  replace (slen articleIDs <? 100000) with true by (symmetry; apply Z.ltb_lt; exact Hlen).
  simpl. rewrite has_addAll. unfold has. rewrite lookup_empty. simpl.
  split; [intros [H|H]; [exact H|discriminate]|auto].
Qed.

(** From 100000 ids on the validator is left as it was. *)
Lemma preload_skipped (v : Validator) (ids : list string) :
  100000 ≤ slen ids → preloadUserIDs v ids = v ∧ preloadArticleIDs v ids = v.
Proof.
  intros Hlen. unfold preloadUserIDs, preloadArticleIDs.
  replace (slen ids <? 100000) with false by (symmetry; apply Z.ltb_ge; exact Hlen).
  split; reflexivity.
Qed.

End CacheFacts.

(** C6 fails on the code at exactly 100000 ids. With 100000 enumerated ids
    neither cache is loaded: both pipelines start from the empty validator,
    and an article whose author is a well-formed UUID outside those ids gets
    no error on author_id (the FK check is skipped). *)
Theorem fk_cache_empty_at_100000 (ids : list string) :
  service.slen ids = 100000 →
  service.preloadUserIDs validation.NewValidator ids = validation.NewValidator
  ∧ service.preloadArticleIDs validation.NewValidator ids = validation.NewValidator
  ∧ ∀ a lineNum,
      validation.isValidUUID (models.ArticleNDJSON_AuthorID a) = true →
      validation.onField "author_id"
        (validation.ValidateArticle (service.preloadUserIDs validation.NewValidator ids)
           a lineNum) = [].
Proof.
  intros Hlen.
  destruct (preload_skipped validation.NewValidator ids ltac:(lia)) as [Hu Ha].
  split; [exact Hu|]. split; [exact Ha|].
  intros a lineNum Huuid. rewrite Hu. unfold validation.ValidateArticle.
  assert (validation.isEmpty (models.ArticleNDJSON_AuthorID a) = false) as Hfilled.
  { destruct (validation.isEmpty (models.ArticleNDJSON_AuthorID a)) eqn:E; [|reflexivity].
    apply String.eqb_eq in E. rewrite E in Huuid. vm_compute in Huuid. discriminate. }
  rewrite Huuid, Hfilled. change (validation.mapLen (validation.userIDCache validation.NewValidator))
    with 0.
  change (0 <? 0) with false. simpl negb. simpl andb.
  rewrite !onField_app.
  repeat match goal with
         | |- context [validation.onField "author_id" ?blk ++ _] =>
             replace (validation.onField "author_id" blk)
               with (@nil validation.ValidationError)
               by (symmetry; first [reflexivity | other_field])
         end.
  simpl. other_field.
Qed.

Lemma fk_cache_empty_at_100000_witness :
  service.slen samples.manyIDs = 100000
  ∧ existsb (String.eqb samples.uuidB) samples.manyIDs = false
  ∧ service.preloadUserIDs validation.NewValidator samples.manyIDs = validation.NewValidator
  ∧ validation.onField "author_id"
      (validation.ValidateArticle
         (service.preloadUserIDs validation.NewValidator samples.manyIDs)
         samples.orphanArticle 1) = [].
Proof.
  assert (service.slen samples.manyIDs = 100000) as Hlen by (vm_compute; reflexivity).
  split; [exact Hlen|]. split; [vm_compute; reflexivity|].
  destruct (fk_cache_empty_at_100000 samples.manyIDs Hlen) as (Hu & _ & Hfk).
  split; [exact Hu|]. apply Hfk. vm_compute. reflexivity.
Defined.

(** One id fewer and the same article is rejected: below the bound the
    check is made. *)
Example fk_checked_below_100000 :
  validation.onField "author_id"
    (validation.ValidateArticle
       (service.preloadUserIDs validation.NewValidator [samples.uuidA])
       samples.orphanArticle 1)
  = [validation.invalid "author_id" "referenced user does not exist" samples.uuidB].
Proof. vm_compute. reflexivity. Qed.

(* --------------------------------------------------------------------- *)
(** ** POST /v1/imports: idempotency and the file type gate *)
(* --------------------------------------------------------------------- *)

Section HandlerFacts.
Import GoLib models repository service api.


(** What a request past the idempotency check does to the jobs table:
    nothing, and it is refused; or one new row that carries the key of the
    request and whose id is answered with 202, the latter only when no row
    had that key. *)
Lemma stageAndCreate_jobs (cfg : Config) (host : Host) (req : Request) (srv : Server) :
  (jobs (snd (stageAndCreate cfg host req srv)) = jobs srv
   ∧ ∃ code message, fst (stageAndCreate cfg host req srv) = Failure code message)
  ∨ ∃ j, jobs (snd (stageAndCreate cfg host req srv)) = jobs srv ++ [j]
       ∧ Job_IdempotencyKey j = idempotencyKeyHeader req
       ∧ fst (stageAndCreate cfg host req srv)
         = Accepted (Job_ID j) (Job_Status j) (Job_Resource j)
       ∧ existsb (keyMatches (idempotencyKeyHeader req)) (jobs srv) = false.
Proof.
  unfold stageAndCreate.
  repeat match goal with
         | |- context [if ?c then _ else _] =>
             destruct c; try (left; split; [reflexivity|eauto])
         | |- context [match formFile req with _ => _ end] =>
             destruct (formFile req); try (left; split; [reflexivity|eauto])
         end.
  all: unfold CreateImportJob, jobRepo_Create; simpl.
  all: destruct (insertErr host); simpl; try (left; split; [reflexivity|eauto]).
  all: repeat match goal with
         | |- context [if ?c then _ else _] =>
             destruct c eqn:?; simpl; try (left; split; [reflexivity|eauto])
         end.
  all: right; eexists; repeat split; try reflexivity; assumption.
Qed.

Lemma CreateImport_jobs (cfg : Config) (host : Host) (req : Request) (srv : Server) :
  (jobs (snd (CreateImport cfg host req srv)) = jobs srv
   ∧ ∀ id st res, fst (CreateImport cfg host req srv) ≠ Accepted id st res)
  ∨ ∃ j, jobs (snd (CreateImport cfg host req srv)) = jobs srv ++ [j]
       ∧ Job_IdempotencyKey j = idempotencyKeyHeader req
       ∧ fst (CreateImport cfg host req srv)
         = Accepted (Job_ID j) (Job_Status j) (Job_Resource j)
       ∧ existsb (keyMatches (idempotencyKeyHeader req)) (jobs srv) = false.
Proof.
  unfold CreateImport.
  destruct (existingJobFor host srv (idempotencyKeyHeader req));
    [left; split; [reflexivity|discriminate]|].
  destruct (stageAndCreate_jobs cfg host req srv) as [[Hsame (code & message & Hresp)]|H];
    [left|right; exact H].
  split; [exact Hsame|]. intros id st res. rewrite Hresp. discriminate.
Qed.





End HandlerFacts.




(** C5, as the code has it. Whatever users are stored, the NDJSON export
    submitted as a users import under its export name is refused with
    status 400, and the fresh store stays as it was: no file is staged and
    no job is created. Within the size limit the message is that a users
    import requires a CSV file. *)
Theorem users_import_requires_csv
  (cfg : api.Config) (host : api.Host) (key : string) (rows : list export.Row) :
  ∃ message,
    api.reimportExport cfg host key rows api.fresh = (api.Failure 400 message, api.fresh)
    ∧ (GoLib.len (fst (fst (export.streamUsersNDJSON rows))) ≤ api.MaxUploadSize cfg →
       message = "users import requires CSV file").
Proof.
  unfold api.reimportExport.
  destruct (export.streamUsersNDJSON rows) as [[body count] err]. simpl fst.
  unfold api.CreateImport.
  cbn [api.idempotencyKeyHeader api.postFormResource api.queryResource api.formFile
       api.bindsJSON api.Filename api.Size api.content].
  assert (api.existingJobFor host api.fresh key = None) as ->.
  { unfold api.existingJobFor, service.GetJobByIdempotencyKey,
      repository.jobRepo_GetByIdempotencyKey.
    destruct (String.eqb key ""); [reflexivity|]. destruct (api.lookupErr host); reflexivity. }
  unfold api.stageAndCreate.
  cbn [api.idempotencyKeyHeader api.postFormResource api.queryResource api.formFile
       api.bindsJSON api.Filename api.Size api.content].
  change (String.eqb "users" "") with false.
  change (api.isResource "users") with true.
  change (GoLib.strings_ToLower (api.filepath_Ext export.ndjsonFilename)) with ".ndjson".
  cbn [negb andb String.eqb Ascii.eqb Bool.eqb].
  destruct (api.MaxUploadSize cfg <? GoLib.len body) eqn:Hsize.
  - eexists. split; [reflexivity|]. intros Hle. apply Z.ltb_lt in Hsize. lia.
  - eexists. split; [reflexivity|]. intros _. reflexivity.
Qed.

(** C5, as stated, fails: one stored user is exported (count 1), and the
    import of the exported file creates no job, so no job ends with a
    successful count of 1. *)
Lemma ndjson_export_not_reimportable :
  api.roundTrip samples.apiConfig (samples.calmHost "aaaaaaaa" "job-1")
    samples.ndjsonAsCSV [samples.aliceExported] = (1, None)
  ∧ ¬ (∃ j, snd (api.roundTrip samples.apiConfig (samples.calmHost "aaaaaaaa" "job-1")
                   samples.ndjsonAsCSV [samples.aliceExported]) = Some j
          ∧ models.Job_SuccessfulCount j = 1 ∧ models.Job_FailedCount j = 0).
Proof.
  assert (api.roundTrip samples.apiConfig (samples.calmHost "aaaaaaaa" "job-1")
            samples.ndjsonAsCSV [samples.aliceExported] = (1, None)) as H
    by (vm_compute; reflexivity).
  split; [exact H|]. rewrite H. intros (j & Hj & _). discriminate.
Qed.

(* --------------------------------------------------------------------- *)
(** ** The scheduler: bounded workers, exclusive claims *)
(* --------------------------------------------------------------------- *)

Section SchedulerFacts.
Import GoLib models repository service job_service.

Lemma maxWorkers_clamp (numCPU : Z) : maxWorkers numCPU = Z.max 4 (Z.min 32 (4 * numCPU)).
Proof.
  unfold maxWorkers.
  destruct (numCPU * 4 <? 4) eqn:Hlow.
  - apply Z.ltb_lt in Hlow. simpl. lia.
  - apply Z.ltb_ge in Hlow. destruct (32 <? numCPU * 4) eqn:Hhigh.
    + apply Z.ltb_lt in Hhigh. lia.
    + apply Z.ltb_ge in Hhigh. lia.
Qed.

Lemma maxWorkers_range (numCPU : Z) : 4 ≤ maxWorkers numCPU ≤ 32.
Proof. rewrite maxWorkers_clamp. lia. Qed.

Lemma removeOne_length (id : string) (l : list string) :
  inList id l = true → slen (removeOne id l) = slen l - 1.
Proof.
  unfold inList, slen. induction l as [|x l IH]; simpl; [discriminate|].
  rewrite (String.eqb_sym id x). destruct (String.eqb x id); simpl; intros H.
  - lia.
  - specialize (IH H). lia.
Qed.

Lemma removeOne_subset (id id' : string) (l : list string) :
  inList id' (removeOne id l) = true → inList id' l = true.
Proof.
  unfold inList. induction l as [|x l IH]; simpl; [auto|].
  destruct (String.eqb x id); simpl.
  - intros ->. apply orb_true_r.
  - destruct (String.eqb id' x); simpl; auto.
Qed.

Lemma step_capacity (s s' : Sched) (ev : Event) :
  step s ev = Some s' → capacity s' = capacity s.
Proof.
  destruct ev; simpl; intros H;
    repeat match type of H with
           | context [if ?c then _ else _] => destruct c
           | context [let '(_, _) := ?p in _] => destruct p
           end;
    inversion H; reflexivity.
Qed.

Lemma step_tokens (s s' : Sched) (ev : Event) :
  step s ev = Some s' → tokensOK s → tokensOK s'.
Proof.
  unfold tokensOK. intros H (Hsem & Hheld & Hcap).
  destruct ev; simpl in H.
  - destruct (sem s <? capacity s) eqn:Hroom; [|discriminate].
    apply Z.ltb_lt in Hroom. inversion H; subst s'; simpl. lia.
  - destruct (0 <? held s) eqn:Hpos; [|discriminate]. apply Z.ltb_lt in Hpos.
    destruct (existsb _ (table s)); inversion H; subst s'; simpl;
      unfold slen in *; simpl length; lia.
  - destruct (0 <? held s) eqn:Hpos; [|discriminate]. apply Z.ltb_lt in Hpos.
    inversion H; subst s'; simpl. lia.
  - destruct (inList jobID (workers s)); [|discriminate].
    inversion H; subst s'; simpl. lia.
  - destruct (inList jobID (workers s)) eqn:Hin; [|discriminate].
    inversion H; subst s'; simpl. rewrite (removeOne_length _ _ Hin). lia.
  - inversion H; subst s'; simpl. lia.
  - destruct (ownedBy who jobID (others s)); [|discriminate].
    inversion H; subst s'; simpl. lia.
Qed.

(** *** The table under a claim and under a status update *)

Lemma claimRow_id (id : string) (j : Job) : Job_ID (claimRow id j) = Job_ID j.
Proof. unfold claimRow. destruct (idMatches id j && isPending (Job_Status j)); reflexivity. Qed.

Lemma pendingIn_claimed (tbl : list Job) (id id' : string) :
  pendingIn (map (claimRow id) tbl) id'
  = (pendingIn tbl id' && negb (String.eqb id' id))%bool.
Proof.
  unfold pendingIn. induction tbl as [|j tbl IH]; [reflexivity|].
  simpl. rewrite IH. clear IH. unfold claimRow, idMatches.
  destruct (String.eqb_spec (Job_ID j) id) as [Hid|Hid];
    destruct (String.eqb_spec (Job_ID j) id') as [Hid'|Hid'];
    destruct (String.eqb_spec id' id) as [Heq|Hne];
    destruct (isPending (Job_Status j)) eqn:Hp;
    destruct (existsb (λ j0 : Job, String.eqb (Job_ID j0) id' && isPending (Job_Status j0)) tbl);
    simpl; rewrite ?Hp; simpl;
    repeat match goal with
           | |- context [String.eqb ?a ?b] => destruct (String.eqb_spec a b)
           end;
    simpl; try reflexivity; congruence.
Qed.

Lemma statusOf_not_pending (w : Written) : isPending (statusOf w) = false.
Proof. destruct w; reflexivity. Qed.

Lemma pendingIn_updated (tbl : list Job) (id id' : string) (w : Written) :
  pendingIn (updateStatus id w tbl) id'
  = (pendingIn tbl id' && negb (String.eqb id' id))%bool.
Proof.
  unfold pendingIn, updateStatus. induction tbl as [|j tbl IH]; [reflexivity|].
  simpl. rewrite IH. clear IH. unfold idMatches.
  destruct (String.eqb_spec (Job_ID j) id) as [Hid|Hid];
    destruct (String.eqb_spec (Job_ID j) id') as [Hid'|Hid'];
    destruct (String.eqb_spec id' id) as [Heq|Hne];
    destruct (isPending (Job_Status j)) eqn:Hp;
    destruct (existsb (λ j0 : Job, String.eqb (Job_ID j0) id' && isPending (Job_Status j0)) tbl);
    simpl; rewrite ?Hp, ?statusOf_not_pending; simpl;
    repeat match goal with
           | |- context [String.eqb ?a ?b] => destruct (String.eqb_spec a b)
           end;
    simpl; rewrite ?Hp, ?statusOf_not_pending; simpl; try reflexivity; congruence.
Qed.

(** *** The answers observed *)

Lemma slen_nonneg {A : Type} (l : list A) : 0 ≤ slen l.
Proof. unfold slen. lia. Qed.

Lemma slen_filter_cons {A : Type} (f : A -> bool) (x : A) (l : list A) :
  slen (List.filter f (x :: l)) = (if f x then 1 else 0) + slen (List.filter f l).
Proof. simpl. destruct (f x); unfold slen; simpl length; lia. Qed.

Lemma slen_filter_pos {A : Type} (f : A -> bool) (x : A) (l : list A) :
  In x l → f x = true → 0 < slen (List.filter f l).
Proof.
  intros Hin Hf. assert (In x (List.filter f l)) as H by (apply filter_In; auto).
  destruct (List.filter f l); [contradiction|]. unfold slen. simpl length. lia.
Qed.

Lemma won_about (id : string) (o : Claimant * string * bool) :
  won id o = true → about id o = true.
Proof. unfold won. intros H. apply andb_prop in H. apply H. Qed.

Lemma wonBy_counts (who : Claimant) (id : string) (s : Sched) :
  wonBy who id s = true → 0 < successes id s ∧ 0 < attempts id s.
Proof.
  unfold wonBy, successes, attempts. intros H. apply existsb_exists in H.
  destruct H as (o & Hin & Ho). apply andb_prop in Ho. destruct Ho as [_ Hwon].
  split; [apply (slen_filter_pos _ o); assumption|].
  apply (slen_filter_pos _ o); [assumption|]. apply won_about. exact Hwon.
Qed.

Lemma won_triple (c : Claimant) (id0 : string) (b : bool) (id : string) :
  won id (c, id0, b) = (String.eqb id0 id && b)%bool.
Proof. reflexivity. Qed.

Lemma about_triple (c : Claimant) (id0 : string) (b : bool) (id : string) :
  about id (c, id0, b) = String.eqb id0 id.
Proof. reflexivity. Qed.

(** A claim, whoever makes it: the table after the UPDATE and the answer
    keep the core. *)
Lemma claimsCore_claim (table0 tbl : list Job) (obs : list (Claimant * string * bool))
  (c : Claimant) (id0 : string) :
  claimsCore table0 tbl obs →
  claimsCore table0 (map (claimRow id0) tbl) ((c, id0, pendingIn tbl id0) :: obs).
Proof.
  intros H id. specialize (H id). destruct H as (Hle & Hwon & Hstart).
  rewrite !slen_filter_cons, pendingIn_claimed.
  pose proof (slen_nonneg (List.filter (won id) obs)) as Hw0.
  pose proof (slen_nonneg (List.filter (about id) obs)) as Ha0.
  rewrite !won_triple, !about_triple.
  destruct (String.eqb_spec id0 id) as [Heq|Hne].
  - subst id0. rewrite !String.eqb_refl. simpl.
    destruct (pendingIn tbl id) eqn:Hp; simpl.
    + assert (slen (List.filter (won id) obs) = 0) as Hzero.
      { destruct (Z.eq_dec (slen (List.filter (won id) obs)) 0) as [E|E]; [exact E|].
        assert (0 < slen (List.filter (won id) obs)) as Hpos by lia.
        specialize (Hwon Hpos). congruence. }
      rewrite Hzero. repeat split; try lia; auto.
    + repeat split; try lia; auto.
      intros Hp0. specialize (Hstart Hp0). destruct Hstart as [[_ Habs]|Hone]; [congruence|].
      right. lia.
  - replace (String.eqb id id0) with false
      by (symmetry; apply String.eqb_neq; congruence).
    simpl. rewrite andb_true_r. repeat split; try lia.
    + intros Hpos. apply Hwon. lia.
    + intros Hp0. specialize (Hstart Hp0). destruct Hstart as [[Hnone Hp]|Hone].
      * left. split; [lia|exact Hp].
      * right. lia.
Qed.

(** A status written by whoever has won the job keeps the core. *)
Lemma claimsCore_update (table0 tbl : list Job) (obs : list (Claimant * string * bool))
  (id0 : string) (w : Written) :
  0 < slen (List.filter (won id0) obs) →
  0 < slen (List.filter (about id0) obs) →
  claimsCore table0 tbl obs →
  claimsCore table0 (updateStatus id0 w tbl) obs.
Proof.
  intros Hwon0 Htried0 H id. specialize (H id). destruct H as (Hle & Hwon & Hstart).
  rewrite pendingIn_updated.
  destruct (String.eqb_spec id id0) as [Heq|Hne]; simpl.
  - subst id0. rewrite andb_false_r. repeat split; auto.
    intros Hp0. specialize (Hstart Hp0). destruct Hstart as [[Hnone _]|Hone]; [lia|].
    right. exact Hone.
  - rewrite andb_true_r. repeat split; auto.
Qed.

Lemma wonBy_observed (who c : Claimant) (id id0 : string) (b : bool) (s s' : Sched) :
  observed s' = (c, id0, b) :: observed s →
  wonBy who id s' = ((sameClaimant c who && (String.eqb id0 id && b)) || wonBy who id s)%bool.
Proof. intros H. unfold wonBy. rewrite H. reflexivity. Qed.

Lemma step_claims (table0 : list Job) (s s' : Sched) (ev : Event) :
  step s ev = Some s' → claimsOK table0 s → claimsOK table0 s'.
Proof.
  intros H [Hcore Hproc].
  change (claimsCore table0 (table s) (observed s)) in Hcore.
  unfold claimsOK. change (claimsCore table0 (table s') (observed s')
    ∧ (∀ who id, processing s' who id = true → wonBy who id s' = true)).
  destruct ev; simpl in H.
  - destruct (sem s <? capacity s); [|discriminate]. inversion H; subst s'.
    split; [exact Hcore|exact Hproc].
  - destruct (0 <? held s); [|discriminate].
    fold (pendingIn (table s) jobID) in H.
    pose proof (claimsCore_claim table0 (table s) (observed s) ThisService jobID Hcore)
      as Hcore'.
    destruct (pendingIn (table s) jobID) eqn:Hp; inversion H; subst s';
      (split; [exact Hcore'|]); intros who id Hwho;
      erewrite (wonBy_observed who ThisService id jobID) by (simpl; reflexivity).
    + destruct who as [|n]; simpl in Hwho.
      * unfold inList in Hwho. simpl in Hwho. apply orb_prop in Hwho.
        destruct Hwho as [Hhere|Hold].
        -- simpl. rewrite (String.eqb_sym jobID id), Hhere. reflexivity.
        -- apply orb_true_iff. right. apply (Hproc ThisService id). exact Hold.
      * apply orb_true_iff. right. apply (Hproc (Other n) id). exact Hwho.
    + apply orb_true_iff. right. apply (Hproc who id). destruct who; exact Hwho.
  - destruct (0 <? held s); [|discriminate]. inversion H; subst s'.
    split; [exact Hcore|exact Hproc].
  - destruct (inList jobID (workers s)) eqn:Hin; [|discriminate].
    inversion H; subst s'; simpl.
    destruct (wonBy_counts ThisService jobID s (Hproc ThisService jobID Hin)) as [Hw Ha].
    split; [apply claimsCore_update; assumption|exact Hproc].
  - destruct (inList jobID (workers s)) eqn:Hin; [|discriminate].
    inversion H; subst s'; simpl. split; [exact Hcore|].
    intros who id Hwho. destruct who as [|n]; simpl in *.
    + apply (Hproc ThisService id). simpl. apply (removeOne_subset jobID). exact Hwho.
    + apply (Hproc (Other n) id). exact Hwho.
  - fold (pendingIn (table s) jobID) in H.
    pose proof (claimsCore_claim table0 (table s) (observed s) (Other who) jobID Hcore)
      as Hcore'.
    destruct (pendingIn (table s) jobID) eqn:Hp; inversion H; subst s';
      (split; [exact Hcore'|]); intros who' id Hwho;
      erewrite (wonBy_observed who' (Other who) id jobID) by (simpl; reflexivity).
    + destruct who' as [|n]; simpl in Hwho.
      * apply orb_true_iff. right. apply (Hproc ThisService id). exact Hwho.
      * unfold ownedBy in Hwho. simpl in Hwho. apply orb_prop in Hwho.
        destruct Hwho as [Hhere|Hold].
        -- apply andb_prop in Hhere. destruct Hhere as [Hn Hid].
           simpl in Hn, Hid. simpl. rewrite Hn, Hid. reflexivity.
        -- apply orb_true_iff. right. apply (Hproc (Other n) id). exact Hold.
    + apply orb_true_iff. right. apply (Hproc who' id). destruct who'; exact Hwho.
  - destruct (ownedBy who jobID (others s)) eqn:Hin; [|discriminate].
    inversion H; subst s'; simpl.
    destruct (wonBy_counts (Other who) jobID s (Hproc (Other who) jobID Hin)) as [Hw Ha].
    split; [apply claimsCore_update; assumption|exact Hproc].
Qed.

Lemma run_invariant (table0 : list Job) (evs : list Event) :
  ∀ s s', run s evs = Some s' →
          tokensOK s → claimsOK table0 s →
          tokensOK s' ∧ claimsOK table0 s' ∧ capacity s' = capacity s.
Proof.
  induction evs as [|ev evs IH]; intros s s' Hrun Htok Hcl; simpl in Hrun.
  - inversion Hrun; subst s'. auto.
  - destruct (step s ev) as [s1|] eqn:Hstep; [|discriminate].
    destruct (IH s1 s' Hrun (step_tokens _ _ _ Hstep Htok) (step_claims _ _ _ _ Hstep Hcl))
      as (Ht & Hc & Hcap).
    split; [exact Ht|]. split; [exact Hc|].
    rewrite Hcap. apply (step_capacity _ _ _ Hstep).
Qed.

Lemma boot_invariant (numCPU : Z) (jobsTable : list Job) :
  tokensOK (boot numCPU jobsTable) ∧ claimsOK jobsTable (boot numCPU jobsTable).
Proof.
  split.
  - unfold tokensOK, boot. simpl. pose proof (maxWorkers_range numCPU). unfold slen. simpl. lia.
  - split.
    + intros id. unfold successes, attempts, boot, slen. simpl. repeat split; try lia.
      intros Hp. left. split; [reflexivity|exact Hp].
    + intros who id H. destruct who; simpl in H; discriminate.
Qed.

End SchedulerFacts.

(** C8. In every state the service can reach from its start, by any
    interleaving of its steps with the claims and updates of other clients
    of the jobs table: the capacity of the semaphore is max(4, min(32, 4 x
    CPUs)); no more workers (each runs one pipeline) are alive than that
    capacity; every job has been claimed with success at most once; a job
    that was pending at the start, once the UPDATE of any claim on it has
    run, has been claimed with success exactly once, all the other answers
    being false; and whoever is processing a job is a claimant whose claim
    on it succeeded (a claimant answered false or with an error processes
    nothing). *)
Theorem bounded_workers_exclusive_claims
  (numCPU : Z) (jobsTable : list models.Job) (evs : list job_service.Event)
  (s : job_service.Sched) :
  job_service.run (job_service.boot numCPU jobsTable) evs = Some s →
  job_service.capacity s = Z.max 4 (Z.min 32 (4 * numCPU))
  ∧ service.slen (job_service.workers s) ≤ job_service.capacity s
  ∧ (∀ id, job_service.successes id s ≤ 1)
  ∧ (∀ id, job_service.pendingIn jobsTable id = true →
           0 < job_service.attempts id s →
           job_service.successes id s = 1
           ∧ job_service.attempts id s - job_service.successes id s
             = service.slen (List.filter
                               (fun o => (job_service.about id o && negb (snd o))%bool)
                               (job_service.observed s)))
  ∧ (∀ who id, job_service.processing s who id = true →
               job_service.wonBy who id s = true).
Proof.
  intros Hrun.
  destruct (boot_invariant numCPU jobsTable) as [Htok0 Hcl0].
  destruct (run_invariant jobsTable evs _ _ Hrun Htok0 Hcl0) as (Htok & [Hcore Hproc] & Hcap).
  destruct Htok as (Hsem & Hheld & Hroom).
  split; [rewrite Hcap; apply maxWorkers_clamp|].
  split; [lia|].
  split; [intros id; apply (Hcore id)|].
  split; [|exact Hproc].
  intros id Hp Htried. destruct (Hcore id) as (_ & _ & Hstart).
  destruct (Hstart Hp) as [[Hnone _]|Hone]; [lia|].
  split; [exact Hone|].
  unfold job_service.attempts, job_service.successes.
  clear. induction (job_service.observed s) as [|o obs IH]; [reflexivity|].
  rewrite !slen_filter_cons. unfold job_service.won at 1.
  destruct (job_service.about id o); destruct (snd o); simpl; lia.
Qed.

Lemma bounded_workers_exclusive_claims_witness :
  ∃ s, job_service.run (job_service.boot 2 samples.raceTable) samples.raceEvents = Some s
     ∧ job_service.capacity s = Z.max 4 (Z.min 32 (4 * 2))
     ∧ service.slen (job_service.workers s) ≤ job_service.capacity s
     ∧ job_service.successes "job-1" s = 1
     ∧ job_service.attempts "job-1" s = 2.
Proof.
  destruct (job_service.run (job_service.boot 2 samples.raceTable) samples.raceEvents)
    as [s|] eqn:Hrun; [|vm_compute in Hrun; discriminate].
  exists s. split; [reflexivity|].
  destruct (bounded_workers_exclusive_claims 2 samples.raceTable samples.raceEvents s Hrun)
    as (Hcap & Hbound & _ & Hexact & _).
  split; [exact Hcap|]. split; [exact Hbound|].
  assert (job_service.attempts "job-1" s = 2) as Htried
    by (vm_compute in Hrun; inversion Hrun; vm_compute; reflexivity).
  split; [|exact Htried].
  apply (Hexact "job-1"); [vm_compute; reflexivity|lia].
Defined.

(* --------------------------------------------------------------------- *)
(** ** Further properties of the pipeline *)
(* --------------------------------------------------------------------- *)

Lemma insertsAll_allOrNothing {R : Type} : allOrNothing (@samples.insertsAll R).
Proof. intros n batch _. reflexivity. Qed.

(** X1. On repositories whose BatchInsert returns the length of the batch
    whenever it returns no error, the job ProcessImport leaves behind is
    completed or failed and its counters balance: processed = successful +
    failed, for every file, batch size, validation outcome and cancellation
    point. *)
Theorem counters_balance_under_contract
  (w : service.World) (j : models.Job) (stored : list models.ValidationError) :
  allOrNothing (service.User_BatchInsert w) →
  allOrNothing (service.Article_BatchInsert w) →
  allOrNothing (service.Comment_BatchInsert w) →
  balanced j →
  service.terminal (service.finalJob (service.ProcessImport w j stored)) = true
  ∧ balanced (service.finalJob (service.ProcessImport w j stored)).
Proof.
  intros Hu Ha Hc Hj. split; [apply ProcessImport_terminal|].
  apply ProcessImport_balanced; assumption.
Qed.

Lemma counters_balance_under_contract_witness :
  service.terminal
    (service.finalJob (service.ProcessImport samples.duplicateEmail samples.usersJob []))
  = true
  ∧ balanced
      (service.finalJob (service.ProcessImport samples.duplicateEmail samples.usersJob [])).
Proof.
  apply (counters_balance_under_contract samples.duplicateEmail samples.usersJob []).
  - apply insertsAll_allOrNothing.
  - apply insertsAll_allOrNothing.
  - apply insertsAll_allOrNothing.
  - reflexivity.
Defined.

(** X2. When processUsersCSV returns nil (the file was read to its end,
    no cancellation) and every AddErrors of the run stored what it was
    given (its transaction committed and no exec of a row failed), every
    line whose record was rejected has at least one error with that line in
    the table of errors. *)
Theorem rejected_lines_are_stored
  (ctxDone : Z -> bool) (batchInsert : nat -> list models.User -> Z * repository.error)
  (batchSize : Z) (file : option service.CSVFile) (j : models.Job)
  (driver : nat -> repository.CopySession) (n : Z) :
  (∀ k, storesAll (driver k)) →
  fst (service.processUsersCSV ctxDone batchInsert batchSize file j [] driver) = None →
  In n (service.rejected
          (snd (service.processUsersCSV ctxDone batchInsert batchSize file j [] driver))) →
  storedAt n (service.job_errors
                (snd (service.processUsersCSV ctxDone batchInsert batchSize file j []
                        driver)))
  = true.
Proof.
  intros Hrel Hnil Hn.
  exact (processUsersCSV_persists ctxDone batchInsert batchSize file j driver Hrel Hnil n Hn).
Qed.

Lemma rejected_lines_are_stored_witness :
  storedAt 3
    (service.job_errors
       (snd (service.processUsersCSV samples.neverDone samples.insertsAll 1000
               (service.fileCSV samples.duplicateEmail) samples.usersJob []
               (fun _ => repository.healthy))))
  = true.
Proof.
  apply (rejected_lines_are_stored samples.neverDone samples.insertsAll 1000
           (service.fileCSV samples.duplicateEmail) samples.usersJob
           (fun _ => repository.healthy) 3).
  - intros k. repeat split; reflexivity.
  - vm_compute. reflexivity.
  - vm_compute. left. reflexivity.
Defined.

(** X3. With fewer than 100000 enumerated user ids the cache holds exactly
    those ids when streaming begins. *)
Theorem fk_cache_loaded_below_100000 (userIDs : list string) (id : string) :
  service.slen userIDs < 100000 →
  (validation.has
     (validation.userIDCache (service.preloadUserIDs validation.NewValidator userIDs)) id
   = true ↔ In id userIDs).
Proof. apply preloadUserIDs_loaded. Qed.

Lemma fk_cache_loaded_below_100000_witness :
  validation.has
    (validation.userIDCache
       (service.preloadUserIDs validation.NewValidator [samples.uuidA; samples.uuidB]))
    samples.uuidB = true
  ↔ In samples.uuidB [samples.uuidA; samples.uuidB].
Proof.
  apply (fk_cache_loaded_below_100000 [samples.uuidA; samples.uuidB] samples.uuidB).
  vm_compute. reflexivity.
Defined.

Section KeyFacts.
Import GoLib models repository service api.

Lemma existsb_keyMatches_false (key : string) (tbl : list Job) :
  key ≠ "" → existsb (keyMatches key) tbl = false →
  ¬ In key (List.filter (fun k => negb (String.eqb k "")) (map Job_IdempotencyKey tbl)).
Proof.
  intros Hkey Hnone Hin. apply filter_In in Hin. destruct Hin as [Hin _].
  apply in_map_iff in Hin. destruct Hin as (j & Hj & Hjin).
  assert (keyMatches key j = false) as Hno.
  { destruct (keyMatches key j) eqn:E; [|reflexivity].
    assert (existsb (keyMatches key) tbl = true) as Hyes
      by (apply existsb_exists; exists j; auto).
    congruence. }
  unfold keyMatches in Hno. rewrite Hj in Hno. rewrite String.eqb_refl in Hno.
  replace (String.eqb key "") with false in Hno
    by (symmetry; apply String.eqb_neq; exact Hkey).
  discriminate.
Qed.

End KeyFacts.

(** X4. The handler keeps the idempotency keys of the jobs table unique:
    whatever the request, if no two rows carried the same non-empty key
    before it, none do after it. *)
Theorem idempotency_keys_stay_unique
  (cfg : api.Config) (host : api.Host) (req : api.Request) (srv : api.Server) :
  uniqueKeys (api.jobs srv) →
  uniqueKeys (api.jobs (snd (api.CreateImport cfg host req srv))).
Proof.
  intros Huniq.
  destruct (CreateImport_jobs cfg host req srv) as [[Hsame _]|(j & Hadd & Hjkey & _ & Hnone)].
  - rewrite Hsame. exact Huniq.
  - rewrite Hadd. unfold uniqueKeys in *. rewrite map_app, List.filter_app. simpl.
    destruct (String.eqb (models.Job_IdempotencyKey j) "") eqn:Hempty; simpl.
    + rewrite app_nil_r. exact Huniq.
    + apply NoDup_app. split; [exact Huniq|]. split.
      * intros k Hk Hk'. apply list_elem_of_In in Hk. apply list_elem_of_singleton in Hk'.
        subst k. apply String.eqb_neq in Hempty.
        rewrite <- Hjkey in Hnone.
        exact (existsb_keyMatches_false _ _ Hempty Hnone Hk).
      * apply NoDup_singleton.
Qed.

Lemma idempotency_keys_stay_unique_witness :
  uniqueKeys
    (api.jobs (snd (api.CreateImport samples.apiConfig (samples.calmHost "aaaaaaaa" "job-1")
                      (api.withKey "retry-1" (samples.csvUpload "users.csv" "id,email"))
                      api.fresh))).
Proof.
  apply (idempotency_keys_stay_unique samples.apiConfig (samples.calmHost "aaaaaaaa" "job-1")
           (api.withKey "retry-1" (samples.csvUpload "users.csv" "id,email")) api.fresh).
  unfold uniqueKeys. simpl. apply NoDup_nil. exact I.
Defined.

(* ===================================================================== *)
(** * Further properties of the code *)
(* ===================================================================== *)

Section LoopInvariants.
Import GoLib models validation repository service.

Context {Raw Rec : Type}.
Variable validate : Validator -> Raw -> Z -> list validation.ValidationError.
Variable remember : Validator -> Raw -> Validator.
Variable convert : Raw -> Rec.
Variable ctxDone : Z -> bool.
Variable batchInsert : nat -> list Rec -> Z * error.
Variable batchSize : Z.

Variable P : Run Rec -> Prop.
Hypothesis Hblank : ∀ st, P st → P (nextLine st).
Hypothesis Hreject : ∀ errs st, P st → P (reject errs (countRecord (nextLine st))).
Hypothesis Haccept : ∀ raw st, P st → P (accept remember convert batchInsert batchSize raw (countRecord (nextLine st))).

Lemma processRecord_keeps (raw : Raw) (st : Run Rec) :
  P st →
  P (processRecord validate remember convert batchInsert batchSize raw (countRecord (nextLine st))).
Proof.
  intros H. unfold processRecord.
  destruct (0 <? slen _); [apply Hreject|apply Haccept]; exact H.
Qed.

Lemma scanLoop_keeps (lines : list (ScanLine Raw)) :
  ∀ st, P st →
    match scanLoop validate remember convert ctxDone batchInsert batchSize lines st with
    | (Drained, st') => P st'
    | (Returned err, st') => err ≠ None ∧ ∃ st0, P st0 ∧ st' = countRecord (nextLine st0)
    end.
Proof.
  induction lines as [|ln rest IH]; intros st H; simpl.
  - exact H.
  - destruct (String.eqb (strings_TrimSpace (text ln)) "").
    + apply IH, Hblank, H.
    + destruct (atCancelledCheckpoint ctxDone (countRecord (nextLine st))).
      * split; [discriminate|]. exists st. split; [exact H|reflexivity].
      * destruct (unmarshal ln) as [detail|raw].
        -- apply IH, Hreject, H.
        -- apply IH. apply processRecord_keeps, H.
Qed.

End LoopInvariants.

Section UsersLoopInvariants.
Import GoLib models validation repository service.

Variable ctxDone : Z -> bool.
Variable batchInsert : nat -> list User -> Z * error.
Variable batchSize : Z.
Variable P : Run User -> Prop.
Hypothesis Hreject : ∀ errs st, P st → P (reject errs (countRecord (nextLine st))).
Hypothesis Haccept : ∀ raw st, P st →
  P (accept rememberUser convertCSVToUser batchInsert batchSize raw (countRecord (nextLine st))).

Lemma readLoop_keeps (headerMap : gmap string Z) (rows : list (option (list string))) :
  ∀ st, P st →
    match readLoop ctxDone batchInsert batchSize headerMap rows st with
    | (Drained, st') => P st'
    | (Returned err, st') => err ≠ None ∧ ∃ st0, P st0 ∧ st' = countRecord (nextLine st0)
    end.
Proof.
  induction rows as [|[record|] rest IH]; intros st H; simpl.
  - exact H.
  - destruct (atCancelledCheckpoint ctxDone (countRecord (nextLine st))).
    + split; [discriminate|]. exists st. split; [exact H|reflexivity].
    + destruct (parseUserRow record headerMap) as [userCSV|].
      * apply IH. apply (processRecord_keeps ValidateUser rememberUser convertCSVToUser
                           batchInsert batchSize P Hreject Haccept), H.
      * split; [discriminate|]. exists st. split; [exact H|reflexivity].
  - apply IH, H.
Qed.

End UsersLoopInvariants.

Section CountingFacts.
Import GoLib models validation repository service.

Context {Raw Rec : Type}.
Variable remember : Validator -> Raw -> Validator.
Variable convert : Raw -> Rec.
Variable batchInsert : nat -> list Rec -> Z * error.
Variable batchSize : Z.

Lemma flushIfFull_batch (st : Run Rec) : batch (flushIfFull st) = batch st.
Proof.
  unfold flushIfFull, flushValidationErrors.
  destruct (errorFlushThreshold <=? slen (validationErrors st)); [|reflexivity].
  destruct (slen (validationErrors st) =? 0); reflexivity.
Qed.

Lemma flushIfFull_job' (st : Run Rec) : job (flushIfFull st) = job st.
Proof.
  unfold flushIfFull, flushValidationErrors.
  destruct (errorFlushThreshold <=? slen (validationErrors st)); [|reflexivity].
  destruct (slen (validationErrors st) =? 0); reflexivity.
Qed.

Lemma accounted_blank (st : Run Rec) : accounted st → accounted (nextLine st).
Proof. exact id. Qed.

Lemma accounted_reject (errs : list validation.ValidationError) (st : Run Rec) :
  accounted st → accounted (reject errs (countRecord (nextLine st))).
Proof.
  unfold accounted, reject. rewrite flushIfFull_job', flushIfFull_batch. simpl. lia.
Qed.

Lemma slen_snoc {A : Type} (l : list A) (x : A) : slen (l ++ [x]) = slen l + 1.
Proof. unfold slen. rewrite length_app. simpl. lia. Qed.

Lemma accounted_accept (raw : Raw) (st : Run Rec) :
  accounted st →
  accounted (accept remember convert batchInsert batchSize raw (countRecord (nextLine st))).
Proof.
  unfold accounted, accept. cbn [job batch countRecord nextLine].
  destruct (batchSize <=? slen (batch st ++ [convert raw])).
  - unfold clearBatch, insertBatch, countBatch. cbn [job batch].
    rewrite slen_snoc.
    destruct (snd _); simpl; unfold slen; simpl; lia.
  - cbn [job batch]. rewrite slen_snoc. simpl. lia.
Qed.

Lemma accounted_finish (st : Run Rec) :
  accounted st →
  Job_TotalRecords (job (finish batchInsert st)) = Job_ProcessedCount (job (finish batchInsert st)).
Proof.
  unfold accounted, finish. intros H.
  destruct (0 <? slen (batch st)) eqn:Hb.
  - assert (Hjob : Job_TotalRecords (job (insertBatch batchInsert st))
                   = Job_ProcessedCount (job (insertBatch batchInsert st))).
    { unfold insertBatch, countBatch. cbn [job]. destruct (snd _); simpl; lia. }
    destruct (0 <? slen (validationErrors (insertBatch batchInsert st))); exact Hjob.
  - apply Z.ltb_ge in Hb. assert (slen (batch st) = 0) by (unfold slen in *; lia).
    destruct (0 <? slen (validationErrors st)); simpl; lia.
Qed.

End CountingFacts.

Section CompleteRun.
Import GoLib models validation repository service.

Lemma start_accounted {Rec : Type} (j : Job) (v : Validator) (line : Z)
  (stored : list models.ValidationError) (driver : nat -> CopySession) :
  Job_TotalRecords j = Job_ProcessedCount j → accounted (@start Rec j v line stored driver).
Proof. unfold accounted, start. simpl. unfold slen. simpl. lia. Qed.

Lemma runNDJSON_complete {Raw Rec : Type}
  (validate : Validator -> Raw -> Z -> list validation.ValidationError)
  (remember : Validator -> Raw -> Validator) (convert : Raw -> Rec) (ctxDone : Z -> bool)
  (batchInsert : nat -> list Rec -> Z * error) (batchSize : Z)
  (file : NDJSONFile Raw) (st : Run Rec) :
  accounted st →
  fst (runNDJSON validate remember convert ctxDone batchInsert batchSize file st) = None →
  Job_TotalRecords (job (snd (runNDJSON validate remember convert ctxDone batchInsert batchSize file st)))
  = Job_ProcessedCount (job (snd (runNDJSON validate remember convert ctxDone batchInsert batchSize file st))).
Proof.
  intros Hst. unfold runNDJSON.
  pose proof (scanLoop_keeps validate remember convert ctxDone batchInsert batchSize accounted
                accounted_blank accounted_reject
                (accounted_accept remember convert batchInsert batchSize)
                (ndLines file) st Hst) as H.
  destruct (scanLoop _ _ _ _ _ _ _ _) as [[|err] st'].
  - simpl. intros _. apply accounted_finish, H.
  - simpl. intros Herr. destruct H as [Hne _]. contradiction.
Qed.

Lemma processUsersCSV_complete (ctxDone : Z -> bool) (batchInsert : nat -> list User -> Z * error)
  (batchSize : Z) (file : option CSVFile) (j : Job) (stored : list models.ValidationError)
  (driver : nat -> CopySession) :
  Job_TotalRecords j = Job_ProcessedCount j →
  fst (processUsersCSV ctxDone batchInsert batchSize file j stored driver) = None →
  Job_TotalRecords
    (job (snd (processUsersCSV ctxDone batchInsert batchSize file j stored driver)))
  = Job_ProcessedCount
      (job (snd (processUsersCSV ctxDone batchInsert batchSize file j stored driver))).
Proof.
  intros Hj. unfold processUsersCSV.
  destruct file as [f|]; [|discriminate].
  destruct (csvHeader f) as [header|]; [|discriminate].
  pose proof (readLoop_keeps ctxDone batchInsert batchSize accounted
                accounted_reject (accounted_accept rememberUser convertCSVToUser batchInsert batchSize)
                (buildHeaderMap header) (csvRows f) _
                (start_accounted j NewValidator 1 stored driver Hj)) as H.
  destruct (readLoop _ _ _ _ _ _) as [[|err] st'].
  - simpl. intros _. apply accounted_finish, H.
  - simpl. intros Herr. destruct H as [Hne _]. contradiction.
Qed.

End CompleteRun.

(** X5. When [ProcessImport] returns no error on a job whose total and
    processed counters start equal (a new job has both at 0), the job ends
    completed and its processed count equals its total count: every record
    that was counted has been validated and then inserted or rejected, none
    is left in a batch. *)
Theorem completed_run_processes_every_record
  (w : service.World) (j : models.Job) (stored : list models.ValidationError) :
  models.Job_TotalRecords j = models.Job_ProcessedCount j →
  service.returned (service.ProcessImport w j stored) = None →
  models.Job_Status (service.finalJob (service.ProcessImport w j stored)) = models.JobStatusCompleted
  ∧ models.Job_ProcessedCount (service.finalJob (service.ProcessImport w j stored))
    = models.Job_TotalRecords (service.finalJob (service.ProcessImport w j stored)).
Proof.
  intros Hj. unfold service.ProcessImport.
  destruct (String.eqb (models.Job_Resource j) "users").
  - unfold service.conclude. cbn [service.returned service.finalJob]. intros Hret.
    rewrite Hret. split; [reflexivity|]. cbn.
    symmetry. apply processUsersCSV_complete; [exact Hj|exact Hret].
  - destruct (String.eqb (models.Job_Resource j) "articles").
    + unfold service.conclude. cbn [service.returned service.finalJob]. intros Hret.
      rewrite Hret. split; [reflexivity|]. cbn.
      unfold service.processArticlesNDJSON in *.
      destruct (service.fileArticles w) as [f|]; [|discriminate].
      symmetry. apply runNDJSON_complete; [apply start_accounted; exact Hj|exact Hret].
    + destruct (String.eqb (models.Job_Resource j) "comments").
      * unfold service.conclude. cbn [service.returned service.finalJob]. intros Hret.
        rewrite Hret. split; [reflexivity|]. cbn.
        unfold service.processCommentsNDJSON in *.
        destruct (service.fileComments w) as [f|]; [|discriminate].
        symmetry. apply runNDJSON_complete; [apply start_accounted; exact Hj|exact Hret].
      * unfold service.conclude. cbn. discriminate.
Qed.

Lemma completed_run_processes_every_record_witness :
  models.Job_Status
    (service.finalJob (service.ProcessImport samples.duplicateEmail samples.usersJob []))
  = models.JobStatusCompleted
  ∧ models.Job_ProcessedCount
      (service.finalJob (service.ProcessImport samples.duplicateEmail samples.usersJob []))
    = models.Job_TotalRecords
        (service.finalJob (service.ProcessImport samples.duplicateEmail samples.usersJob [])).
Proof.
  apply (completed_run_processes_every_record samples.duplicateEmail samples.usersJob []).
  - reflexivity.
  - vm_compute. reflexivity.
Defined.

(** X6. A row on which the CSV reader fails leaves no trace:
    [processUsersCSV] returns the same result, the same job and the same
    stored and buffered errors as on the file without such rows. The row is
    not counted in the total, is not reported as an error and does not
    advance the line number of the rows after it. *)
Theorem unreadable_rows_leave_no_trace
  (ctxDone : Z -> bool) (batchInsert : nat -> list models.User -> Z * repository.error)
  (batchSize : Z) (f : service.CSVFile) (j : models.Job)
  (stored : list models.ValidationError) (driver : nat -> repository.CopySession) :
  service.processUsersCSV ctxDone batchInsert batchSize (Some f) j stored driver
  = service.processUsersCSV ctxDone batchInsert batchSize (Some (readableRows f)) j stored
      driver.
Proof.
  unfold service.processUsersCSV, readableRows. cbn [service.csvHeader service.csvRows].
  destruct (service.csvHeader f) as [header|]; [|reflexivity].
  rewrite readLoop_skips_unreadable. reflexivity.
Qed.

Section LineOrder.
Import GoLib models validation repository service.

Context {Raw Rec : Type}.
Variable remember : Validator -> Raw -> Validator.
Variable convert : Raw -> Rec.
Variable batchInsert : nat -> list Rec -> Z * error.
Variable batchSize : Z.
Variable lo : Z.

Lemma flushIfFull_lineNum (st : Run Rec) : lineNum (flushIfFull st) = lineNum st.
Proof.
  unfold flushIfFull, flushValidationErrors.
  destruct (errorFlushThreshold <=? slen (validationErrors st)); [|reflexivity].
  destruct (slen (validationErrors st) =? 0); reflexivity.
Qed.

Lemma keptBy_sublist (db : CopySession) (errors : list models.ValidationError) :
  sublist (keptBy db errors) errors.
Proof.
  unfold keptBy. destruct (Z.of_nat (length errors) =? 0); [apply sublist_nil_l|].
  destruct (beginErr db), (prepareErr db), (flushErr db), (commitErr db);
    try apply sublist_nil_l.
  apply copyRows_sublist.
Qed.

(** What a flush leaves in the table and the buffer together is part of
    what was there, in the same order. *)
Lemma flushIfFull_errors (st : Run Rec) :
  sublist (job_errors (flushIfFull st) ++ validationErrors (flushIfFull st))
    (job_errors st ++ validationErrors st).
Proof.
  unfold flushIfFull, flushValidationErrors.
  destruct (errorFlushThreshold <=? slen (validationErrors st)); [|reflexivity].
  destruct (slen (validationErrors st) =? 0); [reflexivity|].
  simpl. rewrite app_nil_r. apply sublist_app; [reflexivity|apply keptBy_sublist].
Qed.

Lemma finish_errors (st : Run Rec) :
  sublist (job_errors (finish batchInsert st)) (job_errors st ++ validationErrors st).
Proof.
  unfold finish.
  destruct (0 <? slen (batch st));
    cbn [validationErrors insertBatch];
    destruct (0 <? slen (validationErrors st));
    cbn [job_errors insertBatch validationErrors errorDriver flushes].
  all: first [ apply sublist_app; [reflexivity|apply keptBy_sublist]
             | apply sublist_inserts_r; reflexivity ].
Qed.

Lemma sublist_sorted (l1 l2 : list Z) :
  sublist l1 l2 → StronglySorted Z.le l2 → StronglySorted Z.le l1.
Proof.
  induction 1 as [|x l1 l2 Hsub IH|x l1 l2 Hsub IH]; intros Hs.
  - constructor.
  - inversion Hs as [|? ? Hs' Hx]; subst. constructor; [apply IH, Hs'|].
    apply List.Forall_forall. intros y Hy. rewrite List.Forall_forall in Hx. apply Hx.
    apply list_elem_of_In. apply (elem_of_sublist l1 l2); [apply list_elem_of_In, Hy|exact Hsub].
  - inversion Hs; subst. apply IH. assumption.
Qed.

Lemma sublist_all {A : Type} (P : A -> Prop) (l1 l2 : list A) :
  sublist l1 l2 → Forall P l2 → Forall P l1.
Proof.
  intros Hsub Hall. apply List.Forall_forall. intros x Hx.
  rewrite List.Forall_forall in Hall. apply Hall.
  apply list_elem_of_In. apply (elem_of_sublist l1 l2); [apply list_elem_of_In, Hx|exact Hsub].
Qed.

Lemma sublist_map {A B : Type} (f : A -> B) (l1 l2 : list A) :
  sublist l1 l2 → sublist (map f l1) (map f l2).
Proof. induction 1; simpl; [constructor|apply sublist_skip|apply sublist_cons]; assumption. Qed.

Lemma linesInOrder_flushIfFull (st : Run Rec) :
  linesInOrder lo st → linesInOrder lo (flushIfFull st).
Proof.
  unfold linesInOrder. rewrite flushIfFull_lineNum. intros (Hs & Hb & Hlo).
  pose proof (flushIfFull_errors st) as Hsub.
  split; [|split; [|exact Hlo]].
  - apply (sublist_sorted _ _ (sublist_map models.Line _ _ Hsub) Hs).
  - apply (sublist_all _ _ _ Hsub Hb).
Qed.

Lemma StronglySorted_app_le (l1 l2 : list Z) (m : Z) :
  StronglySorted Z.le l1 → Forall (fun x => x ≤ m) l1 → Forall (fun y => y = m) l2 →
  StronglySorted Z.le (l1 ++ l2).
Proof.
  intros Hs Hle Heq. induction Hs as [|x l Hs IH Hx]; simpl.
  - induction Heq as [|y l2 Hy Heq IH]; constructor; [exact IH|].
    subst y. apply List.Forall_impl with (P := fun y => y = m); [intros; lia|exact Heq].
  - inversion Hle; subst. constructor; [apply IH; assumption|].
    apply List.Forall_app. split; [exact Hx|].
    apply List.Forall_impl with (P := fun y => y = m); [intros; lia|exact Heq].
Qed.

Lemma linesInOrder_blank (st : Run Rec) : linesInOrder lo st → linesInOrder lo (nextLine st).
Proof.
  unfold linesInOrder. cbn [job_errors validationErrors lineNum nextLine].
  intros (Hs & Hb & Hlo). split; [exact Hs|]. split; [|lia].
  apply List.Forall_impl with (2 := Hb). intros e He. lia.
Qed.

Lemma linesInOrder_reject (errs : list validation.ValidationError) (st : Run Rec) :
  linesInOrder lo st → linesInOrder lo (reject errs (countRecord (nextLine st))).
Proof.
  intros H. unfold reject. apply linesInOrder_flushIfFull. revert H.
  unfold linesInOrder.
  cbn [job_errors validationErrors lineNum nextLine countRecord].
  intros (Hs & Hb & Hlo).
  rewrite app_assoc, map_app. split; [|split; [|lia]].
  - apply StronglySorted_app_le with (m := lineNum st + 1); [exact Hs| |].
    + apply List.Forall_map. apply List.Forall_impl with (2 := Hb). intros e He. lia.
    + apply List.Forall_map. apply List.Forall_map. apply List.Forall_forall. reflexivity.
  - apply List.Forall_app. split.
    + apply List.Forall_impl with (2 := Hb). intros e He. lia.
    + apply List.Forall_map. apply List.Forall_forall. intros e _. simpl. lia.
Qed.

Lemma linesInOrder_accept (raw : Raw) (st : Run Rec) :
  linesInOrder lo st →
  linesInOrder lo (accept remember convert batchInsert batchSize raw (countRecord (nextLine st))).
Proof.
  unfold linesInOrder, accept. intros (Hs & Hb & Hlo).
  destruct (batchSize <=? _); cbn [job_errors validationErrors lineNum nextLine countRecord
                                      clearBatch insertBatch].
  all: split; [exact Hs|]; split; [|lia].
  all: apply List.Forall_impl with (2 := Hb); intros e He; lia.
Qed.

Lemma linesInOrder_finish (st : Run Rec) :
  linesInOrder lo st →
  StronglySorted Z.le (map models.Line (job_errors (finish batchInsert st)))
  ∧ Forall (fun e => lo < models.Line e ≤ lineNum st) (job_errors (finish batchInsert st)).
Proof.
  unfold linesInOrder. intros (Hs & Hb & Hlo).
  pose proof (finish_errors st) as Hsub. split.
  - apply (sublist_sorted _ _ (sublist_map models.Line _ _ Hsub) Hs).
  - apply (sublist_all _ _ _ Hsub Hb).
Qed.

End LineOrder.

Section LineOrderRuns.
Import GoLib models validation repository service.

Lemma linesInOrder_stored {Rec : Type} (lo : Z) (st : Run Rec) :
  linesInOrder lo st →
  StronglySorted Z.le (map models.Line (job_errors st))
  ∧ Forall (fun e => lo < models.Line e) (job_errors st).
Proof.
  unfold linesInOrder. intros (Hs & Hb & _). split.
  - rewrite map_app in Hs. clear Hb.
    induction (map models.Line (job_errors st)) as [|x l IH]; [constructor|].
    simpl in Hs. inversion Hs; subst. constructor; [apply IH; assumption|].
    apply List.Forall_app in H2. tauto.
  - apply List.Forall_app in Hb. destruct Hb as [Hb _].
    apply List.Forall_impl with (2 := Hb). intros e He. lia.
Qed.

Lemma start_linesInOrder {Rec : Type} (j : Job) (v : Validator) (line : Z)
  (driver : nat -> CopySession) :
  linesInOrder line (@start Rec j v line [] driver).
Proof.
  unfold linesInOrder, start. simpl. split; [constructor|]. split; [constructor|lia].
Qed.

Lemma runNDJSON_lines {Raw Rec : Type}
  (validate : Validator -> Raw -> Z -> list validation.ValidationError)
  (remember : Validator -> Raw -> Validator) (convert : Raw -> Rec) (ctxDone : Z -> bool)
  (batchInsert : nat -> list Rec -> Z * error) (batchSize : Z)
  (file : NDJSONFile Raw) (lo : Z) (st : Run Rec) :
  linesInOrder lo st →
  StronglySorted Z.le
    (map models.Line
       (job_errors (snd (runNDJSON validate remember convert ctxDone batchInsert batchSize file st))))
  ∧ Forall (fun e => lo < models.Line e)
      (job_errors (snd (runNDJSON validate remember convert ctxDone batchInsert batchSize file st))).
Proof.
  intros Hst. unfold runNDJSON.
  pose proof (scanLoop_keeps validate remember convert ctxDone batchInsert batchSize
                (linesInOrder lo) (linesInOrder_blank lo) (linesInOrder_reject lo)
                (linesInOrder_accept remember convert batchInsert batchSize lo)
                (ndLines file) st Hst) as H.
  destruct (scanLoop _ _ _ _ _ _ _ _) as [[|err] st'].
  - cbn [snd]. destruct (linesInOrder_finish batchInsert lo st' H) as [Hs Hb].
    split; [exact Hs|]. apply List.Forall_impl with (2 := Hb). intros e He. lia.
  - cbn [snd]. destruct H as (_ & st0 & Hst0 & ->). cbn [job_errors countRecord nextLine].
    apply linesInOrder_stored, Hst0.
Qed.

Lemma processUsersCSV_lines (ctxDone : Z -> bool) (batchInsert : nat -> list User -> Z * error)
  (batchSize : Z) (file : option CSVFile) (j : Job) (driver : nat -> CopySession) :
  StronglySorted Z.le
    (map models.Line
       (job_errors (snd (processUsersCSV ctxDone batchInsert batchSize file j [] driver))))
  ∧ Forall (fun e => 1 < models.Line e)
      (job_errors (snd (processUsersCSV ctxDone batchInsert batchSize file j [] driver))).
Proof.
  unfold processUsersCSV.
  destruct file as [f|]; [|simpl; split; constructor].
  destruct (csvHeader f) as [header|]; [|simpl; split; constructor].
  pose proof (readLoop_keeps ctxDone batchInsert batchSize (linesInOrder 1)
                (linesInOrder_reject 1)
                (linesInOrder_accept rememberUser convertCSVToUser batchInsert batchSize 1)
                (buildHeaderMap header) (csvRows f) _
                (start_linesInOrder j NewValidator 1 driver)) as H.
  destruct (readLoop _ _ _ _ _ _) as [[|err] st'].
  - cbn [snd]. destruct (linesInOrder_finish batchInsert 1 st' H) as [Hs Hb].
    split; [exact Hs|]. apply List.Forall_impl with (2 := Hb). intros e He. lia.
  - cbn [snd]. destruct H as (_ & st0 & Hst0 & ->). cbn [job_errors countRecord nextLine].
    apply linesInOrder_stored, Hst0.
Qed.

End LineOrderRuns.

(** X7. The errors [ProcessImport] stores for a job that starts with
    none are in ascending line order, and every line number is at least 1;
    for the users resource it is at least 2, the header being line 1. *)
Theorem stored_errors_in_line_order (w : service.World) (j : models.Job) :
  StronglySorted Z.le
    (map models.Line (service.storedErrors (service.ProcessImport w j [])))
  ∧ Forall (fun e => 1 ≤ models.Line e) (service.storedErrors (service.ProcessImport w j []))
  ∧ (models.Job_Resource j = "users" →
     Forall (fun e => 2 ≤ models.Line e) (service.storedErrors (service.ProcessImport w j []))).
Proof.
  unfold service.ProcessImport.
  destruct (String.eqb_spec (models.Job_Resource j) "users") as [Hu|Hu].
  - unfold service.conclude. cbn [service.storedErrors].
    destruct (processUsersCSV_lines (service.ctxDone w) (service.User_BatchInsert w)
                (service.cfgBatchSize w) (service.fileCSV w)
                (repository.setStatus models.JobStatusProcessing j)
                (service.Job_AddErrors w)) as [Hs Hb].
    split; [exact Hs|]. split; [|intros _].
    all: apply List.Forall_impl with (2 := Hb); intros e He; lia.
  - assert (Hother : ∀ errs : list models.ValidationError,
               StronglySorted Z.le (map models.Line errs)
               ∧ Forall (fun e => 0 < models.Line e) errs →
               StronglySorted Z.le (map models.Line errs)
               ∧ Forall (fun e => 1 ≤ models.Line e) errs
               ∧ (models.Job_Resource j = "users" → Forall (fun e => 2 ≤ models.Line e) errs)).
    { intros errs [Hs Hb]. split; [exact Hs|]. split; [|contradiction].
      apply List.Forall_impl with (2 := Hb). intros e He. lia. }
    destruct (String.eqb (models.Job_Resource j) "articles").
    + unfold service.conclude. cbn [service.storedErrors]. apply Hother.
      unfold service.processArticlesNDJSON.
      destruct (service.fileArticles w) as [f|]; [|simpl; split; constructor].
      apply runNDJSON_lines, start_linesInOrder.
    + destruct (String.eqb (models.Job_Resource j) "comments").
      * unfold service.conclude. cbn [service.storedErrors]. apply Hother.
        unfold service.processCommentsNDJSON.
        destruct (service.fileComments w) as [f|]; [|simpl; split; constructor].
        apply runNDJSON_lines, start_linesInOrder.
      * unfold service.conclude. cbn. split; [constructor|]. split; [constructor|].
        intros _. constructor.
Qed.

Section BatchSizes.
Import GoLib models validation repository service.

Context {Raw Rec : Type}.
Variable validate : Validator -> Raw -> Z -> list validation.ValidationError.
Variable remember : Validator -> Raw -> Validator.
Variable convert : Raw -> Rec.
Variable ctxDone : Z -> bool.
Variable f g : nat -> list Rec -> Z * error.
Variable batchSize : Z.
Hypothesis Hfg : sameAnswers batchSize f g.

Lemma batchBelow_blank (st : Run Rec) : batchBelow batchSize st → batchBelow batchSize (nextLine st).
Proof. exact id. Qed.

Lemma batchBelow_reject (errs : list validation.ValidationError) (st : Run Rec) :
  batchBelow batchSize st → batchBelow batchSize (reject errs (countRecord (nextLine st))).
Proof. unfold batchBelow, reject. rewrite flushIfFull_batch. exact id. Qed.

Lemma batchBelow_accept (raw : Raw) (st : Run Rec) :
  batchBelow batchSize st →
  batchBelow batchSize (accept remember convert f batchSize raw (countRecord (nextLine st))).
Proof.
  unfold batchBelow, accept. cbn [batch countRecord nextLine]. intros H.
  destruct (batchSize <=? slen (batch st ++ [convert raw])) eqn:Hfull.
  - cbn [batch clearBatch]. unfold slen. simpl. lia.
  - cbn [batch]. apply Z.leb_gt in Hfull. lia.
Qed.

Lemma accept_same (raw : Raw) (st : Run Rec) :
  batchBelow batchSize st →
  accept remember convert f batchSize raw (countRecord (nextLine st))
  = accept remember convert g batchSize raw (countRecord (nextLine st)).
Proof.
  unfold batchBelow, accept. cbn [batch countRecord nextLine]. intros H.
  destruct (batchSize <=? slen (batch st ++ [convert raw])) eqn:Hfull; [|reflexivity].
  unfold insertBatch.
  cbn [batch inserts job validator validationErrors lineNum job_errors rejected].
  rewrite (Hfg (inserts (countRecord (nextLine st))) (batch st ++ [convert raw]));
    [reflexivity|].
  rewrite slen_snoc. unfold slen in *. lia.
Qed.

Lemma processRecord_same (raw : Raw) (st : Run Rec) :
  batchBelow batchSize st →
  processRecord validate remember convert f batchSize raw (countRecord (nextLine st))
  = processRecord validate remember convert g batchSize raw (countRecord (nextLine st)).
Proof.
  intros H. unfold processRecord.
  destruct (0 <? slen _); [reflexivity|apply accept_same, H].
Qed.

Lemma processRecord_below (raw : Raw) (st : Run Rec) :
  batchBelow batchSize st →
  batchBelow batchSize (processRecord validate remember convert f batchSize raw (countRecord (nextLine st))).
Proof.
  intros H. unfold processRecord.
  destruct (0 <? slen _); [apply batchBelow_reject|apply batchBelow_accept]; exact H.
Qed.

Lemma finish_same (st : Run Rec) : batchBelow batchSize st → finish f st = finish g st.
Proof.
  unfold batchBelow, finish. intros H.
  destruct (0 <? slen (batch st)) eqn:Hb; [|reflexivity].
  apply Z.ltb_lt in Hb.
  assert (Hins : insertBatch f st = insertBatch g st).
  { unfold insertBatch. rewrite (Hfg (inserts st) (batch st)); [reflexivity|lia]. }
  rewrite Hins. reflexivity.
Qed.

Lemma scanLoop_same (lines : list (ScanLine Raw)) :
  ∀ st, batchBelow batchSize st →
    scanLoop validate remember convert ctxDone f batchSize lines st
    = scanLoop validate remember convert ctxDone g batchSize lines st
    ∧ batchBelow batchSize (snd (scanLoop validate remember convert ctxDone f batchSize lines st)).
Proof.
  induction lines as [|ln rest IH]; intros st H; simpl.
  - split; [reflexivity|exact H].
  - destruct (String.eqb (strings_TrimSpace (text ln)) "").
    + apply IH, H.
    + destruct (atCancelledCheckpoint ctxDone (countRecord (nextLine st))).
      * split; [reflexivity|exact H].
      * destruct (unmarshal ln) as [detail|raw].
        -- apply IH. apply batchBelow_reject, H.
        -- rewrite <- processRecord_same by exact H. apply IH, processRecord_below, H.
Qed.

Lemma runNDJSON_same (file : NDJSONFile Raw) (st : Run Rec) :
  batchBelow batchSize st →
  runNDJSON validate remember convert ctxDone f batchSize file st
  = runNDJSON validate remember convert ctxDone g batchSize file st.
Proof.
  intros H. unfold runNDJSON.
  destruct (scanLoop_same (ndLines file) st H) as [<- Hbelow].
  destruct (scanLoop _ _ _ _ _ _ _ _) as [[|err] st']; [|reflexivity].
  rewrite (finish_same st' Hbelow). reflexivity.
Qed.

End BatchSizes.

Section BatchSizesUsers.
Import GoLib models validation repository service.

Variable ctxDone : Z -> bool.
Variable f g : nat -> list User -> Z * error.
Variable batchSize : Z.
Hypothesis Hfg : sameAnswers batchSize f g.

Lemma readLoop_same (headerMap : gmap string Z) (rows : list (option (list string))) :
  ∀ st, batchBelow batchSize st →
    readLoop ctxDone f batchSize headerMap rows st
    = readLoop ctxDone g batchSize headerMap rows st
    ∧ batchBelow batchSize (snd (readLoop ctxDone f batchSize headerMap rows st)).
Proof.
  induction rows as [|[record|] rest IH]; intros st H; simpl.
  - split; [reflexivity|exact H].
  - destruct (atCancelledCheckpoint ctxDone (countRecord (nextLine st))).
    + split; [reflexivity|exact H].
    + destruct (parseUserRow record headerMap) as [userCSV|].
      * rewrite <- (processRecord_same ValidateUser rememberUser convertCSVToUser f g batchSize Hfg)
          by exact H.
        apply IH, processRecord_below, H.
      * split; [reflexivity|exact H].
  - apply IH, H.
Qed.

Lemma processUsersCSV_same (file : option CSVFile) (j : Job)
  (stored : list models.ValidationError) (driver : nat -> CopySession) :
  processUsersCSV ctxDone f batchSize file j stored driver
  = processUsersCSV ctxDone g batchSize file j stored driver.
Proof.
  unfold processUsersCSV.
  destruct file as [file|]; [|reflexivity].
  destruct (csvHeader file) as [header|]; [|reflexivity].
  assert (H0 : batchBelow batchSize (@start User j NewValidator 1 stored driver)).
  { unfold batchBelow, start, slen. simpl. lia. }
  destruct (readLoop_same (buildHeaderMap header) (csvRows file) _ H0) as [<- Hbelow].
  destruct (readLoop _ _ _ _ _ _) as [[|err] st']; [|reflexivity].
  rewrite (finish_same f g batchSize Hfg st' Hbelow). reflexivity.
Qed.

End BatchSizesUsers.

(** X8. [BatchInsert] is never called on an empty batch nor on more
    than max(1, batchSize) records: two sets of repositories that answer
    alike on every batch of 1 to max(1, batchSize) records give the same
    run of [ProcessImport], whatever they answer on other batches. *)
Theorem batch_calls_within_batch_size (w : service.World)
  (fu gu : nat -> list models.User -> Z * repository.error)
  (fa ga : nat -> list models.Article -> Z * repository.error)
  (fc gc : nat -> list models.Comment -> Z * repository.error)
  (j : models.Job) (stored : list models.ValidationError) :
  sameAnswers (service.cfgBatchSize w) fu gu →
  sameAnswers (service.cfgBatchSize w) fa ga →
  sameAnswers (service.cfgBatchSize w) fc gc →
  service.ProcessImport (withInserts w fu fa fc) j stored
  = service.ProcessImport (withInserts w gu ga gc) j stored.
Proof.
  intros Hu Ha Hc. unfold service.ProcessImport, withInserts.
  cbn [service.ctxDone service.cfgBatchSize service.User_BatchInsert
       service.Article_BatchInsert service.Comment_BatchInsert service.User_GetAllIDs
       service.Article_GetAllIDs service.Job_AddErrors service.fileCSV service.fileArticles
       service.fileComments].
  rewrite (processUsersCSV_same (service.ctxDone w) fu gu (service.cfgBatchSize w) Hu).
  assert (H0 : ∀ (Rec : Type) (v : validation.Validator) j0,
             batchBelow (service.cfgBatchSize w)
               (@service.start Rec j0 v 0 stored (service.Job_AddErrors w))).
  { intros. unfold batchBelow, service.start, service.slen. simpl. lia. }
  unfold service.processArticlesNDJSON, service.processCommentsNDJSON.
  destruct (service.fileArticles w) as [fA|], (service.fileComments w) as [fC|];
    try rewrite (runNDJSON_same validation.ValidateArticle service.rememberArticle
                   service.convertNDJSONToArticle (service.ctxDone w) fa ga
                   (service.cfgBatchSize w) Ha fA _ (H0 _ _ _));
    try rewrite (runNDJSON_same validation.ValidateComment service.rememberComment
                   service.convertNDJSONToComment (service.ctxDone w) fc gc
                   (service.cfgBatchSize w) Hc fC _ (H0 _ _ _));
    reflexivity.
Qed.

Lemma batch_calls_within_batch_size_witness :
  service.ProcessImport
    (withInserts samples.duplicateEmail samples.insertsAll samples.insertsAll samples.insertsAll)
    samples.usersJob []
  = service.ProcessImport
      (withInserts samples.duplicateEmail samples.insertsAllButEmpty
         samples.insertsAllButEmpty samples.insertsAllButEmpty)
      samples.usersJob [].
Proof.
  apply (batch_calls_within_batch_size samples.duplicateEmail
           samples.insertsAll samples.insertsAllButEmpty
           samples.insertsAll samples.insertsAllButEmpty
           samples.insertsAll samples.insertsAllButEmpty samples.usersJob []).
  all: intros n batch Hlen; unfold samples.insertsAll, samples.insertsAllButEmpty.
  all: replace (service.slen batch =? 0) with false by (symmetry; apply Z.eqb_neq; lia).
  all: reflexivity.
Defined.

Section SmallBatchSize.
Import GoLib models validation repository service.

Context {Raw Rec : Type}.
Variable validate : Validator -> Raw -> Z -> list validation.ValidationError.
Variable remember : Validator -> Raw -> Validator.
Variable convert : Raw -> Rec.
Variable ctxDone : Z -> bool.
Variable batchInsert : nat -> list Rec -> Z * error.
Variable batchSize : Z.
Hypothesis Hsmall : batchSize ≤ 1.

Lemma processRecord_small (raw : Raw) (st : Run Rec) :
  batch st = [] →
  processRecord validate remember convert batchInsert batchSize raw st
  = processRecord validate remember convert batchInsert 1 raw st
  ∧ batch (processRecord validate remember convert batchInsert batchSize raw st) = [].
Proof.
  intros Hb. unfold processRecord.
  destruct (0 <? slen _).
  - split; [reflexivity|]. unfold reject. rewrite flushIfFull_batch. exact Hb.
  - unfold accept. cbn [batch]. rewrite Hb. cbn [app].
    replace (batchSize <=? slen [convert raw]) with true
      by (symmetry; apply Z.leb_le; unfold slen; simpl; lia).
    replace (1 <=? slen [convert raw]) with true
      by (symmetry; apply Z.leb_le; unfold slen; simpl; lia).
    split; reflexivity.
Qed.

Lemma scanLoop_small (lines : list (ScanLine Raw)) :
  ∀ st, batch st = [] →
    scanLoop validate remember convert ctxDone batchInsert batchSize lines st
    = scanLoop validate remember convert ctxDone batchInsert 1 lines st.
Proof.
  induction lines as [|ln rest IH]; intros st H; simpl.
  - reflexivity.
  - destruct (String.eqb (strings_TrimSpace (text ln)) "").
    + apply IH, H.
    + destruct (atCancelledCheckpoint ctxDone (countRecord (nextLine st))); [reflexivity|].
      destruct (unmarshal ln) as [detail|raw].
      * apply IH. unfold reject. rewrite flushIfFull_batch. exact H.
      * destruct (processRecord_small raw (countRecord (nextLine st)) H) as [<- Hb].
        apply IH, Hb.
Qed.

Lemma runNDJSON_small (file : NDJSONFile Raw) (st : Run Rec) :
  batch st = [] →
  runNDJSON validate remember convert ctxDone batchInsert batchSize file st
  = runNDJSON validate remember convert ctxDone batchInsert 1 file st.
Proof.
  intros H. unfold runNDJSON. rewrite (scanLoop_small (ndLines file) st H). reflexivity.
Qed.

End SmallBatchSize.

Section SmallBatchSizeUsers.
Import GoLib models validation repository service.

Variable ctxDone : Z -> bool.
Variable batchInsert : nat -> list User -> Z * error.
Variable batchSize : Z.
Hypothesis Hsmall : batchSize ≤ 1.

Lemma readLoop_small (headerMap : gmap string Z) (rows : list (option (list string))) :
  ∀ st, batch st = [] →
    readLoop ctxDone batchInsert batchSize headerMap rows st
    = readLoop ctxDone batchInsert 1 headerMap rows st.
Proof.
  induction rows as [|[record|] rest IH]; intros st H; simpl.
  - reflexivity.
  - destruct (atCancelledCheckpoint ctxDone (countRecord (nextLine st))); [reflexivity|].
    destruct (parseUserRow record headerMap) as [userCSV|]; [|reflexivity].
    destruct (processRecord_small ValidateUser rememberUser convertCSVToUser batchInsert
                batchSize Hsmall userCSV (countRecord (nextLine st)) H) as [<- Hb].
    apply IH, Hb.
  - apply IH, H.
Qed.

End SmallBatchSizeUsers.

(** X9. A configured batch size of 1 or less (zero and negative
    sizes are not refused) acts as batch size 1: the run of [ProcessImport]
    is the one where every accepted record is inserted on its own. *)
Theorem batch_size_below_one_acts_as_one
  (w : service.World) (j : models.Job) (stored : list models.ValidationError) :
  service.cfgBatchSize w ≤ 1 →
  service.ProcessImport w j stored = service.ProcessImport (withBatchSize w 1) j stored.
Proof.
  intros Hsmall. unfold service.ProcessImport, withBatchSize.
  cbn [service.ctxDone service.cfgBatchSize service.User_BatchInsert
       service.Article_BatchInsert service.Comment_BatchInsert service.User_GetAllIDs
       service.Article_GetAllIDs service.Job_AddErrors service.fileCSV service.fileArticles
       service.fileComments].
  unfold service.processUsersCSV, service.processArticlesNDJSON, service.processCommentsNDJSON.
  destruct (String.eqb (models.Job_Resource j) "users").
  - destruct (service.fileCSV w) as [f|]; [|reflexivity].
    destruct (service.csvHeader f) as [header|]; [|reflexivity].
    rewrite (readLoop_small (service.ctxDone w) (service.User_BatchInsert w)
               (service.cfgBatchSize w) Hsmall) by reflexivity.
    reflexivity.
  - destruct (String.eqb (models.Job_Resource j) "articles").
    + destruct (service.fileArticles w) as [f|]; [|reflexivity].
      rewrite (runNDJSON_small _ _ _ _ _ (service.cfgBatchSize w) Hsmall) by reflexivity.
      reflexivity.
    + destruct (String.eqb (models.Job_Resource j) "comments"); [|reflexivity].
      destruct (service.fileComments w) as [f|]; [|reflexivity].
      rewrite (runNDJSON_small _ _ _ _ _ (service.cfgBatchSize w) Hsmall) by reflexivity.
      reflexivity.
Qed.

Lemma batch_size_below_one_acts_as_one_witness :
  service.ProcessImport (withBatchSize samples.duplicateEmail 0) samples.usersJob []
  = service.ProcessImport (withBatchSize (withBatchSize samples.duplicateEmail 0) 1)
      samples.usersJob [].
Proof.
  apply (batch_size_below_one_acts_as_one (withBatchSize samples.duplicateEmail 0)
           samples.usersJob []).
  simpl. lia.
Defined.

Section ErrorBuffer.
Import GoLib models validation repository service.

Context {Raw Rec : Type}.
Variable validate : Validator -> Raw -> Z -> list validation.ValidationError.
Variable remember : Validator -> Raw -> Validator.
Variable convert : Raw -> Rec.
Variable ctxDone : Z -> bool.
Variable batchInsert : nat -> list Rec -> Z * error.
Variable batchSize : Z.

Lemma bufferBelow_flushIfFull (st : Run Rec) : bufferBelow (flushIfFull st).
Proof.
  unfold bufferBelow, flushIfFull, flushValidationErrors.
  destruct (errorFlushThreshold <=? slen (validationErrors st)) eqn:Hfull.
  - apply Z.leb_le in Hfull. unfold errorFlushThreshold in *.
    destruct (slen (validationErrors st) =? 0) eqn:Hz.
    + apply Z.eqb_eq in Hz. lia.
    + unfold slen. simpl. lia.
  - apply Z.leb_gt in Hfull. exact Hfull.
Qed.

Lemma bufferBelow_reject (errs : list validation.ValidationError) (st : Run Rec) :
  bufferBelow st → bufferBelow (reject errs (countRecord (nextLine st))).
Proof. intros _. unfold reject. apply bufferBelow_flushIfFull. Qed.

Lemma bufferBelow_accept (raw : Raw) (st : Run Rec) :
  bufferBelow st →
  bufferBelow (accept remember convert batchInsert batchSize raw (countRecord (nextLine st))).
Proof.
  unfold bufferBelow, accept. destruct (batchSize <=? _); exact id.
Qed.

Lemma bufferBelow_finish (st : Run Rec) : bufferBelow st → bufferBelow (finish batchInsert st).
Proof.
  unfold bufferBelow, finish.
  destruct (0 <? slen (batch st)); cbn [validationErrors insertBatch];
    destruct (0 <? slen (validationErrors st)); exact id.
Qed.

Lemma runNDJSON_buffer (file : NDJSONFile Raw) (st : Run Rec) :
  bufferBelow st →
  bufferBelow (snd (runNDJSON validate remember convert ctxDone batchInsert batchSize file st)).
Proof.
  intros Hst. unfold runNDJSON.
  pose proof (scanLoop_keeps validate remember convert ctxDone batchInsert batchSize bufferBelow
                (fun st H => H) bufferBelow_reject bufferBelow_accept (ndLines file) st Hst) as H.
  destruct (scanLoop _ _ _ _ _ _ _ _) as [[|err] st']; cbn [snd].
  - apply bufferBelow_finish, H.
  - destruct H as (_ & st0 & Hst0 & ->). exact Hst0.
Qed.

End ErrorBuffer.

(** X10. However a pipeline ends (at the end of the file, on a
    cancellation or on a failed insert), fewer than 1000 validation errors
    are left in its in-memory buffer: the buffer is written out as soon as
    it holds that many. *)
Theorem error_buffer_stays_below_threshold
  (ctxDone : Z -> bool) (batchSize : Z) (j : models.Job) (stored : list models.ValidationError)
  (driver : nat -> repository.CopySession) :
  (∀ batchInsert file,
     bufferBelow (snd (service.processUsersCSV ctxDone batchInsert batchSize file j stored
                         driver)))
  ∧ (∀ batchInsert userIDs file,
       bufferBelow (snd (service.processArticlesNDJSON ctxDone batchInsert batchSize userIDs
                           file j stored driver)))
  ∧ (∀ batchInsert userIDs articleIDs file,
       bufferBelow (snd (service.processCommentsNDJSON ctxDone batchInsert batchSize userIDs
                           articleIDs file j stored driver))).
Proof.
  assert (H0 : ∀ (Rec : Type) v line,
             bufferBelow (@service.start Rec j v line stored driver)).
  { intros. unfold bufferBelow, service.start, service.slen, service.errorFlushThreshold.
    simpl. lia. }
  split; [|split].
  - intros batchInsert file. unfold service.processUsersCSV.
    destruct file as [f|]; [|apply H0].
    destruct (service.csvHeader f) as [header|]; [|apply H0].
    pose proof (readLoop_keeps ctxDone batchInsert batchSize bufferBelow
                  bufferBelow_reject
                  (bufferBelow_accept service.rememberUser service.convertCSVToUser
                     batchInsert batchSize)
                  (service.buildHeaderMap header) (service.csvRows f) _
                  (H0 models.User validation.NewValidator 1)) as H.
    destruct (service.readLoop _ _ _ _ _ _) as [[|err] st']; cbn [snd].
    + apply bufferBelow_finish, H.
    + destruct H as (_ & st0 & Hst0 & ->). exact Hst0.
  - intros batchInsert userIDs file. unfold service.processArticlesNDJSON.
    destruct file as [f|]; [|apply H0]. apply runNDJSON_buffer, H0.
  - intros batchInsert userIDs articleIDs file. unfold service.processCommentsNDJSON.
    destruct file as [f|]; [|apply H0]. apply runNDJSON_buffer, H0.
Qed.

Section BlankLines.
Import GoLib models validation repository service.

Context {Raw Rec : Type}.
Variable validate : Validator -> Raw -> Z -> list validation.ValidationError.
Variable remember : Validator -> Raw -> Validator.
Variable convert : Raw -> Rec.
Variable ctxDone : Z -> bool.
Variable batchInsert : nat -> list Rec -> Z * error.
Variable batchSize : Z.
Hypothesis Hlive : ∀ n, ctxDone n = false.
Hypothesis Hvalidate : ∀ v raw n m, validate v raw n = validate v raw m.

Lemma slen_map {A B : Type} (f : A -> B) (l : list A) : slen (map f l) = slen l.
Proof. unfold slen. rewrite length_map. reflexivity. Qed.

Lemma sameButLines_slen (a b : Run Rec) :
  sameButLines a b → slen (validationErrors a) = slen (validationErrors b).
Proof.
  intros (_ & _ & _ & _ & H & _).
  rewrite <- (slen_map unnumbered (validationErrors a)), H. apply slen_map.
Qed.

Lemma copyRows_map {A B : Type} (g : A -> B) (f : nat -> bool) (l : list A) :
  ∀ i, fst (copyRows f i (map g l)) = map g (fst (copyRows f i l)).
Proof.
  induction l as [|x l IH]; intros i; [reflexivity|].
  simpl. specialize (IH (S i)).
  destruct (copyRows f (S i) (map g l)) as [b1 n1], (copyRows f (S i) l) as [b2 n2].
  simpl in IH. destruct (f i); simpl; rewrite IH; reflexivity.
Qed.

(** Which errors of a slice [AddErrors] stores depends on their places in
    the slice only. *)
Lemma keptBy_unnumbered (db : CopySession) (ea eb : list models.ValidationError) :
  map unnumbered ea = map unnumbered eb →
  map unnumbered (keptBy db ea) = map unnumbered (keptBy db eb).
Proof.
  intros H. unfold keptBy.
  assert (Hlen : length ea = length eb).
  { rewrite <- (length_map unnumbered ea), H. apply length_map. }
  rewrite Hlen. destruct (Z.of_nat (length eb) =? 0); [reflexivity|].
  destruct (beginErr db), (prepareErr db), (flushErr db), (commitErr db); try reflexivity.
  rewrite <- !copyRows_map, H. reflexivity.
Qed.

Lemma sameButLines_flushIfFull (a b : Run Rec) :
  sameButLines a b → sameButLines (flushIfFull a) (flushIfFull b).
Proof.
  intros H. pose proof (sameButLines_slen a b H) as Hlen.
  destruct H as (Hj & Hv & Hb & Hi & He & Hs & Hd & Hf).
  unfold flushIfFull, flushValidationErrors. rewrite Hlen.
  destruct (errorFlushThreshold <=? slen (validationErrors b)); [|repeat split; assumption].
  destruct (slen (validationErrors b) =? 0); [repeat split; assumption|].
  repeat split; cbn; try assumption; try congruence.
  rewrite !map_app, Hs, Hd, Hf. f_equal. apply keptBy_unnumbered, He.
Qed.

Lemma sameButLines_reject (errs : list validation.ValidationError) (a b : Run Rec) :
  sameButLines a b →
  sameButLines (reject errs (countRecord (nextLine a))) (reject errs (countRecord (nextLine b))).
Proof.
  intros (Hj & Hv & Hb & Hi & He & Hs & Hd & Hf). unfold reject.
  apply sameButLines_flushIfFull.
  repeat split; cbn; try congruence.
  rewrite !map_app, He, !map_map. reflexivity.
Qed.

Lemma sameButLines_record (raw : Raw) (a b : Run Rec) :
  sameButLines a b →
  sameButLines
    (processRecord validate remember convert batchInsert batchSize raw (countRecord (nextLine a)))
    (processRecord validate remember convert batchInsert batchSize raw (countRecord (nextLine b))).
Proof.
  intros H. unfold processRecord.
  assert (Hv : validator (countRecord (nextLine a)) = validator (countRecord (nextLine b)))
    by (destruct H as (_ & Hv & _); exact Hv).
  rewrite Hv, (Hvalidate _ raw (lineNum (countRecord (nextLine a)))
                 (lineNum (countRecord (nextLine b)))).
  destruct (0 <? slen _); [apply sameButLines_reject, H|].
  destruct H as (Hj & Hv' & Hb & Hi & He & Hs & Hd & Hf). unfold accept.
  cbn [batch countRecord nextLine]. rewrite Hb.
  destruct (batchSize <=? _); repeat split; cbn; congruence.
Qed.

Lemma scanLoop_blank (lines : list (ScanLine Raw)) :
  ∀ a b, sameButLines a b →
    fst (scanLoop validate remember convert ctxDone batchInsert batchSize lines a) = Drained
    ∧ fst (scanLoop validate remember convert ctxDone batchInsert batchSize
             (List.filter (fun ln => negb (String.eqb (strings_TrimSpace (text ln)) "")) lines) b)
      = Drained
    ∧ sameButLines
        (snd (scanLoop validate remember convert ctxDone batchInsert batchSize lines a))
        (snd (scanLoop validate remember convert ctxDone batchInsert batchSize
                (List.filter (fun ln => negb (String.eqb (strings_TrimSpace (text ln)) ""))
                   lines) b)).
Proof.
  induction lines as [|ln rest IH]; intros a b H.
  - simpl. auto.
  - cbn [List.filter scanLoop].
    destruct (String.eqb (strings_TrimSpace (text ln)) "") eqn:Hblank; cbn [negb].
    + apply IH. destruct H as (Hj & Hv & Hb & Hi & He & Hs & Hd & Hf).
      repeat split; assumption.
    + cbn [scanLoop]. rewrite Hblank.
      unfold atCancelledCheckpoint. rewrite !Hlive, !andb_false_r.
      destruct (unmarshal ln) as [detail|raw].
      * apply IH, sameButLines_reject, H.
      * apply IH, sameButLines_record, H.
Qed.

Lemma sameButLines_finish (a b : Run Rec) :
  sameButLines a b → sameButLines (finish batchInsert a) (finish batchInsert b).
Proof.
  intros H. pose proof (sameButLines_slen a b H) as Hlen.
  destruct H as (Hj & Hv & Hb & Hi & He & Hs & Hd & Hf). unfold finish. rewrite Hb.
  destruct (0 <? slen (batch b)); cbn [validationErrors insertBatch]; rewrite Hlen;
    destruct (0 <? slen (validationErrors b)); repeat split; cbn; try congruence.
  all: rewrite !map_app, Hs, Hd, Hf; f_equal; apply keptBy_unnumbered, He.
Qed.

Lemma runNDJSON_blank (file : NDJSONFile Raw) (st : Run Rec) :
  fst (runNDJSON validate remember convert ctxDone batchInsert batchSize file st)
  = fst (runNDJSON validate remember convert ctxDone batchInsert batchSize
           (withoutBlankLines file) st)
  ∧ sameButLines
      (snd (runNDJSON validate remember convert ctxDone batchInsert batchSize file st))
      (snd (runNDJSON validate remember convert ctxDone batchInsert batchSize
              (withoutBlankLines file) st)).
Proof.
  unfold runNDJSON, withoutBlankLines. cbn [ndLines scannerErr].
  destruct (scanLoop_blank (ndLines file) st st ltac:(repeat split; reflexivity))
    as (H1 & H2 & H3).
  destruct (scanLoop _ _ _ _ _ _ (ndLines file) st) as [e1 s1].
  destruct (scanLoop _ _ _ _ _ _ (List.filter _ _) st) as [e2 s2].
  cbn [fst snd] in *. subst e1 e2. cbn [fst snd]. split; [reflexivity|].
  apply sameButLines_finish, H3.
Qed.

End BlankLines.

(** X11. Without cancellation, the blank lines of an NDJSON file
    change nothing but line numbers: [ProcessImport] returns the same
    result and leaves the same job, and the errors it stores have the same
    fields, messages and values in the same order, as on the file with its
    blank lines removed. Blank lines are not counted as records. *)
Theorem blank_lines_only_shift_line_numbers
  (w : service.World) (j : models.Job) (stored : list models.ValidationError) :
  (∀ n, service.ctxDone w n = false) →
  service.returned (service.ProcessImport w j stored)
  = service.returned (service.ProcessImport (withoutBlanks w) j stored)
  ∧ service.finalJob (service.ProcessImport w j stored)
    = service.finalJob (service.ProcessImport (withoutBlanks w) j stored)
  ∧ map unnumbered (service.storedErrors (service.ProcessImport w j stored))
    = map unnumbered (service.storedErrors (service.ProcessImport (withoutBlanks w) j stored)).
Proof.
  intros Hlive. unfold service.ProcessImport, withoutBlanks.
  cbn [service.ctxDone service.cfgBatchSize service.User_BatchInsert
       service.Article_BatchInsert service.Comment_BatchInsert service.User_GetAllIDs
       service.Article_GetAllIDs service.Job_AddErrors service.fileCSV service.fileArticles
       service.fileComments].
  destruct (String.eqb (models.Job_Resource j) "users"); [repeat split; reflexivity|].
  destruct (String.eqb (models.Job_Resource j) "articles").
  - unfold service.processArticlesNDJSON.
    destruct (service.fileArticles w) as [f|]; [|repeat split; reflexivity].
    cbn [option_map].
    destruct (runNDJSON_blank validation.ValidateArticle service.rememberArticle
                service.convertNDJSONToArticle (service.ctxDone w)
                (service.Article_BatchInsert w) (service.cfgBatchSize w) Hlive
                ltac:(reflexivity) f
                (service.start (repository.setStatus models.JobStatusProcessing j)
                   (service.preloadUserIDs validation.NewValidator (service.User_GetAllIDs w))
                   0 stored (service.Job_AddErrors w))) as [He (Hj & _ & _ & _ & _ & Hs & _)].
    unfold service.conclude. cbn [service.returned service.finalJob service.storedErrors].
    rewrite He, Hj, Hs. repeat split; reflexivity.
  - destruct (String.eqb (models.Job_Resource j) "comments"); [|repeat split; reflexivity].
    unfold service.processCommentsNDJSON.
    destruct (service.fileComments w) as [f|]; [|repeat split; reflexivity].
    cbn [option_map].
    destruct (runNDJSON_blank validation.ValidateComment service.rememberComment
                service.convertNDJSONToComment (service.ctxDone w)
                (service.Comment_BatchInsert w) (service.cfgBatchSize w) Hlive
                ltac:(reflexivity) f
                (service.start (repository.setStatus models.JobStatusProcessing j)
                   (service.preloadArticleIDs
                      (service.preloadUserIDs validation.NewValidator (service.User_GetAllIDs w))
                      (service.Article_GetAllIDs w))
                   0 stored (service.Job_AddErrors w))) as [He (Hj & _ & _ & _ & _ & Hs & _)].
    unfold service.conclude. cbn [service.returned service.finalJob service.storedErrors].
    rewrite He, Hj, Hs. repeat split; reflexivity.
Qed.

Lemma blank_lines_only_shift_line_numbers_witness :
  service.returned (service.ProcessImport samples.spacedWorld samples.articlesJob [])
  = service.returned
      (service.ProcessImport (withoutBlanks samples.spacedWorld) samples.articlesJob [])
  ∧ service.finalJob (service.ProcessImport samples.spacedWorld samples.articlesJob [])
    = service.finalJob
        (service.ProcessImport (withoutBlanks samples.spacedWorld) samples.articlesJob [])
  ∧ map unnumbered
      (service.storedErrors (service.ProcessImport samples.spacedWorld samples.articlesJob []))
    = map unnumbered
        (service.storedErrors
           (service.ProcessImport (withoutBlanks samples.spacedWorld) samples.articlesJob [])).
Proof.
  apply (blank_lines_only_shift_line_numbers samples.spacedWorld samples.articlesJob []).
  intros n. reflexivity.
Defined.

Section HeaderMapFacts.
Import GoLib models service.

Lemma headerStep_lookup (name : string) (header : list string) :
  ∀ (i : Z) (m : gmap string Z),
    snd (fold_left headerStep header (i, m)) !! name
    = match lastColumnFrom i name header with
      | Some k => Some k
      | None => m !! name
      end.
Proof.
  induction header as [|h header IH]; intros i m; [reflexivity|].
  cbn [fold_left lastColumnFrom]. unfold headerStep at 2. cbn [fst snd].
  rewrite IH. fold (columnName h).
  destruct (lastColumnFrom (i + 1) name header); [reflexivity|].
  rewrite lookup_insert. destruct (String.eqb_spec (columnName h) name) as [He|He];
    case_decide; try reflexivity; contradiction.
Qed.

End HeaderMapFacts.

(** X12. [buildHeaderMap] maps a name to the position of the last
    header cell that has this name once trimmed and put in lower case, so of
    two columns with the same name the later one wins. [getField] then reads
    the trimmed cell of the record at that position, and the empty string
    when the name is in no header cell or the record is too short. *)
Theorem header_column_is_last_of_its_name (header record : list string) (name : string) :
  service.buildHeaderMap header !! name = lastColumn name header
  ∧ service.getField record (service.buildHeaderMap header) name
    = Some (match lastColumn name header with
            | Some k => match record !! Z.to_nat k with
                        | Some cell => GoLib.strings_TrimSpace cell
                        | None => ""
                        end
            | None => ""
            end).
Proof.
  assert (Hlookup : service.buildHeaderMap header !! name = lastColumn name header).
  { unfold service.buildHeaderMap, lastColumn. rewrite headerStep_lookup.
    destruct (lastColumnFrom 0 name header); [reflexivity|apply lookup_empty]. }
  split; [exact Hlookup|].
  pose proof (getField_cases record (service.buildHeaderMap header) name) as Hcases.
  rewrite Hlookup in Hcases.
  assert (Hnn : ∀ k i, service.buildHeaderMap header !! k = Some i → 0 ≤ i).
  { intros k i Hk. apply (buildHeaderMap_indices header) in Hk. lia. }
  specialize (Hcases Hnn).
  destruct (lastColumn name header) as [k|]; [|exact Hcases].
  destruct (k <? service.slen record) eqn:Hlt.
  - destruct Hcases as (cell & Hcell & _ & ->). rewrite Hcell. reflexivity.
  - rewrite Hcases. apply Z.ltb_ge in Hlt.
    assert (Hk : 0 ≤ k) by (apply (Hnn name); exact Hlookup).
    rewrite (lookup_ge_None_2 record (Z.to_nat k)); [reflexivity|].
    unfold service.slen in Hlt. lia.
Qed.

Section DuplicateFacts.
Import GoLib models validation service.

Lemma has_insert_keeps (m : gmap string bool) (k k' : string) :
  has m k = true → has (<[k' := true]> m) k = true.
Proof.
  unfold has. intros H. rewrite lookup_insert. case_decide; [reflexivity|exact H].
Qed.

Lemma has_insert_same (m : gmap string bool) (k : string) : has (<[k := true]> m) k = true.
Proof. unfold has. rewrite lookup_insert. case_decide; [reflexivity|contradiction]. Qed.

Lemma rememberUser_keeps (v : Validator) (u : UserCSV) (k : string) :
  has (userEmailCache v) k = true → has (userEmailCache (rememberUser v u)) k = true.
Proof. intros H. unfold rememberUser. simpl. apply has_insert_keeps, H. Qed.

Lemma rememberUser_fold_keeps (later : list UserCSV) :
  ∀ (v : Validator) (k : string),
    has (userEmailCache v) k = true →
    has (userEmailCache (fold_left rememberUser later v)) k = true.
Proof.
  induction later as [|u later IH]; intros v k H; simpl; [exact H|].
  apply IH, rememberUser_keeps, H.
Qed.

Lemma emailRegex_nonempty (s : string) : MatchString emailRegex s = true → s ≠ "".
Proof. intros H ->. vm_compute in H. discriminate. Qed.

End DuplicateFacts.

(** X13. Once a user record has been accepted, a later record of the
    same run whose email matches the email pattern and equals the accepted
    one up to letter case gets exactly one error on the email field, the
    duplicate-email error, however many records were accepted in between. *)
Theorem duplicate_email_is_case_insensitive
  (v : validation.Validator) (accepted : models.UserCSV) (between : list models.UserCSV)
  (u : models.UserCSV) (lineNum : Z) :
  GoLib.MatchString validation.emailRegex (models.UserCSV_Email u) = true →
  GoLib.strings_ToLower (models.UserCSV_Email u)
  = GoLib.strings_ToLower (models.UserCSV_Email accepted) →
  validation.onField "email"
    (validation.ValidateUser
       (fold_left service.rememberUser between (service.rememberUser v accepted)) u lineNum)
  = [validation.invalid "email" "duplicate email" (models.UserCSV_Email u)].
Proof.
  intros Hmatch Hsame. unfold validation.ValidateUser.
  rewrite (isEmpty_false _ (emailRegex_nonempty _ Hmatch)), Hmatch. simpl negb.
  rewrite (rememberUser_fold_keeps between).
  2:{ unfold service.rememberUser. simpl. rewrite Hsame. apply has_insert_same. }
  rewrite !onField_app.
  rewrite (onField_same "email") by reflexivity.
  repeat match goal with
         | |- context [validation.onField "email" ?blk ++ _] =>
             replace (validation.onField "email" blk) with (@nil validation.ValidationError)
               by (symmetry; other_field)
         end.
  simpl. f_equal. other_field.
Qed.

Lemma duplicate_email_is_case_insensitive_witness :
  validation.onField "email"
    (validation.ValidateUser
       (fold_left service.rememberUser [] (service.rememberUser validation.NewValidator
                                             samples.aliceCSV))
       samples.aliceAgain 3)
  = [validation.invalid "email" "duplicate email" "alice@X.IO"].
Proof.
  apply (duplicate_email_is_case_insensitive validation.NewValidator samples.aliceCSV []
           samples.aliceAgain 3).
  - vm_compute. reflexivity.
  - vm_compute. reflexivity.
Defined.

Section AcceptanceFacts.
Import GoLib models validation service.

Lemma has_ValidRoles (r : string) :
  has ValidRoles r = true ↔ r = "admin" ∨ r = "editor" ∨ r = "viewer".
Proof.
  unfold has, ValidRoles. simpl list_to_map.
  rewrite !lookup_insert, lookup_empty.
  repeat case_decide; subst; simpl; intuition (try discriminate; try congruence).
Qed.

Lemma has_ValidStatuses (s : string) :
  has ValidStatuses s = true ↔ s = "draft" ∨ s = "published".
Proof.
  unfold has, ValidStatuses. simpl list_to_map.
  rewrite !lookup_insert, lookup_empty.
  repeat case_decide; subst; simpl; intuition (try discriminate; try congruence).
Qed.

Lemma uuid_nonempty (s : string) : isValidUUID s = true → isEmpty s = false.
Proof. destruct s; [vm_compute; discriminate|reflexivity]. Qed.

Lemma time_nonempty (s : string) : time_Parse_RFC3339_ok s = true → isEmpty s = false.
Proof. destruct s; [vm_compute; discriminate|reflexivity]. Qed.

Lemma emailRegex_isEmpty (s : string) : MatchString emailRegex s = true → isEmpty s = false.
Proof. destruct s; [vm_compute; discriminate|reflexivity]. Qed.

Lemma isEmpty_spec (s : string) : isEmpty s = true ↔ s = "".
Proof. unfold isEmpty. apply String.eqb_eq. Qed.

End AcceptanceFacts.

(** Splits an equation [b1 ++ b2 ++ ... = []] into one per block. *)
Ltac split_blocks H :=
  repeat match type of H with
         | _ ++ _ = [] => let H1 := fresh "Hblock" in
                          apply app_eq_nil in H; destruct H as [H1 H]
         end.

(** X14. [ValidateUser] reports no error exactly when the id is a
    UUID, the email matches the email pattern and its lower-case form is not
    in the email cache, the name is not empty, the role is admin, editor or
    viewer, the active cell is empty, true or false, and created_at parses
    as RFC 3339. The updated_at cell is never looked at. *)
Theorem ValidateUser_accepts_exactly
  (v : validation.Validator) (u : models.UserCSV) (lineNum : Z) :
  validation.ValidateUser v u lineNum = [] ↔
    validation.isValidUUID (models.UserCSV_ID u) = true
    ∧ GoLib.MatchString validation.emailRegex (models.UserCSV_Email u) = true
    ∧ validation.has (validation.userEmailCache v)
        (GoLib.strings_ToLower (models.UserCSV_Email u)) = false
    ∧ models.UserCSV_Name u ≠ ""
    ∧ (models.UserCSV_Role u = "admin" ∨ models.UserCSV_Role u = "editor"
       ∨ models.UserCSV_Role u = "viewer")
    ∧ (models.UserCSV_Active u = "" ∨ models.UserCSV_Active u = "true"
       ∨ models.UserCSV_Active u = "false")
    ∧ GoLib.time_Parse_RFC3339_ok (models.UserCSV_CreatedAt u) = true.
Proof.
  unfold validation.ValidateUser. split.
  - intros H. split_blocks H.
    repeat match goal with
           | Hb : (if ?c then _ else _) = [] |- _ =>
               let E := fresh "E" in destruct c eqn:E; [discriminate Hb|]
           end.
    repeat match goal with
           | E : negb _ = false |- _ => apply negb_false_iff in E
           end.
    repeat split; try assumption.
    + intros Hn. apply isEmpty_spec in Hn. congruence.
    + apply has_ValidRoles. assumption.
    + match goal with
      | E : (_ && _ && _)%bool = false |- _ => rename E into Hact
      end.
      unfold validation.isEmpty in Hact.
      destruct (String.eqb_spec (models.UserCSV_Active u) ""); [auto|].
      destruct (String.eqb_spec (models.UserCSV_Active u) "true"); [auto|].
      destruct (String.eqb_spec (models.UserCSV_Active u) "false"); [auto|].
      discriminate Hact.
  - intros (Hid & Hemail & Hdup & Hname & Hrole & Hactive & Hcreated).
    rewrite (uuid_nonempty _ Hid), Hid, (emailRegex_isEmpty _ Hemail), Hemail, Hdup,
      (isEmpty_false _ Hname), (time_nonempty _ Hcreated), Hcreated.
    apply has_ValidRoles in Hrole. rewrite Hrole.
    assert (Hrole_ne : validation.isEmpty (models.UserCSV_Role u) = false).
    { apply has_ValidRoles in Hrole. destruct Hrole as [-> | [-> | ->]]; reflexivity. }
    rewrite Hrole_ne.
    destruct Hactive as [-> | [-> | ->]]; reflexivity.
Qed.

(** Names the fields of the first block still written out, and records that
    the block reports nothing or one error on its field. *)
Ltac name_block :=
  match goal with
  | |- context [map validation.Field (if ?c then ?a else ?b)] =>
      let x := fresh "fields" in
      let Hx := fresh "Hfields" in
      set (x := map validation.Field (if c then a else b));
      eassert (Hx : x = [] ∨ x = [_]);
      [ subst x; cbv zeta;
        repeat match goal with
               | |- context [if ?d then _ else _] => destruct d
               end;
        simpl; first [left; reflexivity | right; reflexivity]
      | clearbody x ]
  end.

Ltac split_fields :=
  repeat match goal with
         | H : _ = [] ∨ _ = [_] |- _ => destruct H as [-> | ->]
         end.

(** X15. A validator reports at most one error per field of a record:
    the fields of the errors of [ValidateUser] and of [ValidateComment] are
    pairwise distinct, and so are those of [ValidateArticle] apart from
    published_at, which two independent checks can both report. *)
Theorem one_error_per_field
  (v : validation.Validator) (u : models.UserCSV) (c : models.CommentNDJSON)
  (a : models.ArticleNDJSON) (lineNum : Z) :
  NoDup (map validation.Field (validation.ValidateUser v u lineNum))
  ∧ NoDup (map validation.Field (validation.ValidateComment v c lineNum))
  ∧ NoDup (List.filter (fun f => negb (String.eqb f "published_at"))
             (map validation.Field (validation.ValidateArticle v a lineNum))).
Proof.
  split; [|split].
  - unfold validation.ValidateUser. rewrite !map_app. repeat name_block.
    split_fields; apply (bool_decide_unpack _); vm_compute; reflexivity.
  - unfold validation.ValidateComment. rewrite !map_app. repeat name_block.
    split_fields; apply (bool_decide_unpack _); vm_compute; reflexivity.
  - unfold validation.ValidateArticle. rewrite !map_app. repeat name_block.
    split_fields; apply (bool_decide_unpack _); vm_compute; reflexivity.
Qed.

Section RegexFacts.
Import GoLib.

Variable P : N -> bool.

Lemma mkCat_within (r1 r2 : regex) :
  classesWithin P r1 → classesWithin P r2 → classesWithin P (mkCat r1 r2).
Proof. destruct r1, r2; simpl; tauto. Qed.

Lemma mkAlt_within (r1 r2 : regex) :
  classesWithin P r1 → classesWithin P r2 → classesWithin P (mkAlt r1 r2).
Proof. destruct r1, r2; simpl; tauto. Qed.

Lemma deriv_within (b : N) (r : regex) : classesWithin P r → classesWithin P (deriv b r).
Proof.
  induction r as [| |f|r1 IH1 r2 IH2|r1 IH1 r2 IH2|r1 IH1]; simpl; intros H.
  - exact I.
  - exact I.
  - destruct (f b); exact I.
  - destruct H as [H1 H2]. destruct (nullable r1).
    + apply mkAlt_within; [apply mkCat_within|]; auto.
    + apply mkCat_within; auto.
  - destruct H as [H1 H2]. apply mkAlt_within; auto.
  - apply mkCat_within; [auto|exact H].
Qed.

Lemma deriv_outside (b : N) (r : regex) :
  P b = false → classesWithin P r → deriv b r = RNone.
Proof.
  intros Hb. induction r as [| |f|r1 IH1 r2 IH2|r1 IH1 r2 IH2|r1 IH1]; simpl; intros H.
  - reflexivity.
  - reflexivity.
  - destruct (f b) eqn:Hf; [|reflexivity]. apply H in Hf. congruence.
  - destruct H as [H1 H2]. rewrite (IH1 H1), (IH2 H2). destruct (nullable r1); reflexivity.
  - destruct H as [H1 H2]. rewrite (IH1 H1), (IH2 H2). reflexivity.
  - rewrite (IH1 H). reflexivity.
Qed.

Lemma matchBytes_RNone (l : list N) : matchBytes RNone l = false.
Proof. induction l as [|b l IH]; [reflexivity|exact IH]. Qed.

Lemma matchBytes_within (l : list N) :
  ∀ r, classesWithin P r → matchBytes r l = true → forallb P l = true.
Proof.
  induction l as [|b l IH]; intros r Hr Hm; [reflexivity|].
  simpl in Hm. simpl. destruct (P b) eqn:Hb.
  - simpl. apply (IH (deriv b r)); [apply deriv_within, Hr|exact Hm].
  - rewrite (deriv_outside b r Hb Hr), matchBytes_RNone in Hm. discriminate.
Qed.

End RegexFacts.

Section SlugFacts.
Import GoLib models validation.

Lemma slugRegex_within : classesWithin slugByte slugRegex.
Proof.
  unfold slugRegex, RPlus, RChar, slugByte, slugChar. cbn [classesWithin].
  repeat split; intros b Hb.
  all: first [ rewrite Hb; reflexivity
             | apply N.eqb_eq in Hb; subst b; reflexivity ].
Qed.

Lemma slugRegex_first (b : N) (l : list N) :
  matchBytes slugRegex (b :: l) = true → slugChar b = true.
Proof.
  destruct (slugChar b) eqn:Hb; [reflexivity|].
  unfold slugRegex, RPlus. cbn [matchBytes deriv nullable andb]. rewrite Hb.
  cbn [mkCat]. rewrite matchBytes_RNone. discriminate.
Qed.

End SlugFacts.

(** X16. A slug on which [ValidateArticle] reports no error is not
    empty, starts with a lower-case letter or a digit, consists only of
    lower-case letters, digits and hyphens, and is not in the slug cache. *)
Theorem accepted_slug_is_kebab_bytes
  (v : validation.Validator) (a : models.ArticleNDJSON) (lineNum : Z) :
  validation.onField "slug" (validation.ValidateArticle v a lineNum) = [] →
  ∃ first rest,
    GoLib.bytes (models.ArticleNDJSON_Slug a) = first :: rest
    ∧ validation.slugChar first = true
    ∧ forallb slugByte rest = true
    ∧ validation.has (validation.articleSlugCache v) (models.ArticleNDJSON_Slug a) = false.
Proof.
  unfold validation.ValidateArticle. rewrite !onField_app.
  intros H. apply app_eq_nil in H. destruct H as [_ H].
  apply app_eq_nil in H. destruct H as [H _].
  destruct (validation.isEmpty (models.ArticleNDJSON_Slug a)); [discriminate H|].
  destruct (GoLib.MatchString validation.slugRegex (models.ArticleNDJSON_Slug a)) eqn:Hm;
    [|discriminate H].
  destruct (validation.has _ _); [discriminate H|].
  unfold GoLib.MatchString in Hm.
  destruct (GoLib.bytes (models.ArticleNDJSON_Slug a)) as [|first rest] eqn:Hbytes.
  - vm_compute in Hm. discriminate.
  - exists first, rest. split; [reflexivity|]. split; [exact (slugRegex_first _ _ Hm)|].
    split; [|reflexivity].
    pose proof (matchBytes_within slugByte _ _ slugRegex_within Hm) as Hall.
    simpl in Hall. apply andb_true_iff in Hall. tauto.
Qed.

Lemma accepted_slug_is_kebab_bytes_witness :
  ∃ first rest,
    GoLib.bytes (models.ArticleNDJSON_Slug samples.orphanArticle) = first :: rest
    ∧ validation.slugChar first = true
    ∧ forallb slugByte rest = true
    ∧ validation.has (validation.articleSlugCache validation.NewValidator)
        (models.ArticleNDJSON_Slug samples.orphanArticle) = false.
Proof.
  apply (accepted_slug_is_kebab_bytes validation.NewValidator samples.orphanArticle 1).
  vm_compute. reflexivity.
Defined.

(** X17. Among the articles [ValidateArticle] accepts,
    [convertNDJSONToArticle] produces a draft that carries a publication
    date exactly for those whose status is empty and whose published_at is
    not: the rule that a draft has no published_at is applied to the status
    as written, before the empty status is turned into draft. *)
Theorem stored_draft_with_published_at
  (v : validation.Validator) (a : models.ArticleNDJSON) (lineNum : Z) :
  validation.ValidateArticle v a lineNum = [] →
  (models.Article_Status (service.convertNDJSONToArticle a) = "draft"
   ∧ models.Article_PublishedAt (service.convertNDJSONToArticle a)
     = Some (models.ArticleNDJSON_PublishedAt a))
  ↔ (models.ArticleNDJSON_Status a = ""
     ∧ models.ArticleNDJSON_PublishedAt a ≠ "").
Proof.
  intros Hvalid. unfold validation.ValidateArticle in Hvalid. split_blocks Hvalid.
  unfold service.convertNDJSONToArticle.
  cbn [models.Article_Status models.Article_PublishedAt].
  assert (Hparse : models.ArticleNDJSON_PublishedAt a ≠ "" →
                   service.parseTime (models.ArticleNDJSON_PublishedAt a)
                   = models.ArticleNDJSON_PublishedAt a).
  { intros Hne. unfold service.parseTime.
    rewrite (isEmpty_false _ Hne) in Hvalid. simpl negb in Hvalid.
    destruct (GoLib.time_Parse_RFC3339_ok (models.ArticleNDJSON_PublishedAt a));
      [reflexivity|discriminate Hvalid]. }
  destruct (String.eqb_spec (models.ArticleNDJSON_PublishedAt a) "") as [Hp|Hp].
  - split; [intros [_ H]; discriminate H|intros [_ H]; contradiction].
  - rewrite (Hparse Hp).
    destruct (String.eqb_spec (models.ArticleNDJSON_Status a) "") as [Hs|Hs].
    + split; auto.
    + split; [|intros [H _]; contradiction].
      intros [Hdraft _]. exfalso.
      rewrite Hdraft, (isEmpty_false _ Hp) in Hblock5. discriminate Hblock5.
Qed.

Lemma stored_draft_with_published_at_witness :
  models.Article_Status (service.convertNDJSONToArticle samples.undeclaredDraft) = "draft"
  ∧ models.Article_PublishedAt (service.convertNDJSONToArticle samples.undeclaredDraft)
    = Some samples.instant.
Proof.
  apply (stored_draft_with_published_at validation.NewValidator samples.undeclaredDraft 1).
  - vm_compute. reflexivity.
  - split; [reflexivity|discriminate].
Defined.

Section RecordInvariants.
Import GoLib models validation repository service.

Context {Raw Rec : Type}.
Variable validate : Validator -> Raw -> Z -> list validation.ValidationError.
Variable remember : Validator -> Raw -> Validator.
Variable convert : Raw -> Rec.
Variable ctxDone : Z -> bool.
Variable batchInsert : nat -> list Rec -> Z * error.
Variable batchSize : Z.

Variable P : Run Rec -> Prop.
Hypothesis Hblank : ∀ st, P st → P (nextLine st).
Hypothesis Hjson : ∀ detail st,
  P st → P (reject [mkError "json" ("invalid JSON: " +:+ detail) None] (countRecord (nextLine st))).
Hypothesis Hrecord : ∀ raw st,
  P st →
  P (processRecord validate remember convert batchInsert batchSize raw (countRecord (nextLine st))).

Lemma scanLoop_keeps_records (lines : list (ScanLine Raw)) :
  ∀ st, P st →
    match scanLoop validate remember convert ctxDone batchInsert batchSize lines st with
    | (Drained, st') => P st'
    | (Returned err, st') => err ≠ None ∧ ∃ st0, P st0 ∧ st' = countRecord (nextLine st0)
    end.
Proof.
  induction lines as [|ln rest IH]; intros st H; simpl.
  - exact H.
  - destruct (String.eqb (strings_TrimSpace (text ln)) "").
    + apply IH, Hblank, H.
    + destruct (atCancelledCheckpoint ctxDone (countRecord (nextLine st))).
      * split; [discriminate|]. exists st. split; [exact H|reflexivity].
      * destruct (unmarshal ln) as [detail|raw].
        -- apply IH, Hjson, H.
        -- apply IH, Hrecord, H.
Qed.

End RecordInvariants.

(** Proves that no error of one block of a validator carries one of the two
    foreign key messages. *)
Ltac no_reference_in_block :=
  cbv zeta;
  repeat match goal with
         | |- context [if ?b then _ else _] => destruct b
         end;
  repeat constructor; simpl; intros [H|H]; discriminate H.

Section ReferenceFacts.
Import GoLib models validation repository service.

Lemma mapLen_empty : mapLen ∅ = 0.
Proof. unfold mapLen. rewrite map_size_empty. reflexivity. Qed.

Lemma ValidateArticle_unchecked (v : Validator) (a : ArticleNDJSON) (lineNum : Z) :
  userIDCache v = ∅ → Forall notReference (ValidateArticle v a lineNum).
Proof.
  intros Hu. unfold ValidateArticle. rewrite Hu, mapLen_empty.
  change (0 <? 0) with false. cbn [andb].
  repeat (apply List.Forall_app; split); unfold notReference, referenceError; no_reference_in_block.
Qed.

Lemma ValidateComment_unchecked (v : Validator) (c : CommentNDJSON) (lineNum : Z) :
  userIDCache v = ∅ → articleIDCache v = ∅ → Forall notReference (ValidateComment v c lineNum).
Proof.
  intros Hu Ha. unfold ValidateComment. rewrite Hu, Ha, mapLen_empty.
  change (0 <? 0) with false. cbn [andb].
  repeat (apply List.Forall_app; split); unfold notReference, referenceError;
    no_reference_in_block.
Qed.

End ReferenceFacts.

Section ReferenceRuns.
Import GoLib models validation repository service.

Context {Raw Rec : Type}.
Variable validate : Validator -> Raw -> Z -> list validation.ValidationError.
Variable remember : Validator -> Raw -> Validator.
Variable convert : Raw -> Rec.
Variable ctxDone : Z -> bool.
Variable batchInsert : nat -> list Rec -> Z * error.
Variable batchSize : Z.
Variable C : Validator -> Prop.
Hypothesis Hvalidate : ∀ v raw line, C v → Forall notReference (validate v raw line).
Hypothesis Hremember : ∀ v raw, C v → C (remember v raw).

Lemma flushIfFull_validator (st : Run Rec) : validator (flushIfFull st) = validator st.
Proof.
  unfold flushIfFull, flushValidationErrors.
  destruct (errorFlushThreshold <=? slen (validationErrors st)); [|reflexivity].
  destruct (slen (validationErrors st) =? 0); reflexivity.
Qed.

Lemma noReference_reject (errs : list validation.ValidationError) (st : Run Rec) :
  Forall notReference errs →
  noReferenceReported C st → noReferenceReported C (reject errs (countRecord (nextLine st))).
Proof.
  unfold noReferenceReported, reject. intros Herrs [Hc Hall].
  rewrite flushIfFull_validator. split; [exact Hc|].
  apply (sublist_all _ _ _ (flushIfFull_errors _)).
  cbn [validator job_errors validationErrors countRecord nextLine lineNum].
  rewrite app_assoc. apply List.Forall_app. split; [exact Hall|].
  apply List.Forall_map. apply List.Forall_impl with (2 := Herrs). intros e He. exact He.
Qed.

Lemma noReference_accept (raw : Raw) (st : Run Rec) :
  noReferenceReported C st →
  noReferenceReported C (accept remember convert batchInsert batchSize raw
                           (countRecord (nextLine st))).
Proof.
  unfold noReferenceReported, accept. intros [Hc Hall].
  destruct (batchSize <=? _);
    cbn [validator job_errors validationErrors countRecord nextLine clearBatch insertBatch];
    (split; [apply Hremember, Hc|exact Hall]).
Qed.

Lemma noReference_record (raw : Raw) (st : Run Rec) :
  noReferenceReported C st →
  noReferenceReported C
    (processRecord validate remember convert batchInsert batchSize raw (countRecord (nextLine st))).
Proof.
  intros H. unfold processRecord. destruct (0 <? slen _).
  - apply noReference_reject; [|exact H]. apply Hvalidate. destruct H as [Hc _]. exact Hc.
  - apply noReference_accept, H.
Qed.

Lemma noReference_run (file : NDJSONFile Raw) (st : Run Rec) :
  noReferenceReported C st →
  Forall (fun e => ¬ referenceError (models.Message e))
    (job_errors (snd (runNDJSON validate remember convert ctxDone batchInsert batchSize file st))).
Proof.
  intros Hst. unfold runNDJSON.
  pose proof (scanLoop_keeps_records validate remember convert ctxDone batchInsert batchSize
                (noReferenceReported C) (fun st H => H)
                (fun detail st H =>
                   noReference_reject [mkError "json" ("invalid JSON: " +:+ detail) None] st
                     ltac:(repeat constructor; unfold notReference, referenceError; simpl;
                           intros [E|E]; discriminate E) H)
                noReference_record (ndLines file) st Hst) as H.
  destruct (scanLoop _ _ _ _ _ _ _ _) as [[|err] st']; cbn [snd].
  - destruct H as [_ Hall]. apply (sublist_all _ _ _ (finish_errors batchInsert st') Hall).
  - destruct H as (_ & st0 & [_ Hall] & ->). cbn [job_errors countRecord nextLine].
    apply List.Forall_app in Hall. tauto.
Qed.

End ReferenceRuns.

Section EmptyCaches.
Import GoLib models validation repository service.

Lemma preloadUserIDs_empty (userIDs : list string) :
  leavesCacheEmpty userIDs → preloadUserIDs NewValidator userIDs = NewValidator.
Proof.
  intros [->|Hmany]; [reflexivity|]. apply (preload_skipped NewValidator userIDs Hmany).
Qed.

Lemma preloadArticleIDs_empty (articleIDs : list string) :
  leavesCacheEmpty articleIDs → preloadArticleIDs NewValidator articleIDs = NewValidator.
Proof.
  intros [->|Hmany]; [reflexivity|]. apply (preload_skipped NewValidator articleIDs Hmany).
Qed.

End EmptyCaches.

(** X18. When the enumeration of the stored ids leaves a cache empty
    (there is no stored row, or there are 100000 or more), the reference
    check on that cache is skipped: for a job that starts without errors, no
    error of an articles run reports a missing user, and no error of a
    comments run reports a missing user or article. *)
Theorem empty_store_skips_reference_checks
  (ctxDone : Z -> bool) (batchSize : Z) (j : models.Job)
  (driver : nat -> repository.CopySession) :
  (∀ batchInsert userIDs file,
     leavesCacheEmpty userIDs →
     Forall (fun e => ¬ referenceError (models.Message e))
       (service.job_errors
          (snd (service.processArticlesNDJSON ctxDone batchInsert batchSize userIDs file j []
                  driver))))
  ∧ (∀ batchInsert userIDs articleIDs file,
       leavesCacheEmpty userIDs → leavesCacheEmpty articleIDs →
       Forall (fun e => ¬ referenceError (models.Message e))
         (service.job_errors
            (snd (service.processCommentsNDJSON ctxDone batchInsert batchSize userIDs
                    articleIDs file j [] driver)))).
Proof.
  split.
  - intros batchInsert userIDs file Hu. unfold service.processArticlesNDJSON.
    destruct file as [f|]; [|constructor].
    rewrite (preloadUserIDs_empty userIDs Hu).
    apply (noReference_run validation.ValidateArticle service.rememberArticle
             service.convertNDJSONToArticle ctxDone batchInsert batchSize
             (fun v => validation.userIDCache v = ∅)).
    + intros v raw line Hc. apply ValidateArticle_unchecked, Hc.
    + intros v raw Hc. exact Hc.
    + split; [reflexivity|constructor].
  - intros batchInsert userIDs articleIDs file Hu Ha. unfold service.processCommentsNDJSON.
    destruct file as [f|]; [|constructor].
    rewrite (preloadUserIDs_empty userIDs Hu), (preloadArticleIDs_empty articleIDs Ha).
    apply (noReference_run validation.ValidateComment service.rememberComment
             service.convertNDJSONToComment ctxDone batchInsert batchSize
             (fun v => validation.userIDCache v = ∅ ∧ validation.articleIDCache v = ∅)).
    + intros v raw line [Hc1 Hc2]. apply ValidateComment_unchecked; assumption.
    + intros v raw Hc. exact Hc.
    + split; [split; reflexivity|constructor].
Qed.

Lemma empty_store_skips_reference_checks_witness :
  Forall (fun e => ¬ referenceError (models.Message e))
    (service.job_errors
       (snd (service.processArticlesNDJSON samples.neverDone samples.insertsAll 1000 []
               (Some samples.threeArticles) samples.articlesJob []
               (fun _ => repository.healthy)))).
Proof.
  apply (proj1 (empty_store_skips_reference_checks samples.neverDone 1000 samples.articlesJob
                  (fun _ => repository.healthy))).
  left. reflexivity.
Defined.

Section ErrorStoreFacts.
Import GoLib models repository service.

Lemma insertByLine_perm (r : ErrorRow) (l : list ErrorRow) :
  Permutation (insertByLine r l) (r :: l).
Proof.
  induction l as [|x l IH]; simpl; [reflexivity|].
  destruct (line_number r <=? line_number x); [reflexivity|].
  rewrite IH. apply perm_swap.
Qed.

Lemma orderByLine_perm (l : list ErrorRow) : Permutation (orderByLine l) l.
Proof.
  induction l as [|r l IH]; simpl; [reflexivity|].
  rewrite insertByLine_perm. constructor. exact IH.
Qed.

Lemma insertByLine_sorted (r : ErrorRow) (l : list ErrorRow) :
  StronglySorted Z.le (map line_number l) →
  StronglySorted Z.le (map line_number (insertByLine r l)).
Proof.
  induction l as [|x l IH]; simpl; intros Hs.
  - constructor; constructor.
  - inversion Hs as [|? ? Hs' Hx]; subst.
    destruct (line_number r <=? line_number x) eqn:Hle.
    + apply Z.leb_le in Hle. simpl. constructor; [exact Hs|].
      constructor; [exact Hle|].
      apply List.Forall_impl with (2 := Hx). intros y Hy. lia.
    + apply Z.leb_gt in Hle. simpl. constructor; [apply IH, Hs'|].
      apply List.Forall_forall. intros y Hy.
      apply in_map_iff in Hy. destruct Hy as (z & <- & Hz).
      apply (Permutation_in _ (insertByLine_perm r l)) in Hz.
      destruct Hz as [<-|Hz]; [lia|].
      rewrite List.Forall_forall in Hx. apply Hx. apply in_map. exact Hz.
Qed.

Lemma orderByLine_sorted (l : list ErrorRow) :
  StronglySorted Z.le (map line_number (orderByLine l)).
Proof.
  induction l as [|r l IH]; simpl; [constructor|]. apply insertByLine_sorted, IH.
Qed.

Lemma survivorsFrom_map {A B : Type} (g : A -> B) (f : nat -> bool) (l : list A) :
  ∀ i, fst (copyRows f i (map g l)) = map g (survivorsFrom f i l).
Proof.
  intros i. rewrite <- copyRows_survivors. revert i.
  induction l as [|x l IH]; intros i; [reflexivity|].
  simpl. specialize (IH (S i)).
  destruct (copyRows f (S i) (map g l)) as [b1 n1], (copyRows f (S i) l) as [b2 n2].
  simpl in IH. destruct (f i); simpl; rewrite IH; reflexivity.
Qed.

Lemma GetErrors_all (arrival : list ErrorRow -> list ErrorRow) (table : list ErrorRow)
  (jobID : string) :
  fst (jobRepo_GetErrors None arrival None table jobID 0)
  = map scanError
      (orderByLine (arrival (List.filter (fun r => String.eqb (job_id r) jobID) table))).
Proof. reflexivity. Qed.

Lemma GetErrors_limit (arrival : list ErrorRow -> list ErrorRow) (table : list ErrorRow)
  (jobID : string) (limit : Z) :
  0 < limit →
  fst (jobRepo_GetErrors None arrival None table jobID limit)
  = map scanError
      (firstn (Z.to_nat limit)
         (orderByLine (arrival (List.filter (fun r => String.eqb (job_id r) jobID) table)))).
Proof.
  intros Hpos. unfold jobRepo_GetErrors. cbn [fst].
  replace (0 <? limit) with true by (symmetry; apply Z.ltb_lt; exact Hpos).
  reflexivity.
Qed.

Lemma filter_errorRows (jobID : string) (errs : list models.ValidationError) :
  List.filter (fun r => String.eqb (job_id r) jobID) (map (errorRow jobID) errs)
  = map (errorRow jobID) errs.
Proof.
  induction errs as [|e errs IH]; [reflexivity|].
  simpl. rewrite String.eqb_refl, IH. reflexivity.
Qed.

(** Two line-ordered lists of the same numbers are the same list. *)
Lemma sorted_lines_unique (l1 l2 : list Z) :
  StronglySorted Z.le l1 → StronglySorted Z.le l2 → Permutation l1 l2 → l1 = l2.
Proof.
  revert l2. induction l1 as [|x l1 IH]; intros l2 H1 H2 Hperm.
  - apply Permutation_nil in Hperm. symmetry. exact Hperm.
  - destruct l2 as [|y l2]; [symmetry in Hperm; apply Permutation_nil in Hperm; discriminate|].
    inversion H1 as [|? ? H1' Hx]; subst. inversion H2 as [|? ? H2' Hy]; subst.
    rewrite List.Forall_forall in Hx, Hy.
    assert (Hxy : x = y).
    { assert (Hin1 : In x (y :: l2)) by (apply (Permutation_in _ Hperm); left; reflexivity).
      assert (Hin2 : In y (x :: l1))
        by (apply (Permutation_in _ (Permutation_sym Hperm)); left; reflexivity).
      destruct Hin1 as [Heq|Hin1]; [symmetry; exact Heq|].
      destruct Hin2 as [Heq|Hin2]; [exact Heq|].
      specialize (Hx _ Hin2). specialize (Hy _ Hin1). lia. }
    subst y. f_equal. apply IH; [exact H1'|exact H2'|].
    apply Permutation_cons_inv with (a := x). exact Hperm.
Qed.

Lemma orderByLine_lines (l1 l2 : list ErrorRow) :
  Permutation l1 l2 →
  map line_number (orderByLine l1) = map line_number (orderByLine l2).
Proof.
  intros Hperm. apply sorted_lines_unique; [apply orderByLine_sorted..|].
  apply Permutation_map.
  etransitivity; [apply orderByLine_perm|].
  etransitivity; [exact Hperm|]. symmetry. apply orderByLine_perm.
Qed.

Lemma AddErrors_keptBy (db : CopySession) (table : list ErrorRow) (jobID : string)
  (errors : list models.ValidationError) :
  fst (jobRepo_AddErrors db table jobID errors)
  = (table ++ map (errorRow jobID) (keptBy db errors))%list.
Proof.
  unfold jobRepo_AddErrors, keptBy.
  destruct (Z.of_nat (length errors) =? 0); [simpl; rewrite app_nil_r; reflexivity|].
  destruct (beginErr db); [simpl; rewrite app_nil_r; reflexivity|].
  destruct (prepareErr db); [simpl; rewrite app_nil_r; reflexivity|].
  destruct (flushErr db); [simpl; rewrite app_nil_r; reflexivity|].
  destruct (commitErr db); [simpl; rewrite app_nil_r; reflexivity|].
  cbn [fst]. rewrite survivorsFrom_map, copyRows_survivors. reflexivity.
Qed.

Lemma keptBy_survivors (db : CopySession) (table : list ErrorRow) (jobID : string)
  (errors : list models.ValidationError) :
  snd (jobRepo_AddErrors db table jobID errors) = None →
  keptBy db errors = survivors (rowErr db) errors.
Proof.
  unfold jobRepo_AddErrors, keptBy. intros Hok.
  destruct (Z.of_nat (length errors) =? 0) eqn:Hlen.
  - apply Z.eqb_eq in Hlen. destruct errors; [reflexivity|simpl in Hlen; lia].
  - destruct (beginErr db); [discriminate Hok|].
    destruct (prepareErr db); [discriminate Hok|].
    destruct (flushErr db); [discriminate Hok|].
    destruct (commitErr db); [discriminate Hok|].
    apply copyRows_survivors.
Qed.

End ErrorStoreFacts.

(** X19. [AddErrors] leaves in the table the rows of the errors it
    keeps. When it returns no error and the queries of [GetErrors] answer
    and deliver their rows to the end, then whatever order the database
    gives to rows of the same line in each query: [GetErrors] with no limit returns for the job the errors it
    returned before together with the added ones that the database accepted
    (a nil value read back as the empty text), in ascending line order; with
    a positive limit it returns errors whose lines are the first [limit]
    lines of the unlimited answer and which are among the errors of that
    answer; and a query that meets the rows in the same order as the
    unlimited one returns exactly its first [limit] errors. *)
Theorem stored_errors_read_back
  (db : repository.CopySession) (table : list repository.ErrorRow) (jobID : string)
  (errors : list models.ValidationError)
  (before after limited : list repository.ErrorRow -> list repository.ErrorRow) :
  snd (repository.jobRepo_AddErrors db table jobID errors) = None →
  (∀ rows, Permutation (before rows) rows) →
  (∀ rows, Permutation (after rows) rows) →
  (∀ rows, Permutation (limited rows) rows) →
  fst (repository.jobRepo_AddErrors db table jobID errors)
  = (table ++ map (repository.errorRow jobID) (repository.keptBy db errors))%list
  ∧ Permutation
      (fst (repository.jobRepo_GetErrors None after None
              (fst (repository.jobRepo_AddErrors db table jobID errors)) jobID 0))
      (fst (repository.jobRepo_GetErrors None before None table jobID 0)
       ++ map readBack (survivors (repository.rowErr db) errors))
  ∧ StronglySorted Z.le
      (map models.Line
         (fst (repository.jobRepo_GetErrors None after None
                 (fst (repository.jobRepo_AddErrors db table jobID errors)) jobID 0)))
  ∧ ∀ limit, 0 < limit →
      map models.Line
        (fst (repository.jobRepo_GetErrors None limited None
                (fst (repository.jobRepo_AddErrors db table jobID errors)) jobID limit))
      = firstn (Z.to_nat limit)
          (map models.Line
             (fst (repository.jobRepo_GetErrors None after None
                     (fst (repository.jobRepo_AddErrors db table jobID errors)) jobID 0)))
      ∧ (∃ rest,
           Permutation
             (fst (repository.jobRepo_GetErrors None limited None
                     (fst (repository.jobRepo_AddErrors db table jobID errors)) jobID limit)
              ++ rest)
             (fst (repository.jobRepo_GetErrors None after None
                     (fst (repository.jobRepo_AddErrors db table jobID errors)) jobID 0)))
      ∧ fst (repository.jobRepo_GetErrors None after None
               (fst (repository.jobRepo_AddErrors db table jobID errors)) jobID limit)
        = firstn (Z.to_nat limit)
            (fst (repository.jobRepo_GetErrors None after None
                    (fst (repository.jobRepo_AddErrors db table jobID errors)) jobID 0)).
Proof.
  intros Hok Hbefore Hafter Hlimited.
  split; [apply AddErrors_keptBy|].
  split; [|split].
  - rewrite AddErrors_keptBy, (keptBy_survivors db table jobID errors Hok).
    rewrite !GetErrors_all, List.filter_app, filter_errorRows.
    etransitivity; [apply Permutation_map, orderByLine_perm|].
    etransitivity; [apply Permutation_map, Hafter|].
    rewrite map_app. apply Permutation_app.
    + apply Permutation_map. symmetry.
      etransitivity; [apply orderByLine_perm|apply Hbefore].
    + rewrite map_map. reflexivity.
  - rewrite GetErrors_all, map_map.
    change (fun x => models.Line (repository.scanError x)) with repository.line_number.
    apply orderByLine_sorted.
  - intros limit Hpos.
    rewrite !(GetErrors_limit _ _ _ _ Hpos), !GetErrors_all.
    split; [|split].
    + rewrite !map_map.
      change (fun x => models.Line (repository.scanError x)) with repository.line_number.
      rewrite <- firstn_map. f_equal. apply orderByLine_lines.
      etransitivity; [apply Hlimited|]. symmetry. apply Hafter.
    + eexists (map repository.scanError (skipn (Z.to_nat limit) _)).
      rewrite <- map_app, firstn_skipn. apply Permutation_map.
      etransitivity; [apply orderByLine_perm|].
      etransitivity; [apply Hlimited|].
      symmetry. etransitivity; [apply orderByLine_perm|apply Hafter].
    + symmetry. apply firstn_map.
Qed.

Lemma stored_errors_read_back_witness :
  fst (repository.jobRepo_AddErrors repository.healthy [] "job-1" samples.twoErrors)
  = ([] ++ map (repository.errorRow "job-1")
             (repository.keptBy repository.healthy samples.twoErrors))%list
  ∧ Permutation
      (fst (repository.jobRepo_GetErrors None (@rev repository.ErrorRow) None
              (fst (repository.jobRepo_AddErrors repository.healthy [] "job-1"
                      samples.twoErrors)) "job-1" 0))
      (fst (repository.jobRepo_GetErrors None (fun rows => rows) None [] "job-1" 0)
       ++ map readBack (survivors (repository.rowErr repository.healthy) samples.twoErrors))
  ∧ StronglySorted Z.le
      (map models.Line
         (fst (repository.jobRepo_GetErrors None (@rev repository.ErrorRow) None
                 (fst (repository.jobRepo_AddErrors repository.healthy [] "job-1"
                         samples.twoErrors)) "job-1" 0)))
  ∧ ∀ limit, 0 < limit →
      map models.Line
        (fst (repository.jobRepo_GetErrors None (fun rows => rows) None
                (fst (repository.jobRepo_AddErrors repository.healthy [] "job-1"
                        samples.twoErrors)) "job-1" limit))
      = firstn (Z.to_nat limit)
          (map models.Line
             (fst (repository.jobRepo_GetErrors None (@rev repository.ErrorRow) None
                     (fst (repository.jobRepo_AddErrors repository.healthy [] "job-1"
                             samples.twoErrors)) "job-1" 0)))
      ∧ (∃ rest,
           Permutation
             (fst (repository.jobRepo_GetErrors None (fun rows => rows) None
                     (fst (repository.jobRepo_AddErrors repository.healthy [] "job-1"
                             samples.twoErrors)) "job-1" limit)
              ++ rest)
             (fst (repository.jobRepo_GetErrors None (@rev repository.ErrorRow) None
                     (fst (repository.jobRepo_AddErrors repository.healthy [] "job-1"
                             samples.twoErrors)) "job-1" 0)))
      ∧ fst (repository.jobRepo_GetErrors None (@rev repository.ErrorRow) None
               (fst (repository.jobRepo_AddErrors repository.healthy [] "job-1"
                       samples.twoErrors)) "job-1" limit)
        = firstn (Z.to_nat limit)
            (fst (repository.jobRepo_GetErrors None (@rev repository.ErrorRow) None
                    (fst (repository.jobRepo_AddErrors repository.healthy [] "job-1"
                            samples.twoErrors)) "job-1" 0)).
Proof.
  apply (stored_errors_read_back repository.healthy [] "job-1" samples.twoErrors
           (fun rows => rows) (@rev repository.ErrorRow) (fun rows => rows)).
  - reflexivity.
  - intros rows. reflexivity.
  - intros rows. symmetry. apply Permutation_rev.
  - intros rows. reflexivity.
Defined.

Section JobRowFacts.
Import GoLib models repository service job_service.

Lemma find_map_same {A : Type} (p : A -> bool) (f : A -> A) (l : list A) :
  (∀ x, p (f x) = p x) → List.find p (map f l) = option_map f (List.find p l).
Proof.
  intros Hp. induction l as [|x l IH]; [reflexivity|].
  simpl. rewrite Hp. destruct (p x); [reflexivity|exact IH].
Qed.

Lemma updateRow_identity (job row : Job) : identity (updateRow job row) = identity row.
Proof. unfold updateRow. destruct (idMatches (Job_ID job) row); reflexivity. Qed.

Lemma claimRow_identity (id : string) (row : Job) : identity (claimRow id row) = identity row.
Proof. unfold claimRow. destruct (_ && _)%bool; reflexivity. Qed.

Lemma identity_keyMatches (key : string) (a b : Job) :
  identity a = identity b → keyMatches key a = keyMatches key b.
Proof. unfold identity, keyMatches. intros H. inversion H. congruence. Qed.

Lemma identity_idMatches (id : string) (a b : Job) :
  identity a = identity b → idMatches id a = idMatches id b.
Proof. unfold identity, idMatches. intros H. inversion H. congruence. Qed.

Lemma execute_as_map (table : list Job) (s : Statement) :
  ∃ f, (∀ row, identity (f row) = identity row) ∧ execute table s = map f table.
Proof.
  destruct s as [[e|] job|jobID]; simpl.
  - exists (fun row => row). split; [reflexivity|]. symmetry. apply map_id.
  - exists (updateRow job). split; [apply updateRow_identity|reflexivity].
  - exists (claimRow jobID). split; [apply claimRow_identity|reflexivity].
Qed.

Lemma execute_all_lookup (key : string) (statements : list Statement) :
  ∀ table,
    option_map identity (List.find (keyMatches key) (fold_left execute statements table))
    = option_map identity (List.find (keyMatches key) table).
Proof.
  induction statements as [|s statements IH]; intros table; simpl; [reflexivity|].
  rewrite IH. destruct (execute_as_map table s) as (f & Hf & ->).
  rewrite find_map_same by (intros x; apply identity_keyMatches, Hf).
  destruct (List.find (keyMatches key) table); simpl; [rewrite Hf|]; reflexivity.
Qed.

End JobRowFacts.

(** X20. A request whose idempotency key already has a job, and whose
    lookup of the key answers, is answered with that job and changes
    nothing, also after any sequence of [Update] and [MarkJobAsProcessing]
    statements, failed or not: the job returned has the same id, type,
    resource, key and file path; only status and counters may differ. *)
Theorem retry_after_processing_returns_same_job
  (cfg : api.Config) (host : api.Host) (req : api.Request) (srv : api.Server)
  (statements : list job_service.Statement) (j : models.Job) :
  api.lookupErr host = None →
  api.existingJobFor host srv (api.idempotencyKeyHeader req) = Some j →
  ∃ j',
    api.CreateImport cfg host req
      {| api.jobs := fold_left job_service.execute statements (api.jobs srv);
         api.uploads := api.uploads srv |}
    = (api.Existing j',
       {| api.jobs := fold_left job_service.execute statements (api.jobs srv);
          api.uploads := api.uploads srv |})
    ∧ identity j' = identity j.
Proof.
  intros Hlookup Hfound. unfold api.CreateImport.
  unfold api.existingJobFor in *. cbn [api.jobs].
  destruct (String.eqb (api.idempotencyKeyHeader req) ""); [discriminate Hfound|].
  unfold service.GetJobByIdempotencyKey, repository.jobRepo_GetByIdempotencyKey in *.
  rewrite Hlookup in *. cbn [fst] in *.
  pose proof (execute_all_lookup (api.idempotencyKeyHeader req) statements (api.jobs srv)) as H.
  rewrite Hfound in H. simpl in H.
  destruct (List.find _ (fold_left _ _ _)) as [j'|]; [|discriminate H].
  exists j'. split; [reflexivity|]. simpl in H. congruence.
Qed.

Lemma retry_after_processing_returns_same_job_witness :
  ∃ j',
    api.CreateImport samples.apiConfig (samples.calmHost "bbbbbbbb" "job-2")
      (api.withKey "retry-1" (samples.csvUpload "users.csv" "id,email"))
      {| api.jobs := fold_left job_service.execute samples.processed
                       (api.jobs samples.keyedServer);
         api.uploads := api.uploads samples.keyedServer |}
    = (api.Existing j',
       {| api.jobs := fold_left job_service.execute samples.processed
                        (api.jobs samples.keyedServer);
          api.uploads := api.uploads samples.keyedServer |})
    ∧ identity j' = identity samples.keyedJob.
Proof.
  apply (retry_after_processing_returns_same_job samples.apiConfig
           (samples.calmHost "bbbbbbbb" "job-2")
           (api.withKey "retry-1" (samples.csvUpload "users.csv" "id,email"))
           samples.keyedServer samples.processed samples.keyedJob).
  - reflexivity.
  - reflexivity.
Defined.

Section SameJobFacts.
Import GoLib models validation repository service job_service.

Context {Raw Rec : Type}.
Variable remember : Validator -> Raw -> Validator.
Variable convert : Raw -> Rec.
Variable batchInsert : nat -> list Rec -> Z * error.
Variable batchSize : Z.
Variable j : Job.

Lemma sameJob_reject (errs : list validation.ValidationError) (st : Run Rec) :
  sameJob j st → sameJob j (reject errs (countRecord (nextLine st))).
Proof. unfold sameJob, reject. rewrite flushIfFull_job'. exact id. Qed.

Lemma sameJob_accept (raw : Raw) (st : Run Rec) :
  sameJob j st →
  sameJob j (accept remember convert batchInsert batchSize raw (countRecord (nextLine st))).
Proof.
  unfold sameJob, accept. destruct (batchSize <=? _); [|exact id].
  unfold clearBatch, insertBatch, countBatch. cbn [job]. destruct (snd _); exact id.
Qed.

Lemma sameJob_finish (st : Run Rec) : sameJob j st → sameJob j (finish batchInsert st).
Proof.
  unfold sameJob, finish.
  destruct (0 <? slen (batch st)).
  - unfold insertBatch, countBatch. cbn [validationErrors].
    destruct (0 <? slen (validationErrors st)); cbn [job]; destruct (snd _); exact id.
  - destruct (0 <? slen (validationErrors st)); exact id.
Qed.

End SameJobFacts.

Section SameJobRuns.
Import GoLib models validation repository service job_service.

Lemma runNDJSON_sameJob {Raw Rec : Type}
  (validate : Validator -> Raw -> Z -> list validation.ValidationError)
  (remember : Validator -> Raw -> Validator) (convert : Raw -> Rec) (ctxDone : Z -> bool)
  (batchInsert : nat -> list Rec -> Z * error) (batchSize : Z)
  (file : NDJSONFile Raw) (j : Job) (st : Run Rec) :
  sameJob j st →
  sameJob j (snd (runNDJSON validate remember convert ctxDone batchInsert batchSize file st)).
Proof.
  intros Hst. unfold runNDJSON.
  pose proof (scanLoop_keeps validate remember convert ctxDone batchInsert batchSize (sameJob j)
                (fun st H => H) (sameJob_reject j)
                (sameJob_accept remember convert batchInsert batchSize j)
                (ndLines file) st Hst) as H.
  destruct (scanLoop _ _ _ _ _ _ _ _) as [[|err] st']; cbn [snd].
  - apply sameJob_finish, H.
  - destruct H as (_ & st0 & Hst0 & ->). exact Hst0.
Qed.

Lemma processUsersCSV_sameJob (ctxDone : Z -> bool)
  (batchInsert : nat -> list User -> Z * error) (batchSize : Z) (file : option CSVFile)
  (j : Job) (stored : list models.ValidationError) (driver : nat -> CopySession) :
  sameJob j (snd (processUsersCSV ctxDone batchInsert batchSize file j stored driver)).
Proof.
  unfold processUsersCSV.
  destruct file as [f|]; [|reflexivity].
  destruct (csvHeader f) as [header|]; [|reflexivity].
  pose proof (readLoop_keeps ctxDone batchInsert batchSize (sameJob j) (sameJob_reject j)
                (sameJob_accept rememberUser convertCSVToUser batchInsert batchSize j)
                (buildHeaderMap header) (csvRows f) (start j NewValidator 1 stored driver)
                eq_refl) as H.
  destruct (readLoop _ _ _ _ _ _) as [[|err] st']; cbn [snd].
  - apply sameJob_finish, H.
  - destruct H as (_ & st0 & Hst0 & ->). exact Hst0.
Qed.

Lemma ProcessImport_identity (w : World) (j : Job) (stored : list models.ValidationError) :
  identity (finalJob (ProcessImport w j stored)) = identity j.
Proof.
  unfold ProcessImport.
  destruct (String.eqb (Job_Resource j) "users").
  - unfold conclude. cbn [finalJob].
    pose proof (processUsersCSV_sameJob (ctxDone w) (User_BatchInsert w) (cfgBatchSize w)
                  (fileCSV w) (setStatus JobStatusProcessing j) stored (Job_AddErrors w)) as H.
    unfold sameJob in H. unfold identity in *. simpl in *. exact H.
  - destruct (String.eqb (Job_Resource j) "articles").
    + unfold conclude, processArticlesNDJSON. cbn [finalJob].
      destruct (fileArticles w) as [f|]; [|reflexivity].
      pose proof (runNDJSON_sameJob ValidateArticle rememberArticle convertNDJSONToArticle
                    (ctxDone w) (Article_BatchInsert w) (cfgBatchSize w) f
                    (setStatus JobStatusProcessing j)
                    (start (setStatus JobStatusProcessing j)
                       (preloadUserIDs NewValidator (User_GetAllIDs w)) 0 stored
                       (Job_AddErrors w)) eq_refl) as H.
      unfold sameJob in H. unfold identity in *. simpl in *. exact H.
    + destruct (String.eqb (Job_Resource j) "comments"); [|reflexivity].
      unfold conclude, processCommentsNDJSON. cbn [finalJob].
      destruct (fileComments w) as [f|]; [|reflexivity].
      pose proof (runNDJSON_sameJob ValidateComment rememberComment convertNDJSONToComment
                    (ctxDone w) (Comment_BatchInsert w) (cfgBatchSize w) f
                    (setStatus JobStatusProcessing j)
                    (start (setStatus JobStatusProcessing j)
                       (preloadArticleIDs (preloadUserIDs NewValidator (User_GetAllIDs w))
                          (Article_GetAllIDs w)) 0 stored (Job_AddErrors w)) eq_refl) as H.
      unfold sameJob in H. unfold identity in *. simpl in *. exact H.
Qed.

End SameJobRuns.

Section WorkerFacts.
Import GoLib models validation repository service job_service.

Lemma find_idMatches_In (table : list Job) (row : Job) :
  NoDup (map Job_ID table) → In row table →
  List.find (idMatches (Job_ID row)) table = Some row.
Proof.
  induction table as [|x table IH]; intros Hnd Hin; [destruct Hin|].
  inversion Hnd as [|? ? Hx Hnd']; subst. simpl. unfold idMatches at 1.
  destruct (String.eqb_spec (Job_ID x) (Job_ID row)) as [Heq|Hne].
  - destruct Hin as [->|Hin]; [reflexivity|].
    exfalso. apply Hx. rewrite Heq. apply list_elem_of_In, in_map, Hin.
  - destruct Hin as [->|Hin]; [congruence|]. apply IH; assumption.
Qed.

Lemma pending_listed (table : list Job) (job : Job) :
  In job (fst (jobRepo_GetPendingJobs None table)) →
  ∃ row, In row table ∧ isPending (Job_Status row) = true ∧ job = pendingView row.
Proof.
  unfold jobRepo_GetPendingJobs. cbn [fst]. intros Hin.
  apply in_map_iff in Hin. destruct Hin as (row & <- & Hrow).
  apply filter_In in Hrow. destruct Hrow as [Hrow Hp]. exists row. auto.
Qed.

Lemma claimed_row (table : list Job) (row : Job) :
  NoDup (map Job_ID table) → In row table → isPending (Job_Status row) = true →
  jobRepo_MarkJobAsProcessing table (Job_ID row)
  = (map (claimRow (Job_ID row)) table, true)
  ∧ List.find (idMatches (Job_ID row)) (map (claimRow (Job_ID row)) table)
    = Some (setStatus JobStatusProcessing row).
Proof.
  intros Hnd Hin Hp. unfold jobRepo_MarkJobAsProcessing. split.
  - f_equal. apply existsb_exists. exists row. split; [exact Hin|].
    unfold idMatches. rewrite String.eqb_refl, Hp. reflexivity.
  - rewrite find_map_same by (intros x; apply identity_idMatches, claimRow_identity).
    rewrite (find_idMatches_In table row Hnd Hin). simpl.
    unfold claimRow, idMatches. rewrite String.eqb_refl, Hp. reflexivity.
Qed.

Lemma not_listed (table : list Job) (id : string) :
  job_service.pendingIn table id = false →
  ∀ j', In j' (fst (jobRepo_GetPendingJobs None table)) → Job_ID j' ≠ id.
Proof.
  intros Hnp j' Hin Hid. apply pending_listed in Hin.
  destruct Hin as (row & Hrow & Hp & ->). simpl in Hid.
  assert (job_service.pendingIn table id = true); [|congruence].
  unfold job_service.pendingIn. apply existsb_exists. exists row. split; [exact Hrow|].
  unfold idMatches. rewrite Hid, String.eqb_refl, Hp. reflexivity.
Qed.

Lemma updateRow_hit (job row : Job) :
  Job_ID job = Job_ID row →
  Job_Status (updateRow job row) = Job_Status job
  ∧ counters (updateRow job row) = counters job
  ∧ identity (updateRow job row) = identity row.
Proof.
  intros Hid. unfold updateRow, idMatches. rewrite Hid, String.eqb_refl.
  repeat split; reflexivity.
Qed.

End WorkerFacts.

Lemma unprocessed_claim_stays_processing
  (ctxDone : bool) (importService : option (models.Job -> service.Outcome))
  (startErr finalErr : repository.error) (table : list models.Job) (job : models.Job) :
  NoDup (map models.Job_ID table) →
  In job (fst (repository.jobRepo_GetPendingJobs None table)) →
  ctxDone = true ∨ models.Job_Type job = models.JobTypeExport ∨ importService = None →
  statusIn (job_service.claimAndProcess None ctxDone importService startErr finalErr job table)
    (models.Job_ID job)
  = Some models.JobStatusProcessing
  ∧ ∀ j', In j' (fst (repository.jobRepo_GetPendingJobs None
                        (job_service.claimAndProcess None ctxDone importService
                           startErr finalErr job table))) →
          models.Job_ID j' ≠ models.Job_ID job.
Proof.
  intros Hnd Hin Hwhy.
  destruct (pending_listed table job Hin) as (row & Hrow & Hp & ->).
  change (models.Job_ID (repository.pendingView row)) with (models.Job_ID row).
  unfold job_service.claimAndProcess.
  change (models.Job_ID (repository.pendingView row)) with (models.Job_ID row).
  destruct (claimed_row table row Hnd Hrow Hp) as [-> Hfind].
  assert (Hsame : job_service.processJob ctxDone importService startErr finalErr
                    (repository.pendingView row)
                    (map (repository.claimRow (models.Job_ID row)) table)
                  = map (repository.claimRow (models.Job_ID row)) table).
  { unfold job_service.processJob. destruct Hwhy as [->|[Hexport| ->]]; [reflexivity| |].
    - rewrite Hexport. destruct ctxDone; reflexivity.
    - destruct ctxDone; [reflexivity|]. destruct (models.Job_Type _); reflexivity. }
  rewrite Hsame. split.
  - unfold statusIn. rewrite Hfind. reflexivity.
  - apply not_listed. rewrite pendingIn_claimed, String.eqb_refl. apply andb_false_r.
Qed.

Lemma processed_job_reaches_terminal_status
  (w : service.World) (stored : list models.ValidationError) (startErr : repository.error)
  (table : list models.Job) (job : models.Job) :
  NoDup (map models.Job_ID table) →
  In job (fst (repository.jobRepo_GetPendingJobs None table)) →
  models.Job_Type job = models.JobTypeImport →
  ∃ row row',
    List.find (repository.idMatches (models.Job_ID job)) table = Some row
    ∧ List.find (repository.idMatches (models.Job_ID job))
        (job_service.claimAndProcess None false
           (Some (fun j => service.ProcessImport w j stored)) startErr None job table)
      = Some row'
    ∧ identity row' = identity row
    ∧ service.terminal row' = true
    ∧ models.Job_Status row'
      = models.Job_Status (service.finalJob (service.ProcessImport w job stored))
    ∧ counters row' = counters (service.finalJob (service.ProcessImport w job stored)).
Proof.
  intros Hnd Hin Himport.
  destruct (pending_listed table job Hin) as (row & Hrow & Hp & Hjob).
  assert (Hid : models.Job_ID job = models.Job_ID row) by (rewrite Hjob; reflexivity).
  unfold job_service.claimAndProcess. rewrite Hid.
  destruct (claimed_row table row Hnd Hrow Hp) as [-> Hfind].
  unfold job_service.processJob. rewrite Himport.
  unfold job_service.ProcessImport_updates.
  exists row.
  set (final := service.finalJob (service.ProcessImport w job stored)).
  assert (Hstart : ∃ row1,
            List.find (repository.idMatches (models.Job_ID row))
              (fst (repository.jobRepo_Update startErr
                      (map (repository.claimRow (models.Job_ID row)) table)
                      (repository.setStatus models.JobStatusProcessing job))) = Some row1
            ∧ identity row1 = identity row).
  { destruct startErr as [e|]; cbn [repository.jobRepo_Update fst].
    - eexists. split; [exact Hfind|reflexivity].
    - rewrite find_map_same by (intros x; apply identity_idMatches, updateRow_identity).
      rewrite Hfind. cbn [option_map]. eexists. split; [reflexivity|].
      rewrite updateRow_identity. reflexivity. }
  destruct Hstart as (row1 & Hfind1 & Hrow1).
  cbn [repository.jobRepo_Update fst].
  rewrite find_map_same by (intros x; apply identity_idMatches, updateRow_identity).
  rewrite Hfind1. cbn [option_map]. eexists.
  split; [apply find_idMatches_In; assumption|]. split; [reflexivity|].
  assert (Hfinal : models.Job_ID final = models.Job_ID row1).
  { pose proof (ProcessImport_identity w job stored) as Hf. fold final in Hf.
    unfold identity in Hf, Hrow1. inversion Hf. inversion Hrow1. congruence. }
  destruct (updateRow_hit final row1 Hfinal) as (Hstatus & Hcounters & Hident).
  split; [congruence|]. split; [|split; assumption].
  unfold service.terminal. rewrite Hstatus.
  exact (ProcessImport_terminal w job stored).
Qed.

Lemma lost_final_update_leaves_processing
  (importService : option (models.Job -> service.Outcome))
  (startErr : repository.error) (e : string) (table : list models.Job) (job : models.Job) :
  NoDup (map models.Job_ID table) →
  In job (fst (repository.jobRepo_GetPendingJobs None table)) →
  statusIn (job_service.claimAndProcess None false importService startErr (Some e) job table)
    (models.Job_ID job)
  = Some models.JobStatusProcessing.
Proof.
  intros Hnd Hin.
  destruct (pending_listed table job Hin) as (row & Hrow & Hp & ->).
  unfold job_service.claimAndProcess.
  change (models.Job_ID (repository.pendingView row)) with (models.Job_ID row).
  destruct (claimed_row table row Hnd Hrow Hp) as [-> Hfind].
  unfold statusIn, job_service.processJob.
  assert (Hstart : ∀ process,
            option_map models.Job_Status
              (List.find (repository.idMatches (models.Job_ID row))
                 (job_service.ProcessImport_updates startErr (Some e) process
                    (repository.pendingView row)
                    (map (repository.claimRow (models.Job_ID row)) table)))
            = Some models.JobStatusProcessing).
  { intros process. unfold job_service.ProcessImport_updates.
    cbn [repository.jobRepo_Update fst].
    destruct startErr as [e'|]; cbn [repository.jobRepo_Update fst].
    - rewrite Hfind. reflexivity.
    - rewrite find_map_same by (intros x; apply identity_idMatches, updateRow_identity).
      rewrite Hfind. cbn [option_map]. f_equal.
      apply updateRow_hit. reflexivity. }
  destruct (models.Job_Type (repository.pendingView row));
    [destruct importService as [process|]|];
    [apply Hstart|rewrite Hfind; reflexivity|rewrite Hfind; reflexivity].
Qed.

(** X21. A pending job that the worker claims is not left
    pending. If the context is done, the job is an export, or there is no
    import service, its row stays in status processing and is not listed as
    pending again. If it is an import that [ProcessImport] runs and the
    final [Update] reaches the database, its row ends completed or failed
    with the status and counters of the run, and with its id, type,
    resource, key and file path unchanged. If the final [Update] fails,
    which [ProcessImport] does not notice, the row stays in status
    processing. *)
Theorem claimed_job_ends_terminal_or_stays_processing
  (ctxDone : bool) (importService : option (models.Job -> service.Outcome))
  (startErr finalErr : repository.error)
  (w : service.World) (stored : list models.ValidationError)
  (table : list models.Job) (job : models.Job) :
  NoDup (map models.Job_ID table) →
  In job (fst (repository.jobRepo_GetPendingJobs None table)) →
  (ctxDone = true ∨ models.Job_Type job = models.JobTypeExport ∨ importService = None →
   statusIn (job_service.claimAndProcess None ctxDone importService startErr finalErr
               job table) (models.Job_ID job)
   = Some models.JobStatusProcessing
   ∧ ∀ j', In j' (fst (repository.jobRepo_GetPendingJobs None
                         (job_service.claimAndProcess None ctxDone importService
                            startErr finalErr job table))) →
           models.Job_ID j' ≠ models.Job_ID job)
  ∧ (models.Job_Type job = models.JobTypeImport →
     ∃ row row',
       List.find (repository.idMatches (models.Job_ID job)) table = Some row
       ∧ List.find (repository.idMatches (models.Job_ID job))
           (job_service.claimAndProcess None false
              (Some (fun j => service.ProcessImport w j stored)) startErr None job table)
         = Some row'
       ∧ identity row' = identity row
       ∧ service.terminal row' = true
       ∧ models.Job_Status row'
         = models.Job_Status (service.finalJob (service.ProcessImport w job stored))
       ∧ counters row' = counters (service.finalJob (service.ProcessImport w job stored)))
  ∧ (∀ e, statusIn (job_service.claimAndProcess None false importService startErr (Some e)
                      job table) (models.Job_ID job)
          = Some models.JobStatusProcessing).
Proof.
  intros Hnd Hin. split; [|split].
  - apply unprocessed_claim_stays_processing; assumption.
  - apply processed_job_reaches_terminal_status; assumption.
  - intros e. apply lost_final_update_leaves_processing; assumption.
Qed.

Lemma claimed_job_ends_terminal_or_stays_processing_witness :
  (true = true ∨ models.Job_Type (repository.pendingView samples.usersJob)
                 = models.JobTypeExport
   ∨ @None (models.Job -> service.Outcome) = None →
   statusIn (job_service.claimAndProcess None true None None None
               (repository.pendingView samples.usersJob) samples.raceTable)
     (models.Job_ID (repository.pendingView samples.usersJob))
   = Some models.JobStatusProcessing
   ∧ ∀ j', In j' (fst (repository.jobRepo_GetPendingJobs None
                         (job_service.claimAndProcess None true None None None
                            (repository.pendingView samples.usersJob) samples.raceTable))) →
           models.Job_ID j' ≠ models.Job_ID (repository.pendingView samples.usersJob))
  ∧ (models.Job_Type (repository.pendingView samples.usersJob) = models.JobTypeImport →
     ∃ row row',
       List.find (repository.idMatches
                    (models.Job_ID (repository.pendingView samples.usersJob)))
         samples.raceTable = Some row
       ∧ List.find (repository.idMatches
                      (models.Job_ID (repository.pendingView samples.usersJob)))
           (job_service.claimAndProcess None false
              (Some (fun j => service.ProcessImport samples.duplicateEmail j []))
              None None (repository.pendingView samples.usersJob) samples.raceTable)
         = Some row'
       ∧ identity row' = identity row
       ∧ service.terminal row' = true
       ∧ models.Job_Status row'
         = models.Job_Status
             (service.finalJob
                (service.ProcessImport samples.duplicateEmail
                   (repository.pendingView samples.usersJob) []))
       ∧ counters row'
         = counters
             (service.finalJob
                (service.ProcessImport samples.duplicateEmail
                   (repository.pendingView samples.usersJob) [])))
  ∧ (∀ e, statusIn (job_service.claimAndProcess None false None None (Some e)
                      (repository.pendingView samples.usersJob) samples.raceTable)
            (models.Job_ID (repository.pendingView samples.usersJob))
          = Some models.JobStatusProcessing).
Proof.
  apply (claimed_job_ends_terminal_or_stays_processing true None None None
           samples.duplicateEmail [] samples.raceTable
           (repository.pendingView samples.usersJob)).
  - repeat constructor. simpl. intros H. apply elem_of_nil in H. exact H.
  - left. reflexivity.
Defined.

Section PrimaryKeyFacts.
Import GoLib models repository service job_service api.

Lemma existsb_idMatches_false (id : string) (table : list Job) :
  existsb (idMatches id) table = false → ¬ In id (map Job_ID table).
Proof.
  intros Hno Hin. apply in_map_iff in Hin. destruct Hin as (row & Hid & Hrow).
  assert (existsb (idMatches id) table = true); [|congruence].
  apply existsb_exists. exists row. split; [exact Hrow|].
  unfold idMatches. rewrite Hid. apply String.eqb_refl.
Qed.

Lemma jobRepo_Create_ids (execErr : error) (table : list Job) (job : Job) :
  NoDup (map Job_ID table) → NoDup (map Job_ID (fst (jobRepo_Create execErr table job))).
Proof.
  intros Hnd. unfold jobRepo_Create. destruct execErr as [e|]; [exact Hnd|].
  destruct (existsb (idMatches (Job_ID job)) table) eqn:Hid; [exact Hnd|].
  destruct (existsb (keyMatches (Job_IdempotencyKey job)) table); [exact Hnd|].
  cbn [fst]. rewrite map_app. apply NoDup_app. split; [exact Hnd|]. split.
  - intros id Hin Hin'. apply list_elem_of_In in Hin. cbn in Hin'.
    apply list_elem_of_singleton in Hin'. subst id.
    exact (existsb_idMatches_false _ _ Hid Hin).
  - apply NoDup_singleton.
Qed.

Lemma CreateImport_table (cfg : Config) (host : Host) (req : Request) (srv : Server) :
  jobs (snd (CreateImport cfg host req srv)) = jobs srv
  ∨ ∃ job, jobs (snd (CreateImport cfg host req srv))
           = fst (jobRepo_Create (insertErr host) (jobs srv) job).
Proof.
  unfold CreateImport.
  destruct (existingJobFor host srv (idempotencyKeyHeader req)); [left; reflexivity|].
  unfold stageAndCreate.
  repeat match goal with
         | |- context [if ?c then _ else _] => destruct c; try (left; reflexivity)
         | |- context [match formFile req with _ => _ end] =>
             destruct (formFile req); try (left; reflexivity)
         end.
  all: unfold CreateImportJob.
  all: match goal with
       | |- context [jobRepo_Create ?x ?t ?j] =>
           right; exists j; destruct (jobRepo_Create x t j) as [t' [e|]]; reflexivity
       end.
Qed.

Lemma identity_ids (f : Job -> Job) (table : list Job) :
  (∀ row, identity (f row) = identity row) → map Job_ID (map f table) = map Job_ID table.
Proof.
  intros Hf. rewrite map_map. apply map_ext. intros row.
  specialize (Hf row). unfold identity in Hf. inversion Hf. reflexivity.
Qed.

Lemma execute_all_ids (statements : list Statement) :
  ∀ table, map Job_ID (fold_left execute statements table) = map Job_ID table.
Proof.
  induction statements as [|s statements IH]; intros table; [reflexivity|].
  simpl. rewrite IH. destruct (execute_as_map table s) as (f & Hf & ->).
  apply identity_ids, Hf.
Qed.

Lemma execute_all_keys (statements : list Statement) :
  ∀ table, map Job_IdempotencyKey (fold_left execute statements table)
           = map Job_IdempotencyKey table.
Proof.
  induction statements as [|s statements IH]; intros table; [reflexivity|].
  simpl. rewrite IH. destruct (execute_as_map table s) as (f & Hf & ->).
  rewrite map_map. apply map_ext. intros row.
  specialize (Hf row). unfold identity in Hf. inversion Hf. reflexivity.
Qed.

End PrimaryKeyFacts.

(** X22. The ids of the jobs table stay pairwise distinct under
    [CreateImport] and under any sequence of [Update] and
    [MarkJobAsProcessing] statements, failed or not, and such statements
    also keep the non-empty idempotency keys pairwise distinct. *)
Theorem job_ids_stay_unique
  (cfg : api.Config) (host : api.Host) (req : api.Request) (srv : api.Server)
  (statements : list job_service.Statement) :
  NoDup (map models.Job_ID (api.jobs srv)) →
  NoDup (map models.Job_ID (api.jobs (snd (api.CreateImport cfg host req srv))))
  ∧ NoDup (map models.Job_ID (fold_left job_service.execute statements (api.jobs srv)))
  ∧ (uniqueKeys (api.jobs srv) →
     uniqueKeys (fold_left job_service.execute statements (api.jobs srv))).
Proof.
  intros Hnd. split; [|split].
  - destruct (CreateImport_table cfg host req srv) as [->|[job ->]]; [exact Hnd|].
    apply jobRepo_Create_ids, Hnd.
  - rewrite execute_all_ids. exact Hnd.
  - unfold uniqueKeys. rewrite execute_all_keys. exact id.
Qed.

Lemma job_ids_stay_unique_witness :
  NoDup (map models.Job_ID
           (api.jobs (snd (api.CreateImport samples.apiConfig
                             (samples.calmHost "bbbbbbbb" "job-2")
                             (samples.csvUpload "users.csv" "id,email")
                             samples.keyedServer))))
  ∧ NoDup (map models.Job_ID
             (fold_left job_service.execute samples.processed (api.jobs samples.keyedServer)))
  ∧ (uniqueKeys (api.jobs samples.keyedServer) →
     uniqueKeys (fold_left job_service.execute samples.processed
                   (api.jobs samples.keyedServer))).
Proof.
  apply (job_ids_stay_unique samples.apiConfig (samples.calmHost "bbbbbbbb" "job-2")
           (samples.csvUpload "users.csv" "id,email") samples.keyedServer samples.processed).
  repeat constructor. simpl. intros H. apply elem_of_nil in H. exact H.
Defined.

(** X23. An import request answered with an existing job changes
    nothing. A refused one is answered with status 400, 501 or 500 and
    creates no job; unless the status is 500 it stages no file either. *)
Theorem refused_import_changes_nothing
  (cfg : api.Config) (host : api.Host) (req : api.Request) (srv : api.Server) :
  match fst (api.CreateImport cfg host req srv) with
  | api.Existing j => snd (api.CreateImport cfg host req srv) = srv
  | api.Failure code _ =>
      (code = 400 ∨ code = 501 ∨ code = 500)
      ∧ api.jobs (snd (api.CreateImport cfg host req srv)) = api.jobs srv
      ∧ (code ≠ 500 → snd (api.CreateImport cfg host req srv) = srv)
  | api.Accepted _ _ _ => True
  end.
Proof.
  unfold api.CreateImport.
  destruct (api.existingJobFor host srv (api.idempotencyKeyHeader req)); [reflexivity|].
  unfold api.stageAndCreate.
  repeat match goal with
         | |- context [if ?c then _ else _] =>
             destruct c; try (cbn; intuition (auto; congruence))
         | |- context [match api.formFile req with _ => _ end] =>
             destruct (api.formFile req); try (cbn; intuition (auto; congruence))
         end.
  all: unfold service.CreateImportJob, repository.jobRepo_Create.
  all: destruct (api.insertErr host); try (cbn; intuition (auto; congruence)).
  all: repeat match goal with
         | |- context [if ?c then _ else _] =>
             destruct c; try (cbn; intuition (auto; congruence))
         end.
Qed.

(** The staged path under the default upload directory, and the cleaning
    that [filepath.Join] does on other directories. *)
Example filepath_Join_cleans :
  api.filepath_Join "./data/uploads" "users_aaaaaaaa.csv" = "data/uploads/users_aaaaaaaa.csv"
  ∧ api.filepath_Join "/var//uploads/" "users_aaaaaaaa.csv" = "/var/uploads/users_aaaaaaaa.csv"
  ∧ api.filepath_Join "data/../../up" "a.csv" = "../up/a.csv"
  ∧ api.filepath_Join "/.." "a.csv" = "/a.csv"
  ∧ api.filepath_Join "" "a.csv" = "a.csv"
  ∧ api.filepath_Clean "" = "."
  ∧ api.filepath_Clean "a/.." = "."
  ∧ api.filepath_Clean "/" = "/".
Proof. vm_compute. repeat split; reflexivity. Qed.

(** X24. An accepted import request carried a file within the
    upload limit whose lower-case extension fits the resource (.csv for
    users, .ndjson or .json for articles and comments). It adds exactly one
    pending import job with zero counters, the key of the request and the
    path of the staged file, and stages exactly the uploaded content under
    the upload directory, named after the resource, the tag and the
    extension. *)
Theorem accepted_import_stages_file_and_job
  (cfg : api.Config) (host : api.Host) (req : api.Request) (srv : api.Server)
  (id : string) (status : models.JobStatus) (resource : string) :
  fst (api.CreateImport cfg host req srv) = api.Accepted id status resource →
  ∃ header ext path,
    api.formFile req = Some header
    ∧ api.Size header ≤ api.MaxUploadSize cfg
    ∧ ext = GoLib.strings_ToLower (api.filepath_Ext (api.Filename header))
    ∧ ((resource = "users" ∧ ext = ".csv")
       ∨ ((resource = "articles" ∨ resource = "comments")
          ∧ (ext = ".ndjson" ∨ ext = ".json")))
    ∧ path = api.filepath_Join (api.UploadDir cfg) (resource +:+ "_" +:+ api.fileTag host +:+ ext)
    ∧ id = api.newJobID host
    ∧ status = models.JobStatusPending
    ∧ api.jobs (snd (api.CreateImport cfg host req srv))
      = api.jobs srv
        ++ [models.mkJob id models.JobTypeImport resource models.JobStatusPending
              (api.idempotencyKeyHeader req) 0 0 0 0 path]
    ∧ api.uploads (snd (api.CreateImport cfg host req srv))
      = api.uploads srv ++ [(path, api.content header)].
Proof.
  unfold api.CreateImport.
  destruct (api.existingJobFor host srv (api.idempotencyKeyHeader req)); [discriminate|].
  unfold api.stageAndCreate.
  set (res := if String.eqb (api.postFormResource req) "" then api.queryResource req
              else api.postFormResource req).
  destruct (String.eqb res ""); [discriminate|].
  destruct (negb (api.isResource res)) eqn:Hres; [discriminate|].
  destruct (api.formFile req) as [header|]; [|destruct (api.bindsJSON req); discriminate].
  destruct (api.MaxUploadSize cfg <? api.Size header) eqn:Hsize; [discriminate|].
  apply Z.ltb_ge in Hsize.
  set (ext := GoLib.strings_ToLower (api.filepath_Ext (api.Filename header))).
  destruct (String.eqb_spec res "users") as [Hu|Hu].
  - destruct (String.eqb_spec ext ".csv") as [Hcsv|Hcsv]; [|discriminate].
    cbn [negb andb].
    destruct (String.eqb_spec res "articles") as [Ha|Ha]; [congruence|].
    destruct (String.eqb_spec res "comments") as [Hc|Hc]; [congruence|].
    cbn [orb andb].
    destruct (api.mkdirFails host); [discriminate|].
    destruct (api.createFails host); [discriminate|].
    destruct (api.copyFails host); [discriminate|].
    unfold service.CreateImportJob, repository.jobRepo_Create.
    cbn [models.Job_ID models.Job_IdempotencyKey models.ImportRequest_Resource
         models.ImportRequest_IdempotencyKey].
    destruct (api.insertErr host); [discriminate|].
    destruct (existsb _ _); [discriminate|].
    destruct (existsb _ _); [discriminate|].
    cbn. intros H. inversion H; subst id status resource.
    exists header, ext, (api.filepath_Join (api.UploadDir cfg)
                           (res +:+ "_" +:+ api.fileTag host +:+ ext)).
    repeat split; auto.
  - cbn [andb].
    apply negb_false_iff in Hres. unfold api.isResource in Hres.
    replace (String.eqb res "users") with false in Hres
      by (symmetry; apply String.eqb_neq; exact Hu).
    cbn [orb] in Hres. rewrite Hres. cbn [andb].
    destruct (String.eqb_spec ext ".ndjson") as [Hnd|Hnd];
      destruct (String.eqb_spec ext ".json") as [Hjs|Hjs]; cbn [negb andb];
      try discriminate.
    all: destruct (api.mkdirFails host); [discriminate|].
    all: destruct (api.createFails host); [discriminate|].
    all: destruct (api.copyFails host); [discriminate|].
    all: unfold service.CreateImportJob, repository.jobRepo_Create.
    all: cbn [models.Job_ID models.Job_IdempotencyKey models.ImportRequest_Resource
              models.ImportRequest_IdempotencyKey].
    all: destruct (api.insertErr host); [discriminate|].
    all: destruct (existsb _ _); [discriminate|].
    all: destruct (existsb _ _); [discriminate|].
    all: cbn; intros H; inversion H; subst id status resource.
    all: exists header, ext, (api.filepath_Join (api.UploadDir cfg)
                                (res +:+ "_" +:+ api.fileTag host +:+ ext)).
    all: apply orb_prop in Hres.
    all: repeat split; auto.
    all: right; split; [destruct Hres as [Hr|Hr]; apply String.eqb_eq in Hr; auto|auto].
Qed.

Lemma accepted_import_stages_file_and_job_witness :
  ∃ header ext path,
    api.formFile (samples.csvUpload "Users.CSV" "id,email") = Some header
    ∧ api.Size header ≤ api.MaxUploadSize samples.apiConfig
    ∧ ext = GoLib.strings_ToLower (api.filepath_Ext (api.Filename header))
    ∧ (("users" = "users" ∧ ext = ".csv")
       ∨ (("users" = "articles" ∨ "users" = "comments")
          ∧ (ext = ".ndjson" ∨ ext = ".json")))
    ∧ path = api.filepath_Join (api.UploadDir samples.apiConfig)
               ("users" +:+ "_" +:+ api.fileTag (samples.calmHost "aaaaaaaa" "job-1") +:+ ext)
    ∧ "job-1" = api.newJobID (samples.calmHost "aaaaaaaa" "job-1")
    ∧ models.JobStatusPending = models.JobStatusPending
    ∧ api.jobs (snd (api.CreateImport samples.apiConfig (samples.calmHost "aaaaaaaa" "job-1")
                       (samples.csvUpload "Users.CSV" "id,email") api.fresh))
      = api.jobs api.fresh
        ++ [models.mkJob "job-1" models.JobTypeImport "users" models.JobStatusPending
              (api.idempotencyKeyHeader (samples.csvUpload "Users.CSV" "id,email"))
              0 0 0 0 path]
    ∧ api.uploads (snd (api.CreateImport samples.apiConfig
                          (samples.calmHost "aaaaaaaa" "job-1")
                          (samples.csvUpload "Users.CSV" "id,email") api.fresh))
      = api.uploads api.fresh ++ [(path, api.content header)].
Proof.
  apply (accepted_import_stages_file_and_job samples.apiConfig
           (samples.calmHost "aaaaaaaa" "job-1") (samples.csvUpload "Users.CSV" "id,email")
           api.fresh "job-1" models.JobStatusPending "users").
  vm_compute. reflexivity.
Defined.

Section StreamFacts.
Import GoLib models repository service export export_service api.
Context {A : Type}.

Lemma append_cons (x : ascii) (a b : string) : String x a +:+ b = String x (a +:+ b).
Proof. reflexivity. Qed.

Lemma append_assoc (a b c : string) : (a +:+ b) +:+ c = a +:+ (b +:+ c).
Proof.
  induction a as [|x a IH]; [reflexivity|]. rewrite !append_cons, IH. reflexivity.
Qed.

Lemma append_nil_r (a : string) : a +:+ "" = a.
Proof. induction a as [|x a IH]; [reflexivity|]. rewrite append_cons, IH. reflexivity. Qed.

Lemma encodings_cons (r : Exported A) (rows : list (Exported A)) (data : string) :
  encoded r = inl data → encodings (r :: rows) = data :: encodings rows.
Proof. intros Hr. unfold encodings. cbn [omap list_omap]. rewrite Hr. reflexivity. Qed.

(** A JSON stream over rows that encode, from a state in which [first] is
    false: each row adds a comma and its encoding. *)
Lemma jsonCallback_rest (ok : list (Exported A)) (finalErr : error) :
  allEncode ok →
  ∀ written rest,
    streamAll (ok ++ rest) finalErr jsonCallback (written, false)
    = streamAll rest finalErr jsonCallback
        (written +:+ String.concat "" (map (fun d => "," +:+ d) (encodings ok)), false).
Proof.
  induction 1 as [|r ok [data Hr] _ IH]; intros written rest.
  - cbn [app encodings omap list_omap map String.concat].
    rewrite append_nil_r. reflexivity.
  - cbn [app streamAll]. unfold jsonCallback at 1. rewrite Hr. cbn [fst snd]. rewrite IH.
    rewrite (encodings_cons r ok data Hr). cbn [map].
    f_equal. f_equal.
    destruct (map (λ d : string, "," +:+ d) (encodings ok)) eqn:E;
      cbn [String.concat]; rewrite ?append_nil_r, ?append_assoc; reflexivity.
Qed.

(** An NDJSON stream over rows that encode: each row adds its encoding and
    a newline, and is counted. *)
Lemma ndjsonCallback_rest (ok : list (Exported A)) (finalErr : error) :
  allEncode ok →
  ∀ written count rest,
    streamAll (ok ++ rest) finalErr ndjsonCallback (written, count)
    = streamAll rest finalErr ndjsonCallback
        (written +:+ String.concat "" (map (fun d => d +:+ newline) (encodings ok)),
         count + slen ok).
Proof.
  induction 1 as [|r ok [data Hr] _ IH]; intros written count rest.
  - cbn [app encodings omap list_omap map String.concat].
    rewrite append_nil_r. unfold slen. simpl. rewrite Z.add_0_r. reflexivity.
  - cbn [app streamAll]. unfold ndjsonCallback at 1. rewrite Hr. cbn [fst snd]. rewrite IH.
    rewrite (encodings_cons r ok data Hr). cbn [map].
    f_equal. f_equal.
    + destruct (map (λ d : string, d +:+ newline) (encodings ok)) eqn:E;
        cbn [String.concat]; rewrite ?append_nil_r, ?append_assoc; reflexivity.
    + unfold slen. simpl length. lia.
Qed.

Lemma concat_commas (ds : list string) (d : string) :
  d +:+ String.concat "" (map (fun x => "," +:+ x) ds) = String.concat "," (d :: ds).
Proof.
  revert d. induction ds as [|x ds IH]; intros d.
  - cbn [map String.concat]. apply append_nil_r.
  - cbn [map]. change (String.concat "," (d :: x :: ds))
      with (d +:+ "," +:+ String.concat "," (x :: ds)).
    rewrite <- IH. f_equal.
    destruct (map (λ x0 : string, "," +:+ x0) ds) eqn:E;
      cbn [String.concat]; rewrite ?append_nil_r, ?append_assoc; reflexivity.
Qed.

End StreamFacts.

Lemma streamJSON_cases
  {A : Type} (name : string) (ok rest : list (export_service.Exported A)) (finalErr : repository.error) :
  allEncode ok →
  (rest = [] →
   export_service.streamJSON name (export_service.mkCursor ok finalErr)
   = ({| export_service.contentType := "application/json";
         export_service.disposition := "attachment; filename=" +:+ name +:+ ".json";
         export_service.body := export_service.Text ("[" +:+ String.concat "," (encodings ok) +:+ "]") |},
      finalErr))
  ∧ (∀ bad e,
       export_service.encoded bad = inr e →
       export_service.streamJSON name (export_service.mkCursor (ok ++ bad :: rest) finalErr)
       = ({| export_service.contentType := "application/json";
             export_service.disposition := "attachment; filename=" +:+ name +:+ ".json";
             export_service.body :=
               export_service.Text ("[" +:+ String.concat "," (encodings ok)
                             +:+ (match ok with [] => "" | _ :: _ => "," end) +:+ "]") |},
          Some e)).
Proof.
  intros Hok. unfold export_service.streamJSON, export_service.StreamAll.
  cbn [export_service.delivered export_service.cursorErr].
  destruct Hok as [|r ok [data Hr] Hok].
  - split.
    + intros ->. reflexivity.
    + intros bad e Hbad. cbn [app export_service.streamAll]. unfold export_service.jsonCallback.
      rewrite Hbad. reflexivity.
  - assert (Hhead : ∀ rest',
              export_service.streamAll ((r :: ok) ++ rest') finalErr export_service.jsonCallback ("[", true)
              = export_service.streamAll rest' finalErr export_service.jsonCallback
                  ("[" +:+ String.concat "," (encodings (r :: ok)), false)).
    { intros rest'. cbn [app export_service.streamAll]. unfold export_service.jsonCallback at 1.
      rewrite Hr. cbn [fst snd]. rewrite (jsonCallback_rest ok finalErr Hok).
      rewrite (encodings_cons r ok data Hr), append_assoc, concat_commas. reflexivity. }
    split.
    + intros ->. rewrite <- (app_nil_r (r :: ok)) at 1. rewrite Hhead. reflexivity.
    + intros bad e Hbad. rewrite Hhead. cbn [export_service.streamAll].
      unfold export_service.jsonCallback. rewrite Hbad. cbn [fst snd].
      rewrite <- !append_assoc. reflexivity.
Qed.

Lemma streamNDJSON_cases
  {A : Type} (name : string) (ok rest : list (export_service.Exported A)) (finalErr : repository.error) :
  allEncode ok →
  (rest = [] →
   export_service.streamNDJSON name (export_service.mkCursor ok finalErr)
   = ({| export_service.contentType := "application/x-ndjson";
         export_service.disposition := "attachment; filename=" +:+ name +:+ ".ndjson";
         export_service.body :=
           export_service.Text (String.concat "" (map (fun d => d +:+ export.newline) (encodings ok))) |},
      finalErr))
  ∧ (∀ bad e,
       export_service.encoded bad = inr e →
       export_service.streamNDJSON name (export_service.mkCursor (ok ++ bad :: rest) finalErr)
       = ({| export_service.contentType := "application/x-ndjson";
             export_service.disposition := "attachment; filename=" +:+ name +:+ ".ndjson";
             export_service.body :=
               export_service.Text (String.concat ""
                               (map (fun d => d +:+ export.newline) (encodings ok))) |},
          Some e)).
Proof.
  intros Hok. unfold export_service.streamNDJSON, export_service.StreamAll.
  cbn [export_service.delivered export_service.cursorErr]. split.
  - intros ->. rewrite <- (app_nil_r ok) at 1.
    rewrite (ndjsonCallback_rest ok finalErr Hok). reflexivity.
  - intros bad e Hbad. rewrite (ndjsonCallback_rest ok finalErr Hok).
    cbn [export_service.streamAll]. unfold export_service.ndjsonCallback. rewrite Hbad. reflexivity.
Qed.

Section ExportHandlerFacts.
Import GoLib models repository service export export_service api.

Lemma streamNDJSON_sound {A : Type} (name : string) (cur : Cursor A) :
  sound cur → snd (streamNDJSON name cur) = None.
Proof.
  intros [Herr Hall]. destruct cur as [rows err]. simpl in *. subst err.
  destruct (streamNDJSON_cases name rows [] None Hall) as [H _].
  rewrite (H eq_refl). reflexivity.
Qed.

Lemma streamJSON_sound {A : Type} (name : string) (cur : Cursor A) :
  sound cur → snd (streamJSON name cur) = None.
Proof.
  intros [Herr Hall]. destruct cur as [rows err]. simpl in *. subst err.
  destruct (streamJSON_cases name rows [] None Hall) as [H _].
  rewrite (H eq_refl). reflexivity.
Qed.

Lemma csvCallback_all (format : Time -> string) (writeErr : nat -> error)
  (rows : list (Exported User)) (err : error) :
  (∀ n, writeErr n = None) →
  ∀ s, streamAll rows err (csvCallback format writeErr) s
       = ((s ++ map (csvRecord format) rows)%list, err).
Proof.
  intros Hw. induction rows as [|r rows IH]; intros s; simpl.
  - rewrite app_nil_r. reflexivity.
  - unfold csvCallback at 1. rewrite Hw, IH, <- app_assoc. reflexivity.
Qed.

End ExportHandlerFacts.

(** X25. A JSON export whose rows all encode writes the array of
    their encodings, separated by commas, and returns what the query
    returned. When a row fails to encode, the rows before it have been
    written (with a comma left dangling if there is any), the array is
    closed, and the row's error is returned; the rows after it are not
    written. *)
Theorem json_export_is_an_array_until_a_row_fails {A : Type} (name : string)
  (ok rest : list (export_service.Exported A)) (finalErr : repository.error) :
  allEncode ok →
  (rest = [] →
   export_service.streamJSON name (export_service.mkCursor ok finalErr)
   = ({| export_service.contentType := "application/json";
         export_service.disposition := "attachment; filename=" +:+ name +:+ ".json";
         export_service.body := export_service.Text ("[" +:+ String.concat "," (encodings ok) +:+ "]") |},
      finalErr))
  ∧ (∀ bad e,
       export_service.encoded bad = inr e →
       export_service.streamJSON name (export_service.mkCursor (ok ++ bad :: rest) finalErr)
       = ({| export_service.contentType := "application/json";
             export_service.disposition := "attachment; filename=" +:+ name +:+ ".json";
             export_service.body :=
               export_service.Text ("[" +:+ String.concat "," (encodings ok)
                     +:+ (match ok with [] => "" | _ :: _ => "," end) +:+ "]") |},
          Some e)).
Proof. apply streamJSON_cases. Qed.

Lemma allEncode_exportedAlice : allEncode [samples.exportedAlice].
Proof. repeat constructor. eexists. reflexivity. Qed.

Lemma json_export_is_an_array_until_a_row_fails_witness :
  export_service.streamJSON "users"
    (export_service.mkCursor ([samples.exportedAlice] ++ samples.unencodable :: []) None)
  = ({| export_service.contentType := "application/json";
        export_service.disposition := "attachment; filename=" +:+ "users" +:+ ".json";
        export_service.body :=
          export_service.Text ("[" +:+ String.concat "," (encodings [samples.exportedAlice])
                        +:+ "," +:+ "]") |},
     Some "json: error calling MarshalJSON for type time.Time").
Proof.
  apply (proj2 (json_export_is_an_array_until_a_row_fails "users" [samples.exportedAlice] []
                  None allEncode_exportedAlice)).
  reflexivity.
Defined.

(** X26. An NDJSON export writes the encoding of each row followed
    by a newline, in the order of the query, and returns what the query
    returned. When a row fails to encode, exactly the rows before it have
    been written and the row's error is returned. *)
Theorem ndjson_export_writes_one_line_per_row {A : Type} (name : string)
  (ok rest : list (export_service.Exported A)) (finalErr : repository.error) :
  allEncode ok →
  (rest = [] →
   export_service.streamNDJSON name (export_service.mkCursor ok finalErr)
   = ({| export_service.contentType := "application/x-ndjson";
         export_service.disposition := "attachment; filename=" +:+ name +:+ ".ndjson";
         export_service.body := export_service.Text (String.concat "" (map (fun d => d +:+ export.newline) (encodings ok))) |},
      finalErr))
  ∧ (∀ bad e,
       export_service.encoded bad = inr e →
       export_service.streamNDJSON name (export_service.mkCursor (ok ++ bad :: rest) finalErr)
       = ({| export_service.contentType := "application/x-ndjson";
             export_service.disposition := "attachment; filename=" +:+ name +:+ ".ndjson";
             export_service.body := export_service.Text (String.concat "" (map (fun d => d +:+ export.newline) (encodings ok))) |},
          Some e)).
Proof. apply streamNDJSON_cases. Qed.

Lemma ndjson_export_writes_one_line_per_row_witness :
  export_service.streamNDJSON "users" (export_service.mkCursor [samples.exportedAlice] None)
  = ({| export_service.contentType := "application/x-ndjson";
        export_service.disposition := "attachment; filename=" +:+ "users" +:+ ".ndjson";
        export_service.body :=
          export_service.Text (String.concat ""
                          (map (fun d => d +:+ export.newline)
                             (encodings [samples.exportedAlice]))) |},
     None).
Proof.
  apply (proj1 (ndjson_export_writes_one_line_per_row "users" [samples.exportedAlice] []
                  None allEncode_exportedAlice)).
  reflexivity.
Defined.

(** X27. When the three tables answer, all their rows encode and
    the response takes the CSV records, [StreamExport] streams without error
    exactly for the pairs it serves (any resource as NDJSON or JSON, the
    empty format standing for NDJSON, and users as CSV) and refuses every
    other pair with status 400. *)
Theorem streaming_export_serves_exactly_valid_queries
  (format : models.Time -> string) (writeErr : nat -> repository.error)
  (store : api.Store) (resource fmt : string) :
  sound (api.users store) → sound (api.articles store) → sound (api.comments store) →
  (∀ n, writeErr n = None) →
  match api.StreamExport format writeErr store resource fmt with
  | api.Refused code _ => code = 400 ∧ ¬ servedExport resource fmt
  | api.Streamed out err => err = None ∧ servedExport resource fmt
  | api.Advised _ _ _ _ => False
  end.
Proof.
  intros Hu Ha Hc Hw. unfold api.StreamExport, servedExport, api.isResource.
  pose proof (streamNDJSON_sound "users" _ Hu) as Hun.
  pose proof (streamJSON_sound "users" _ Hu) as Huj.
  pose proof (streamNDJSON_sound "articles" _ Ha) as Han.
  pose proof (streamJSON_sound "articles" _ Ha) as Haj.
  pose proof (streamNDJSON_sound "comments" _ Hc) as Hcn.
  pose proof (streamJSON_sound "comments" _ Hc) as Hcj.
  assert (Hcsv : snd (export_service.streamUsersCSV format writeErr (api.users store)) = None).
  { unfold export_service.streamUsersCSV, export_service.StreamAll. rewrite (csvCallback_all _ _ _ _ Hw).
    destruct Hu as [-> _]. reflexivity. }
  unfold export_service.StreamUsers, export_service.StreamArticles, export_service.StreamComments.
  unfold export_service.streamUsersNDJSON, export_service.streamUsersJSON, export_service.streamArticlesNDJSON,
    export_service.streamArticlesJSON, export_service.streamCommentsNDJSON, export_service.streamCommentsJSON in *.
  destruct (export_service.streamNDJSON "users" (api.users store)) as [o1 e1].
  destruct (export_service.streamJSON "users" (api.users store)) as [o2 e2].
  destruct (export_service.streamUsersCSV format writeErr (api.users store)) as [o3 e3].
  destruct (export_service.streamNDJSON "articles" (api.articles store)) as [o4 e4].
  destruct (export_service.streamJSON "articles" (api.articles store)) as [o5 e5].
  destruct (export_service.streamNDJSON "comments" (api.comments store)) as [o6 e6].
  destruct (export_service.streamJSON "comments" (api.comments store)) as [o7 e7].
  simpl in *. subst.
  destruct (String.eqb_spec resource "") as [Hr0|Hr0];
    destruct (String.eqb_spec resource "users") as [Hr1|Hr1];
    destruct (String.eqb_spec resource "articles") as [Hr2|Hr2];
    destruct (String.eqb_spec resource "comments") as [Hr3|Hr3];
    try (subst; discriminate); cbn [negb orb andb];
    destruct (String.eqb_spec fmt "") as [Hf0|Hf0]; subst;
    repeat match goal with
           | |- context [String.eqb ?a ?b] => destruct (String.eqb_spec a b); try discriminate
           end;
    cbn [negb orb andb]; subst;
    repeat match goal with
           | |- context [String.eqb ?a ?b] => destruct (String.eqb_spec a b); try discriminate
           end;
    try (split; [reflexivity|]; intuition (try discriminate; try congruence)).
Qed.

Lemma sound_oneUserStore :
  sound (api.users samples.oneUserStore) ∧ sound (api.articles samples.oneUserStore)
  ∧ sound (api.comments samples.oneUserStore).
Proof.
  repeat split; try reflexivity; try constructor.
  - eexists. reflexivity.
  - constructor.
Qed.

Lemma streaming_export_serves_exactly_valid_queries_witness :
  match api.StreamExport (fun t => t) (fun _ => None) samples.oneUserStore "users" "csv" with
  | api.Refused code _ => code = 400 ∧ ¬ servedExport "users" "csv"
  | api.Streamed out err => err = None ∧ servedExport "users" "csv"
  | api.Advised _ _ _ _ => False
  end.
Proof.
  apply (streaming_export_serves_exactly_valid_queries (fun t => t) (fun _ => None)
           samples.oneUserStore "users" "csv").
  - apply sound_oneUserStore.
  - apply sound_oneUserStore.
  - apply sound_oneUserStore.
  - reflexivity.
Defined.



Section CSVRoundTrip.
Import GoLib models repository service export export_service api.


End CSVRoundTrip.


Section ConfigFacts.
Import GoLib config.

Lemma getEnv_filled (env : Env) (key defaultValue : string) :
  defaultValue ≠ "" → getEnv env key defaultValue ≠ "".
Proof.
  intros Hd. unfold getEnv. destruct (String.eqb_spec (env key) ""); simpl; assumption.
Qed.

End ConfigFacts.

(** X30. [Load] never fails: for every environment it returns a
    configuration that passes [Validate], because [getEnv] replaces an unset
    or empty variable by a default that is not empty; the database host and
    name, the port and the upload directory are never empty. *)
Theorem Load_never_fails (time_ParseDuration : string -> option config.Duration)
  (env : config.Env) :
  ∃ cfg,
    config.Load time_ParseDuration env = (Some cfg, None)
    ∧ config.Validate cfg = None
    ∧ config.Host (config.Database cfg) ≠ "" ∧ config.Name (config.Database cfg) ≠ ""
    ∧ config.Server_Port (config.Server cfg) ≠ ""
    ∧ config.UploadDir (config.Import cfg) ≠ "".
Proof.
  unfold config.Load.
  match goal with
  | |- context [config.Validate ?c] => set (cfg := c)
  end.
  assert (Hhost : config.Host (config.Database cfg) ≠ "")
    by (apply getEnv_filled; discriminate).
  assert (Hname : config.Name (config.Database cfg) ≠ "")
    by (apply getEnv_filled; discriminate).
  assert (Hvalid : config.Validate cfg = None).
  { unfold config.Validate.
    destruct (String.eqb_spec (config.Host (config.Database cfg)) ""); [contradiction|].
    destruct (String.eqb_spec (config.Name (config.Database cfg)) ""); [contradiction|].
    reflexivity. }
  exists cfg. rewrite Hvalid. repeat split; try assumption.
  all: apply getEnv_filled; discriminate.
Qed.
